(** * AbletonMCP: request/response transport and dispatch

    A shallow embedding of the two programs of the repository:

    - [AbletonMCP_Remote_Script/__init__.py]: the socket server that runs
      inside Live.  Modelled here: [_handle_client] (the per-connection
      receive / parse / dispatch / reply loop) and [_process_command] (the
      router, with the hand-off of state-changing commands to Live's main
      thread through [schedule_message] and a [queue.Queue]), and
      [_server_thread] (the accept loop).
    - [MCP_Server/server.py]: the client.  Modelled here:
      [AbletonConnection.receive_full_response],
      [AbletonConnection.send_command], [AbletonConnection.connect],
      [get_ableton_connection], the table of the commands the tools send,
      and the tools that build their params from optional arguments.

    Python 3 semantics are followed ([bytes] and [str] are distinct, every
    exception raised by the modelled code derives from [Exception]).

    What lies outside the two files is taken as a parameter of the model
    (Section [Transport]): the [json] and UTF-8 codecs of the Python
    library, the builtin [int()], and Live's object model, reached only
    through the [self._xxx(...)] command bodies.  The sockets, the other
    threads and the passing of time are an explicit environment: a script of
    events for the server, a script of [recv] outcomes for the client.

    One handler thread is followed, on one connection.  Live's main thread
    shows through what it does to the script's state: it runs the
    callbacks [schedule_message] accepted, all at once and oldest first,
    either while the handler waits in [queue.get] or between two turns of
    the handler's loop.  Time is counted in seconds, as the floats the
    source passes to [get], [settimeout] and [sleep]. *)

From Stdlib Require Import Floats ZArith String Ascii List Bool Lia.
From Stdlib.Strings Require Import Byte.
From Stdlib.Numbers Require Import DecimalString.
Import ListNotations.

Set Implicit Arguments.
Set Warnings "-register-all,-inexact-float".

Local Open Scope list_scope.
Local Open Scope string_scope.

(** ** Python exceptions *)

(** The part of the [OSError] hierarchy a socket can raise. *)
Inductive os_class : Set :=
| OSError
| ConnectionError
| BrokenPipeError
| ConnectionResetError
| ConnectionAbortedError
| socket_timeout.

(** The exception classes the two programs raise, catch or test for. *)
Inductive exn_class : Set :=
| Exception
| ValueError
| UnicodeDecodeError
| JSONDecodeError
| AssertionError
| AttributeError
| TypeError
| RuntimeError
| IndexError
| queue_Empty
| OS (k : os_class)
| OtherError (name : string).

(** The direct base class; [Exception] is the root. *)
Definition base (c : exn_class) : option exn_class :=
  match c with
  | Exception => None
  | UnicodeDecodeError | JSONDecodeError => Some ValueError
  | OS OSError => Some Exception
  | OS ConnectionError | OS socket_timeout => Some (OS OSError)
  | OS BrokenPipeError | OS ConnectionResetError | OS ConnectionAbortedError =>
      Some (OS ConnectionError)
  | _ => Some Exception
  end.

Definition os_class_eqb (a b : os_class) : bool :=
  match a, b with
  | OSError, OSError | ConnectionError, ConnectionError
  | BrokenPipeError, BrokenPipeError
  | ConnectionResetError, ConnectionResetError
  | ConnectionAbortedError, ConnectionAbortedError
  | socket_timeout, socket_timeout => true
  | _, _ => false
  end.

Definition exn_class_eqb (a b : exn_class) : bool :=
  match a, b with
  | Exception, Exception | ValueError, ValueError
  | UnicodeDecodeError, UnicodeDecodeError
  | JSONDecodeError, JSONDecodeError
  | AssertionError, AssertionError | AttributeError, AttributeError
  | TypeError, TypeError | RuntimeError, RuntimeError
  | IndexError, IndexError | queue_Empty, queue_Empty => true
  | OS k, OS k' => os_class_eqb k k'
  | OtherError n, OtherError n' => String.eqb n n'
  | _, _ => false
  end.

(** [issubclass a b]; the hierarchy above is four levels deep. *)
Fixpoint issubclass_upto (depth : nat) (a b : exn_class) : bool :=
  exn_class_eqb a b ||
  match depth, base a with
  | S d, Some p => issubclass_upto d p b
  | _, _ => false
  end.

Definition issubclass : exn_class -> exn_class -> bool := issubclass_upto 4.

(** A raised exception: its class and [str(e)]. *)
Record exn : Set := Raised { class_of : exn_class; str : string }.

Definition isinstance (e : exn) (c : exn_class) : bool :=
  issubclass (class_of e) c.

(** The outcome of a Python call: a value, or a raised exception. *)
Inductive result (A : Type) : Type :=
| Ok (a : A)
| Raise (e : exn).

Arguments Ok {A} a.
Arguments Raise {A} e.

Definition bind {A B : Type} (r : result A) (k : A -> result B) : result B :=
  match r with
  | Ok a => k a
  | Raise e => Raise e
  end.

Notation "x <- r ;; k" := (bind r (fun x => k))
  (at level 61, r at next level, right associativity).

(** ** Python values that travel as JSON *)

Definition bytes : Set := list byte.

Inductive json : Set :=
| JNull
| JBool (b : bool)
| JInt (n : Z)
| JFloat (x : float)
| JStr (s : string)
| JList (xs : list json)
| JDict (items : list (string * json)).

(** A [dict] is kept as its items in insertion order. *)
Definition dict : Set := list (string * json).

Fixpoint dict_get (d : dict) (key : string) : option json :=
  match d with
  | [] => None
  | (k, v) :: d' => if String.eqb k key then Some v else dict_get d' key
  end.

(** [d[key] = v]: the value of an existing key is replaced where it
    stands, a new key goes to the end. *)
Fixpoint dict_set (d : dict) (key : string) (v : json) : dict :=
  match d with
  | [] => [(key, v)]
  | (k, v') :: d' =>
      if String.eqb k key then (k, v) :: d' else (k, v') :: dict_set d' key v
  end.

Definition type_name (v : json) : string :=
  match v with
  | JNull => "NoneType"
  | JBool _ => "bool"
  | JInt _ => "int"
  | JFloat _ => "float"
  | JStr _ => "str"
  | JList _ => "list"
  | JDict _ => "dict"
  end.

Definition no_attribute (v : json) (attr : string) : exn :=
  Raised AttributeError
         ("'" ++ type_name v ++ "' object has no attribute '" ++ attr ++ "'").

(** [o.get(key, default)]: only a [dict] has the method. *)
Definition py_get (o : json) (key : string) (default : json) : result json :=
  match o with
  | JDict d =>
      Ok match dict_get d key with Some v => v | None => default end
  | _ => Raise (no_attribute o "get")
  end.

(** [v == "literal"]. *)
Definition eq_str (v : json) (literal : string) : bool :=
  match v with
  | JStr s => String.eqb s literal
  | _ => false
  end.

(** Truth value of a decoded JSON value, as [bool(v)] and [v or ...] see it. *)
Definition truthy (v : json) : bool :=
  match v with
  | JNull => false
  | JBool b => b
  | JInt n => negb (Z.eqb n 0)
  | JFloat x => negb (PrimFloat.eqb x 0%float)
  | JStr s => negb (String.eqb s EmptyString)
  | JList xs => match xs with [] => false | _ => true end
  | JDict d => match d with [] => false | _ => true end
  end.

(** The text [s] between double quotes. *)
Definition quoted (s : string) : string :=
  String "034"%char (s ++ String "034"%char EmptyString).

(** ["literal" + v]: only a [str] can be appended to a [str]. *)
Definition str_add (literal : string) (v : json) : result string :=
  match v with
  | JStr s => Ok (literal ++ s)
  | _ => Raise (Raised TypeError
                  ("can only concatenate str (not " ++ quoted (type_name v)
                   ++ ") to str"))
  end.

(** ** The command table of [_process_command]

    Every branch of the router reads its arguments out of [params] with
    [params.get(key, default)] and passes them, in that order, to one method
    of the script.  A branch is kept as data: the method and the arguments
    it reads. *)

Inductive arg : Set :=
| Get (key : string) (default : json)      (* params.get(key, default) *)
| GetInt (key : string) (default : json)   (* int(params.get(key, default)) *)
| GetBool (key : string) (default : json). (* bool(params.get(key, default)) *)

Inductive body : Set :=
| Call (method : string) (args : list arg)
| CallKw (method : string).   (* params.copy() passed as keyword arguments *)


(** The read-only commands answered on the handler's own thread, as the
    [if]/[elif] chain lists them before the main-thread commands. *)
Definition DIRECT : list (string * body) :=
  [ ("get_session_info", Call "_get_session_info" []);
    ("get_application_info", Call "_get_application_info" []);
    ("get_application_view_state", Call "_get_application_view_state" []);
    ("get_application_process_usage",
     Call "_get_application_process_usage" []);
    ("get_application_version", Call "_get_application_version" []);
    ("get_application_document", Call "_get_application_document" []);
    ("list_control_surfaces", Call "_list_control_surfaces" []);
    ("list_scenes", Call "_list_scenes" []);
    ("get_track_info", Call "_get_track_info" [Get "track_index" (JInt 0)]);
    ("get_device_details",
     Call "_get_device_details"
          [Get "track_index" (JInt 0); Get "device_index" (JInt 0)]);
    ("find_device_by_name",
     Call "_find_device_by_name"
          [Get "track_index" (JInt 0); Get "device_name" (JStr EmptyString)]);
    ("get_clip_info",
     Call "_get_clip_info"
          [Get "track_index" (JInt 0); Get "clip_index" (JInt 0)]);
    ("list_locators", Call "_list_locators" []);
    ("list_return_tracks", Call "_list_return_tracks" []) ].

(** The commands that change Live's state: the list of the [elif ... in]
    test, in its order. *)
Definition MAIN_THREAD : list string :=
  [ "create_midi_track"; "create_audio_track"; "set_track_name";
    "create_clip"; "add_notes_to_clip"; "set_clip_name";
    "set_tempo"; "set_signature_denominator"; "set_signature_numerator";
    "fire_clip"; "stop_clip"; "fire_scene";
    "create_scene"; "rename_scene"; "write_automation"; "show_message";
    "create_locator"; "set_song_position"; "set_send_level";
    "start_playback"; "stop_playback"; "load_browser_item";
    "get_device_parameters"; "set_device_parameter"; "delete_device";
    "set_record_mode"; "continue_playing"; "jump_by"; "set_back_to_arranger";
    "set_start_time"; "set_metronome"; "set_clip_trigger_quantization";
    "set_loop"; "set_loop_region"; "play_selection"; "jump_to_next_cue";
    "jump_to_prev_cue"; "toggle_cue_at_current"; "re_enable_automation";
    "set_arrangement_overdub"; "set_session_automation_record";
    "trigger_session_record";
    "duplicate_track_clip_to_arrangement"; "clear_arrangement";
    "rename_cue_point"; "set_current_song_time_beats"; "stop_all_clips";
    "jump_to_cue"; "jump_by_beats";
    "press_current_dialog_button";
    "application_view_focus_view"; "application_view_hide_view";
    "application_view_is_view_visible"; "application_view_scroll_view";
    "application_view_show_view"; "application_view_toggle_browse";
    "application_view_zoom_view"; "application_view_available_main_views" ].

(** The [if]/[elif] chain inside [main_thread_task], in its order. *)
Definition MAIN_THREAD_BODIES : list (string * body) :=
  [ ("create_midi_track", Call "_create_midi_track" [Get "index" (JInt (-1))]);
    ("create_audio_track",
     Call "_create_audio_track" [Get "index" (JInt (-1))]);
    ("set_track_name",
     Call "_set_track_name"
          [Get "track_index" (JInt 0); Get "name" (JStr EmptyString)]);
    ("create_clip",
     Call "_create_clip"
          [Get "track_index" (JInt 0); Get "clip_index" (JInt 0);
           Get "length" (JFloat 4.0)]);
    ("add_notes_to_clip",
     Call "_add_notes_to_clip"
          [Get "track_index" (JInt 0); Get "clip_index" (JInt 0);
           Get "notes" (JList [])]);
    ("set_clip_name",
     Call "_set_clip_name"
          [Get "track_index" (JInt 0); Get "clip_index" (JInt 0);
           Get "name" (JStr EmptyString)]);
    ("set_tempo", Call "_set_tempo" [Get "tempo" (JFloat 120.0)]);
    ("set_signature_denominator",
     Call "_set_signature_denominator"
          [Get "signature_denominator" (JInt 4)]);
    ("set_signature_numerator",
     Call "_set_signature_numerator" [Get "signature_numerator" (JInt 4)]);
    ("fire_clip",
     Call "_fire_clip" [Get "track_index" (JInt 0); Get "clip_index" (JInt 0)]);
    ("stop_clip",
     Call "_stop_clip" [Get "track_index" (JInt 0); Get "clip_index" (JInt 0)]);
    ("fire_scene", Call "_fire_scene" [Get "scene_index" (JInt 0)]);
    ("create_scene", Call "_create_scene" [Get "scene_index" (JInt (-1))]);
    ("rename_scene",
     Call "_rename_scene"
          [Get "scene_index" (JInt 0); Get "name" (JStr EmptyString)]);
    ("create_locator", Call "_create_locator" [Get "time" (JFloat 0.0)]);
    ("set_song_position", Call "_set_song_position" [Get "time" (JFloat 0.0)]);
    ("set_current_song_time_beats",
     Call "_set_current_song_time_beats" [Get "beats" (JFloat 0.0)]);
    ("set_send_level",
     Call "_set_send_level"
          [Get "track_index" (JInt 0); Get "send_index" (JInt 0);
           Get "level" (JFloat 0.0)]);
    ("write_automation", CallKw "_write_automation");
    ("show_message", Call "_show_message" [Get "message" (JStr EmptyString)]);
    ("start_playback", Call "_start_playback" []);
    ("stop_playback", Call "_stop_playback" []);
    ("load_browser_item",
     Call "_load_browser_item"
          [Get "track_index" (JInt 0); Get "item_uri" (JStr EmptyString)]);
    ("set_record_mode", Call "_set_record_mode" [Get "on" (JBool false)]);
    ("continue_playing", Call "_continue_playing" []);
    ("jump_by", Call "_jump_by" [Get "beats" (JFloat 0.0)]);
    ("jump_by_beats", Call "_jump_by" [Get "beats" (JFloat 0.0)]);
    ("set_back_to_arranger",
     Call "_set_back_to_arranger" [Get "on" (JBool false)]);
    ("set_start_time", Call "_set_start_time" [Get "beats" (JFloat 0.0)]);
    ("set_metronome", Call "_set_metronome" [Get "on" (JBool false)]);
    ("set_clip_trigger_quantization",
     Call "_set_clip_trigger_quantization" [Get "quant" (JInt 4)]);
    ("set_loop", Call "_set_loop" [Get "on" (JBool false)]);
    ("set_loop_region",
     Call "_set_loop_region"
          [Get "start" (JFloat 0.0); Get "length" (JFloat 0.0)]);
    ("play_selection", Call "_play_selection" []);
    ("jump_to_next_cue", Call "_jump_to_next_cue" []);
    ("jump_to_prev_cue", Call "_jump_to_prev_cue" []);
    ("jump_to_cue", Call "_jump_to_cue" [Get "index" (JInt 0)]);
    ("toggle_cue_at_current", Call "_toggle_cue_at_current" []);
    ("re_enable_automation", Call "_re_enable_automation" []);
    ("set_arrangement_overdub",
     Call "_set_arrangement_overdub" [Get "on" (JBool false)]);
    ("set_session_automation_record",
     Call "_set_session_automation_record" [Get "on" (JBool false)]);
    ("trigger_session_record",
     Call "_trigger_session_record" [Get "record_length" JNull]);
    ("duplicate_track_clip_to_arrangement",
     Call "_duplicate_track_clip_to_arrangement"
          [Get "track_index" (JInt 0); Get "clip_index" (JInt 0);
           Get "start_beats" (JFloat 0.0); Get "length_beats" (JFloat 0.0);
           Get "loop" JNull]);
    ("clear_arrangement",
     Call "_clear_arrangement" [Get "track_indices" JNull]);
    ("rename_cue_point",
     Call "_rename_cue_point"
          [Get "cue_index" (JInt 0); Get "name" (JStr EmptyString)]);
    ("stop_all_clips", Call "_stop_all_clips" [Get "quantized" (JInt 1)]);
    ("get_device_parameters",
     Call "_get_device_parameters"
          [Get "track_index" (JInt 0); Get "device_index" (JInt 0)]);
    ("set_device_parameter",
     Call "_set_device_parameter"
          [Get "track_index" (JInt 0); Get "device_index" (JInt 0);
           Get "value" (JInt 0); Get "parameter_index" JNull;
           Get "parameter_name" JNull]);
    ("delete_device",
     Call "_delete_device"
          [Get "track_index" (JInt 0); Get "device_index" (JInt 0)]);
    ("press_current_dialog_button",
     Call "_press_current_dialog_button" [Get "index" (JInt 0)]);
    ("application_view_available_main_views",
     Call "_application_view_available_main_views" []);
    ("application_view_focus_view",
     Call "_application_view_focus_view" [Get "view_name" (JStr EmptyString)]);
    ("application_view_hide_view",
     Call "_application_view_hide_view" [Get "view_name" (JStr EmptyString)]);
    ("application_view_is_view_visible",
     Call "_application_view_is_view_visible"
          [Get "view_name" (JStr EmptyString)]);
    ("application_view_scroll_view",
     Call "_application_view_scroll_view"
          [GetInt "direction" (JInt 0); Get "view_name" (JStr EmptyString);
           GetBool "modifier_pressed" (JBool false)]);
    ("application_view_show_view",
     Call "_application_view_show_view" [Get "view_name" (JStr EmptyString)]);
    ("application_view_toggle_browse",
     Call "_application_view_toggle_browse" []);
    ("application_view_zoom_view",
     Call "_application_view_zoom_view"
          [GetInt "direction" (JInt 0); Get "view_name" (JStr EmptyString);
           GetBool "modifier_pressed" (JBool false)]) ].

(** The read-only commands the chain lists after the main-thread ones. *)
Definition DIRECT_LATE : list (string * body) :=
  [ ("get_browser_item",
     Call "_get_browser_item" [Get "uri" JNull; Get "path" JNull]);
    ("get_browser_categories",
     Call "_get_browser_categories" [Get "category_type" (JStr "all")]);
    ("get_browser_items",
     Call "_get_browser_items"
          [Get "path" (JStr EmptyString); Get "item_type" (JStr "all")]);
    ("get_browser_tree",
     Call "get_browser_tree"
          [Get "category_type" (JStr "all"); Get "max_depth" (JInt 2)]);
    ("get_browser_items_at_path",
     Call "get_browser_items_at_path" [Get "path" (JStr EmptyString)]);
    ("get_current_song_time_beats", Call "_get_current_song_time_beats" []) ].

(** The first branch of a chain whose test [command_type == name] holds. *)
Fixpoint find_body (command_type : json) (chain : list (string * body))
  : option body :=
  match chain with
  | [] => None
  | (name, b) :: chain' =>
      if eq_str command_type name then Some b else find_body command_type chain'
  end.

(** [command_type in names]. *)
Definition py_in (command_type : json) (names : list string) : bool :=
  existsb (eq_str command_type) names.

(** The command types the router knows. *)
Definition known_command (command_type : string) : bool :=
  existsb (String.eqb command_type)
          (map fst DIRECT ++ MAIN_THREAD ++ map fst DIRECT_LATE)%list.

(** ** A reference codec

    The fragment of Python's [json] and UTF-8 codecs that the worked
    examples below run on: ASCII text, the escapes of [json.dumps] with its
    default separators, integers, and decimal numerals short enough to be
    read exactly.  The general results are proved for any codec; this one
    makes them run. *)

Module Codec.

Definition dq : ascii := "034"%char.
Definition backslash : ascii := "092"%char.

Definition hex_digit (n : N) : ascii :=
  ascii_of_N (if (n <? 10)%N then 48 + n else 87 + n).

(** [\u00XX]. *)
Definition u_escape (c : ascii) : string :=
  let n := N_of_ascii c in
  String backslash
    (String "u" (String "0" (String "0"
      (String (hex_digit (n / 16)) (String (hex_digit (n mod 16))
        EmptyString))))).

Definition escape_char (c : ascii) : string :=
  let short (x : ascii) := String backslash (String x EmptyString) in
  if Ascii.eqb c dq then short dq
  else if Ascii.eqb c backslash then short backslash
  else if Ascii.eqb c "010"%char then short "n"%char
  else if Ascii.eqb c "013"%char then short "r"%char
  else if Ascii.eqb c "009"%char then short "t"%char
  else if Ascii.eqb c "008"%char then short "b"%char
  else if Ascii.eqb c "012"%char then short "f"%char
  else if ((N_of_ascii c <? 32) || (126 <? N_of_ascii c))%N then u_escape c
  else String c EmptyString.

Fixpoint escape (s : string) : string :=
  match s with
  | EmptyString => EmptyString
  | String c s' => escape_char c ++ escape s'
  end.

Definition dumps_str (s : string) : string :=
  String dq (escape s ++ String dq EmptyString).

Definition decimal (n : Z) : string :=
  DecimalString.NilZero.string_of_int (Z.to_int n).

(** The digits of [n] after the point, [width] of them, without the
    zeros at the end. *)
Fixpoint fraction (width : nat) (n : Z) : string :=
  match width with
  | O => EmptyString
  | S w =>
      if (n =? 0)%Z then EmptyString
      else decimal (n * 10 / 10 ^ Z.of_nat width)
           ++ fraction w (n * 10 mod 10 ^ Z.of_nat width / 10)
  end.

(** A float is written with its exact decimal expansion ([4.0], [0.5]);
    Python writes the shortest numeral that reads back to the same
    float, which is this one for the whole numbers below [1e16]. *)
Definition dumps_float (x : float) : string :=
  match Prim2SF x with
  | S754_zero s => if s then "-0.0" else "0.0"
  | S754_infinity s => if s then "-Infinity" else "Infinity"
  | S754_nan => "NaN"
  | S754_finite s m e =>
      let sign := if s then "-" else EmptyString in
      if (0 <=? e)%Z then
        sign ++ decimal (Z.pos m * 2 ^ e) ++ ".0"
      else
        let k := Z.to_nat (- e) in
        let scaled := (Z.pos m * 5 ^ (- e))%Z in     (* value * 10^k *)
        let whole := (scaled / 10 ^ (- e))%Z in
        let rest := (scaled mod 10 ^ (- e))%Z in
        sign ++ decimal whole ++ "." ++
        (if (rest =? 0)%Z then "0" else fraction k rest)
  end.

Section Dumps.
Variable dumps : json -> string.

Fixpoint dumps_list (xs : list json) : string :=
  match xs with
  | [] => EmptyString
  | [x] => dumps x
  | x :: xs' => dumps x ++ ", " ++ dumps_list xs'
  end.

Fixpoint dumps_items (d : list (string * json)) : string :=
  match d with
  | [] => EmptyString
  | [(k, v)] => dumps_str k ++ ": " ++ dumps v
  | (k, v) :: d' => dumps_str k ++ ": " ++ dumps v ++ ", " ++ dumps_items d'
  end.
End Dumps.

(** [json.dumps(v)]. *)
Fixpoint dumps (v : json) : string :=
  match v with
  | JNull => "null"
  | JBool true => "true"
  | JBool false => "false"
  | JInt n => decimal n
  | JFloat x => dumps_float x
  | JStr s => dumps_str s
  | JList xs => "[" ++ dumps_list dumps xs ++ "]"
  | JDict d => "{" ++ dumps_items dumps d ++ "}"
  end.

(** *** Reading *)

Definition is_ws (c : ascii) : bool :=
  Ascii.eqb c " " || Ascii.eqb c "009" || Ascii.eqb c "010"
  || Ascii.eqb c "013".

Fixpoint skip_ws (s : string) : string :=
  match s with
  | String c s' => if is_ws c then skip_ws s' else s
  | EmptyString => s
  end.

Definition digit_of (c : ascii) : option Z :=
  let n := N_of_ascii c in
  if ((48 <=? n) && (n <=? 57))%N then Some (Z.of_N n - 48)%Z else None.

Definition hex_of (c : ascii) : option N :=
  let n := N_of_ascii c in
  if ((48 <=? n) && (n <=? 57))%N then Some (n - 48)%N
  else if ((97 <=? n) && (n <=? 102))%N then Some (n - 87)%N
  else if ((65 <=? n) && (n <=? 70))%N then Some (n - 55)%N
  else None.

(** The run of digits at the head of [s]: their value, how many, the rest. *)
Fixpoint digits (s : string) (value : Z) (count : nat) : Z * nat * string :=
  match s with
  | String c s' =>
      match digit_of c with
      | Some d => digits s' (value * 10 + d) (S count)
      | None => (value, count, s)
      end
  | EmptyString => (value, count, s)
  end.

(** [prefix p s]: what follows [p] at the head of [s]. *)
Fixpoint prefix (p s : string) : option string :=
  match p, s with
  | EmptyString, _ => Some s
  | String a p', String b s' => if Ascii.eqb a b then prefix p' s' else None
  | _, _ => None
  end.

(** An escape, after its backslash. *)
Definition unescape (s : string) : option (ascii * string) :=
  match s with
  | String c s' =>
      if Ascii.eqb c dq then Some (dq, s')
      else if Ascii.eqb c backslash then Some (backslash, s')
      else if Ascii.eqb c "/" then Some ("/"%char, s')
      else if Ascii.eqb c "n" then Some ("010"%char, s')
      else if Ascii.eqb c "r" then Some ("013"%char, s')
      else if Ascii.eqb c "t" then Some ("009"%char, s')
      else if Ascii.eqb c "b" then Some ("008"%char, s')
      else if Ascii.eqb c "f" then Some ("012"%char, s')
      else if Ascii.eqb c "u" then
        match s' with
        | String a (String b (String x (String y s''))) =>
            match hex_of a, hex_of b, hex_of x, hex_of y with
            | Some 0%N, Some 0%N, Some h, Some l =>
                Some (ascii_of_N (h * 16 + l), s'')
            | _, _, _, _ => None
            end
        | _ => None
        end
      else None
  | EmptyString => None
  end.

(** A string, after its opening quote. *)
Fixpoint scan_string (fuel : nat) (s : string) : option (string * string) :=
  match fuel, s with
  | S fuel', String c s' =>
      if Ascii.eqb c dq then Some (EmptyString, s')
      else if Ascii.eqb c backslash then
        match unescape s' with
        | Some (x, s'') =>
            match scan_string fuel' s'' with
            | Some (text, rest) => Some (String x text, rest)
            | None => None
            end
        | None => None
        end
      else if (N_of_ascii c <? 32)%N then None
      else
        match scan_string fuel' s' with
        | Some (text, rest) => Some (String c text, rest)
        | None => None
        end
  | _, _ => None
  end.

(** A number: an optional sign, an integer part without a leading zero,
    an optional fraction.  A numeral with a fraction is read when its
    digits and its scale fit a float exactly, so that one division gives
    the float Python reads; an exponent is outside the fragment. *)
Definition scan_number (s : string) : option (json * string) :=
  let '(negative, s1) :=
    match prefix "-" s with
    | Some r => (true, r)
    | None => (false, s)
    end in
  let signed (n : Z) := if negative then (- n)%Z else n in
  let int_part :=
    match prefix "0" s1 with
    | Some r => Some (0%Z, r)
    | None =>
        match digits s1 0 0 with
        | (_, O, _) => None
        | (n, _, r) => Some (n, r)
        end
    end in
  match int_part with
  | None => None
  | Some (n, r) =>
      match prefix "." r with
      | None => Some (JInt (signed n), r)
      | Some r' =>
          match digits r' n 0 with
          | (_, O, _) => None
          | (m, k, r'') =>
              if ((m <? 2 ^ 53) && (Z.of_nat k <=? 22))%Z then
                let x := PrimFloat.div
                           (PrimFloat.of_uint63 (Uint63.of_Z m))
                           (PrimFloat.of_uint63
                              (Uint63.of_Z (10 ^ Z.of_nat k))) in
                Some (JFloat (if negative then PrimFloat.opp x else x), r'')
              else None
          end
      end
  end.

Definition scan_literal (s : string) : option (json * string) :=
  match prefix "null" s with
  | Some r => Some (JNull, r)
  | None =>
  match prefix "true" s with
  | Some r => Some (JBool true, r)
  | None =>
  match prefix "false" s with
  | Some r => Some (JBool false, r)
  | None =>
  match prefix "NaN" s with
  | Some r => Some (JFloat PrimFloat.nan, r)
  | None =>
  match prefix "Infinity" s with
  | Some r => Some (JFloat PrimFloat.infinity, r)
  | None =>
  match prefix "-Infinity" s with
  | Some r => Some (JFloat PrimFloat.neg_infinity, r)
  | None => scan_number s
  end end end end end end.

(** One JSON value at the head of [s], and what follows it. *)
Fixpoint scan_value (fuel : nat) (s : string) : option (json * string) :=
  match fuel with
  | O => None
  | S fuel' =>
      match s with
      | String c s' =>
          if Ascii.eqb c dq then
            match scan_string fuel' s' with
            | Some (text, rest) => Some (JStr text, rest)
            | None => None
            end
          else if Ascii.eqb c "[" then
            match skip_ws s' with
            | String "]" rest => Some (JList [], rest)
            | s'' =>
                match scan_elements fuel' s'' with
                | Some (xs, rest) => Some (JList xs, rest)
                | None => None
                end
            end
          else if Ascii.eqb c "{" then
            match skip_ws s' with
            | String "}" rest => Some (JDict [], rest)
            | s'' =>
                match scan_members fuel' s'' [] with
                | Some (d, rest) => Some (JDict d, rest)
                | None => None
                end
            end
          else scan_literal s
      | EmptyString => None
      end
  end

with scan_elements (fuel : nat) (s : string)
  : option (list json * string) :=
  match fuel with
  | O => None
  | S fuel' =>
      match scan_value fuel' s with
      | Some (x, rest) =>
          match skip_ws rest with
          | String "," rest' =>
              match scan_elements fuel' (skip_ws rest') with
              | Some (xs, rest'') => Some (x :: xs, rest'')
              | None => None
              end
          | String "]" rest' => Some ([x], rest')
          | _ => None
          end
      | None => None
      end
  end

with scan_members (fuel : nat) (s : string) (d : list (string * json))
  : option (list (string * json) * string) :=
  match fuel with
  | O => None
  | S fuel' =>
      match s with
      | String c s' =>
          if Ascii.eqb c dq then
            match scan_string fuel' s' with
            | Some (key, rest) =>
                match skip_ws rest with
                | String ":" rest' =>
                    match scan_value fuel' (skip_ws rest') with
                    | Some (v, rest'') =>
                        match skip_ws rest'' with
                        | String "," r =>
                            scan_members fuel' (skip_ws r) (dict_set d key v)
                        | String "}" r => Some (dict_set d key v, r)
                        | _ => None
                        end
                    | None => None
                    end
                | _ => None
                end
            | None => None
            end
          else None
      | EmptyString => None
      end
  end.

(** [json.loads(s)]: one value, with nothing but white space around it. *)
Definition loads (s : string) : option json :=
  match scan_value (S (String.length s)) (skip_ws s) with
  | Some (v, rest) =>
      match skip_ws rest with
      | EmptyString => Some v
      | _ => None          (* Extra data *)
      end
  | None => None
  end.

(** *** UTF-8, on ASCII *)

Definition is_ascii (b : byte) : bool := (Byte.to_N b <? 128)%N.

(** [data.decode('utf-8')] where every byte is ASCII. *)
Definition decode (data : bytes) : option string :=
  if forallb is_ascii data then Some (string_of_list_byte data) else None.

(** [text.encode('utf-8')]; [dumps] only writes ASCII. *)
Definition encode (text : string) : bytes := list_byte_of_string text.

End Codec.

(** ** A stand-in for Live and for two builtins

    The command bodies of the script are not modelled: the general results
    hold whatever they do.  To run the model, this module gives a small Live
    (a tempo and a number of tracks) with three of the script's methods, and
    the builtins [int()] and [repr()] on decoded JSON values. *)

Module Studio.

Record Live : Set := { tempo : json; tracks : Z }.

(** [self.method( *args )] for [_get_session_info], [_get_track_info],
    [_create_midi_track] and [_set_tempo]; the script has no other method
    here. *)
Definition call (method : string) (args : list json) (l : Live)
  : result json * Live :=
  if String.eqb method "_get_session_info" then
    (Ok (JDict [("tempo", tempo l); ("track_count", JInt (tracks l))]), l)
  else if String.eqb method "_get_track_info" then
    match args with
    | [JInt i] =>
        if ((i <? 0) || (tracks l <=? i))%Z
        then (Raise (Raised IndexError "Track index out of range"), l)
        else (Ok (JDict [("index", JInt i)]), l)
    | _ => (Raise (Raised TypeError "track_index must be an int"), l)
    end
  else if String.eqb method "_create_midi_track" then
    (Ok (JDict [("index", JInt (tracks l)); ("name", JStr "MIDI")]),
     {| tempo := tempo l; tracks := tracks l + 1 |})
  else if String.eqb method "_set_tempo" then
    match args with
    | [t] => (Ok (JDict [("tempo", t)]), {| tempo := t; tracks := tracks l |})
    | _ => (Raise (Raised TypeError "_set_tempo() takes one argument"), l)
    end
  else
    (Raise (Raised AttributeError
              ("'AbletonMCP' object has no attribute '" ++ method ++ "'")),
     l).

Definition call_kw (method : string) (kwargs : dict) (l : Live)
  : result json * Live :=
  (Raise (Raised AttributeError
            ("'AbletonMCP' object has no attribute '" ++ method ++ "'")),
   l).

(** [int(v)]. *)
Definition py_int (v : json) : result json :=
  match v with
  | JInt n => Ok (JInt n)
  | JBool b => Ok (JInt (if b then 1 else 0))
  | JFloat x =>
      match Prim2SF x with
      | S754_zero _ => Ok (JInt 0)
      | S754_finite s m e =>
          let n := (if 0 <=? e then Z.pos m * 2 ^ e
                    else Z.pos m / 2 ^ (- e))%Z in
          Ok (JInt (if s then - n else n))
      | S754_infinity _ =>
          Raise (Raised (OtherError "OverflowError")
                   "cannot convert float infinity to integer")
      | S754_nan =>
          Raise (Raised ValueError "cannot convert float NaN to integer")
      end
  | JStr s =>
      match Codec.scan_number s with
      | Some (JInt n, EmptyString) => Ok (JInt n)
      | _ => Raise (Raised ValueError
                      ("invalid literal for int() with base 10: '"
                       ++ s ++ "'"))
      end
  | _ => Raise (Raised TypeError
                  ("int() argument must be a string, a bytes-like object "
                   ++ "or a real number, not '" ++ type_name v ++ "'"))
  end.

Section Repr.
Variable repr : json -> string.

Fixpoint repr_list (xs : list json) : string :=
  match xs with
  | [] => EmptyString
  | [x] => repr x
  | x :: xs' => repr x ++ ", " ++ repr_list xs'
  end.

Fixpoint repr_items (d : list (string * json)) : string :=
  match d with
  | [] => EmptyString
  | [(k, v)] => "'" ++ k ++ "': " ++ repr v
  | (k, v) :: d' => "'" ++ k ++ "': " ++ repr v ++ ", " ++ repr_items d'
  end.
End Repr.

(** [repr(v)], for text without quotes or escapes. *)
Fixpoint py_repr (v : json) : string :=
  match v with
  | JNull => "None"
  | JBool true => "True"
  | JBool false => "False"
  | JInt n => Codec.decimal n
  | JFloat x => Codec.dumps_float x
  | JStr s => "'" ++ s ++ "'"
  | JList xs => "[" ++ repr_list py_repr xs ++ "]"
  | JDict d => "{" ++ repr_items py_repr d ++ "}"
  end.

(** A session of two tracks at 120 beats per minute. *)
Definition session : Live := {| tempo := JFloat 120; tracks := 2 |}.

(** A command as [send_command] builds it, and the bytes it sends. *)
Definition command (command_type : string) (params : dict) : dict :=
  [("type", JStr command_type); ("params", JDict params)].

Definition sent (v : json) : bytes := Codec.encode (Codec.dumps v).

(** The same bytes, arriving in two chunks cut after [n] characters. *)
Definition sent_in_two (n : nat) (v : json) : list bytes :=
  let text := Codec.dumps v in
  [Codec.encode (substring 0 n text);
   Codec.encode (substring n (String.length text - n) text)].

End Studio.

(** ** Sockets, as the two programs see them *)

(** What one [recv] call gives: data (empty when the peer has closed), or an
    exception. *)
Inductive recv_outcome : Set :=
| Data (data : bytes)
| RecvError (e : exn).

(** An error of the operating system's socket layer. *)
Record os_error : Set := OsError { os_kind : os_class; os_message : string }.

Definition exn_of_os (e : os_error) : exn :=
  Raised (OS (os_kind e)) (os_message e).

(** What went over a connection, oldest first. *)
Inductive io : Set :=
| Rx (data : bytes)    (* returned by recv *)
| Tx (data : bytes).   (* written by sendall *)

Section Transport.

(** *** The Python library *)

(** [json.loads]; [None] stands for the [ValueError] ([JSONDecodeError])
    raised on a text that is not one JSON document. *)
Variable json_loads : string -> option json.
Variable json_dumps : json -> string.
(** [bytes.decode('utf-8')]; [None] stands for [UnicodeDecodeError]. *)
Variable utf8_decode : bytes -> option string.
Variable utf8_encode : string -> bytes.
(** The builtin [int()]. *)
Variable py_int : json -> result json.

(** *** Live *)

(** The state of Live's object model, and the methods of the script that
    read or change it: [call m args live] is [self.m( *args )]. *)
Variable Live : Type.
Variable call : string -> list json -> Live -> result json * Live.
Variable call_kw : string -> dict -> Live -> result json * Live.

Definition decode_error : exn :=
  Raised UnicodeDecodeError "'utf-8' codec can't decode bytes".

Definition json_error : exn :=
  Raised JSONDecodeError "Expecting value".

(** *** The server: [AbletonMCP_Remote_Script/__init__.py] *)

(** The closure [main_thread_task]: it captures [command_type], [params]
    and [response_queue]. *)
Record Task : Set := {
  task_command_type : json;
  task_params : json;
  task_queue : nat
}.

(** How [schedule_message] and Live's main thread behave at a given
    moment.  [Services delay]: the callback is accepted and the main thread
    runs what is scheduled [delay] seconds later.  [Refuses e]:
    [schedule_message] raises [e]. *)
Inductive main_thread_mode : Set :=
| Services (delay : float)
| Refuses (e : exn).

(** The script object [self], with what the framework holds for it. *)
Record Server : Type := {
  running : bool;                 (* self.running *)
  live : Live;
  main_thread : main_thread_mode;
  scheduled : list Task;          (* accepted by schedule_message, oldest first *)
  queues : list (list json)       (* every queue.Queue() made so far *)
}.

Definition set_running (s : Server) (b : bool) : Server :=
  {| running := b; live := live s; main_thread := main_thread s;
     scheduled := scheduled s; queues := queues s |}.

Definition set_live (s : Server) (l : Live) : Server :=
  {| running := running s; live := l; main_thread := main_thread s;
     scheduled := scheduled s; queues := queues s |}.

Definition set_main_thread (s : Server) (m : main_thread_mode) : Server :=
  {| running := running s; live := live s; main_thread := m;
     scheduled := scheduled s; queues := queues s |}.

Definition set_scheduled (s : Server) (ts : list Task) : Server :=
  {| running := running s; live := live s; main_thread := main_thread s;
     scheduled := ts; queues := queues s |}.

Definition set_queues (s : Server) (qs : list (list json)) : Server :=
  {| running := running s; live := live s; main_thread := main_thread s;
     scheduled := scheduled s; queues := qs |}.

(** [queue.Queue()]: a fresh, empty queue. *)
Definition queue_new (s : Server) : nat * Server :=
  (length (queues s), set_queues s (queues s ++ [[]])%list).

Fixpoint put_nth (qs : list (list json)) (q : nat) (item : json)
  : list (list json) :=
  match qs, q with
  | [], _ => []
  | items :: qs', O => (items ++ [item])%list :: qs'
  | items :: qs', S q' => items :: put_nth qs' q' item
  end.

(** [queue.put(item)]. *)
Definition queue_put (q : nat) (item : json) (s : Server) : Server :=
  set_queues s (put_nth (queues s) q item).

Fixpoint take_nth (qs : list (list json)) (q : nat)
  : option (json * list (list json)) :=
  match qs, q with
  | [], _ => None
  | [] :: _, O => None
  | (item :: items) :: qs', O => Some (item, items :: qs')
  | items :: qs', S q' =>
      match take_nth qs' q' with
      | Some (item, qs'') => Some (item, items :: qs'')
      | None => None
      end
  end.

(** [queue.get_nowait()]. *)
Definition queue_take (q : nat) (s : Server) : option (json * Server) :=
  match take_nth (queues s) q with
  | Some (item, qs) => Some (item, set_queues s qs)
  | None => None
  end.

(** One argument read out of [params]. *)
Definition extract (params : json) (a : arg) : result json :=
  match a with
  | Get key default => py_get params key default
  | GetInt key default => v <- py_get params key default ;; py_int v
  | GetBool key default =>
      v <- py_get params key default ;; Ok (JBool (truthy v))
  end.

Fixpoint extract_all (params : json) (args : list arg)
  : result (list json) :=
  match args with
  | [] => Ok []
  | a :: args' =>
      v <- extract params a ;;
      vs <- extract_all params args' ;;
      Ok (v :: vs)
  end.

(** One branch of the router: read the arguments, call the method. *)
Definition run_body (b : body) (params : json) (l : Live)
  : result json * Live :=
  match b with
  | Call method args =>
      match extract_all params args with
      | Ok vs => call method vs l
      | Raise e => (Raise e, l)
      end
  | CallKw method =>
      match params with
      | JDict d => call_kw method d l
      | JList _ =>
          (Raise (Raised TypeError
                    "argument after ** must be a mapping, not list"), l)
      | _ => (Raise (no_attribute params "copy"), l)
      end
  end.

Definition task_success (v : json) : json :=
  JDict [("status", JStr "success"); ("result", v)].

Definition task_error (e : exn) : json :=
  JDict [("status", JStr "error"); ("message", JStr (str e))].

(** The [if]/[elif] chain of [main_thread_task]; [result] stays [None]
    when no branch matches. *)
Definition task_body (t : Task) (l : Live) : result json * Live :=
  match find_body (task_command_type t) MAIN_THREAD_BODIES with
  | Some b => run_body b (task_params t) l
  | None => (Ok JNull, l)
  end.

(** What [main_thread_task] puts in the queue. *)
Definition task_item (r : result json) : json :=
  match r with
  | Ok v => task_success v
  | Raise e => task_error e
  end.

(** [main_thread_task()]. *)
Definition main_thread_task (t : Task) (s : Server) : Server :=
  let '(r, l) := task_body t (live s) in
  queue_put (task_queue t) (task_item r) (set_live s l).

(** [self.schedule_message(0, task)]. *)
Definition schedule_message (t : Task) (s : Server) : result unit * Server :=
  match main_thread s with
  | Services _ => (Ok tt, set_scheduled s (scheduled s ++ [t])%list)
  | Refuses e => (Raise e, s)
  end.

(** Live's main thread runs every scheduled callback once, oldest first. *)
Definition run_scheduled (s : Server) : Server :=
  fold_left (fun s' t => main_thread_task t s')
            (scheduled s) (set_scheduled s []).

(** [queue.get(timeout=timeout)]: an item already there is taken at once;
    otherwise the caller blocks, and sees an item only if the main thread
    runs the scheduled callbacks before [timeout] seconds have passed. *)
Definition queue_get (q : nat) (timeout : float) (s : Server)
  : result json * Server :=
  match queue_take q s with
  | Some (item, s') => (Ok item, s')
  | None =>
      match main_thread s with
      | Services delay =>
          if PrimFloat.leb delay timeout then
            let s1 := run_scheduled s in
            match queue_take q s1 with
            | Some (item, s') => (Ok item, s')
            | None => (Raise (Raised queue_Empty EmptyString), s1)
            end
          else (Raise (Raised queue_Empty EmptyString), s)
      | Refuses _ => (Raise (Raised queue_Empty EmptyString), s)
      end
  end.

(** **** [_process_command] *)

(** Where the body of the [try] statement stands: how it ended, the
    [response] dict as filled in so far, the script. *)
Definition routed : Type := result unit * dict * Server.

(** A command answered in place: [response["result"] = self.method(...)]. *)
Definition direct (b : body) (params : json) (response : dict) (s : Server)
  : routed :=
  let '(r, l) := run_body b params (live s) in
  match r with
  | Ok v => (Ok tt, dict_set response "result" v, set_live s l)
  | Raise e => (Raise e, response, set_live s l)
  end.

Definition timed_out (response : dict) : dict :=
  dict_set (dict_set response "status" (JStr "error"))
           "message" (JStr "Timeout waiting for operation to complete").

(** What the handler makes of the item it got from the queue. *)
Definition collect (task_response : json) (response : dict)
  : result unit * dict :=
  match py_get task_response "status" JNull with
  | Raise e => (Raise e, response)
  | Ok st =>
      if eq_str st "error" then
        let response := dict_set response "status" (JStr "error") in
        match py_get task_response "message" (JStr "Unknown error") with
        | Ok m => (Ok tt, dict_set response "message" m)
        | Raise e => (Raise e, response)
        end
      else
        match py_get task_response "result" (JDict []) with
        | Ok v => (Ok tt, dict_set response "result" v)
        | Raise e => (Raise e, response)
        end
  end.

(** A command handed to the main thread. *)
Definition marshalled (command_type params : json) (response : dict)
           (s : Server) : routed :=
  let '(q, s0) := queue_new s in
  let task := {| task_command_type := command_type;
                 task_params := params;
                 task_queue := q |} in
  let '(r, s1) :=
    match schedule_message task s0 with
    | (Ok _, s') => (Ok tt, s')
    | (Raise e, s') =>
        if isinstance e AssertionError
        then (Ok tt, main_thread_task task s')
        else (Raise e, s')
    end in
  match r with
  | Raise e => (Raise e, response, s1)
  | Ok _ =>
      match queue_get q 10.0 s1 with
      | (Ok task_response, s2) =>
          let '(r', response') := collect task_response response in
          (r', response', s2)
      | (Raise e, s2) =>
          if isinstance e queue_Empty
          then (Ok tt, timed_out response, s2)
          else (Raise e, response, s2)
      end
  end.

(** The [else] branch. *)
Definition unknown (command_type : json) (response : dict) (s : Server)
  : routed :=
  let response := dict_set response "status" (JStr "error") in
  match str_add "Unknown command: " command_type with
  | Ok m => (Ok tt, dict_set response "message" (JStr m), s)
  | Raise e => (Raise e, response, s)
  end.

(** The [if]/[elif] chain. *)
Definition route (command_type params : json) (response : dict)
           (s : Server) : routed :=
  match find_body command_type DIRECT with
  | Some b => direct b params response s
  | None =>
      if py_in command_type MAIN_THREAD
      then marshalled command_type params response s
      else
        match find_body command_type DIRECT_LATE with
        | Some b => direct b params response s
        | None => unknown command_type response s
        end
  end.

(** The [response] dict [_process_command] starts from. *)
Definition initial_response : dict :=
  [("status", JStr "success"); ("result", JDict [])].

Definition _process_command (command : json) (s : Server)
  : result json * Server :=
  match py_get command "type" (JStr EmptyString) with
  | Raise e => (Raise e, s)
  | Ok command_type =>
      match py_get command "params" (JDict []) with
      | Raise e => (Raise e, s)
      | Ok params =>
          match route command_type params initial_response s with
          | (Ok _, response', s') => (Ok (JDict response'), s')
          | (Raise e, response', s') =>
              (* except Exception as e *)
              (Ok (JDict (dict_set
                            (dict_set response' "status" (JStr "error"))
                            "message" (JStr (str e)))), s')
          end
      end
  end.

(** **** [_handle_client] *)

(** One accepted connection: the handler's [buffer], what went over the
    socket, and the error every [sendall] raises once the peer is gone. *)
Record Conn : Set := {
  buffer : string;
  wire : list io;
  write_error : option os_error
}.

Definition set_buffer (c : Conn) (b : string) : Conn :=
  {| buffer := b; wire := wire c; write_error := write_error c |}.

Definition log_io (c : Conn) (x : io) : Conn :=
  {| buffer := buffer c; wire := (wire c ++ [x])%list;
     write_error := write_error c |}.

Definition set_write_error (c : Conn) (e : option os_error) : Conn :=
  {| buffer := buffer c; wire := wire c; write_error := e |}.

(** [client.sendall(payload)]. *)
Definition sendall (payload : bytes) (c : Conn) : result unit * Conn :=
  match write_error c with
  | Some e => (Raise (exn_of_os e), c)
  | None => (Ok tt, log_io c (Tx payload))
  end.

Inductive control : Set := Continue | Break.

Definition error_response (e : exn) : json :=
  JDict [("status", JStr "error"); ("message", JStr (str e))].

(** The handler of [except Exception as e]: answer with the error if that
    is still possible, and go on only after a [ValueError]. *)
Definition on_exception (e : exn) (c : Conn) : control * Conn :=
  match sendall (utf8_encode (json_dumps (error_response e))) c with
  | (Raise _, c') => (Break, c')
  | (Ok _, c') =>
      if isinstance e ValueError then (Continue, c') else (Break, c')
  end.

(** The inner [try] once the buffer has parsed and has been cleared:
    log the type, process the command, send the response. *)
Definition dispatch (command : json) (c : Conn) (s : Server)
  : result unit * Conn * Server :=
  match py_get command "type" (JStr "unknown") with
  | Raise e => (Raise e, c, s)
  | Ok _ =>
      match _process_command command s with
      | (Raise e, s') => (Raise e, c, s')
      | (Ok response, s') =>
          let '(r, c') := sendall (utf8_encode (json_dumps response)) c in
          (r, c', s')
      end
  end.

(** The inner [try]: parse the whole buffer, clear it, dispatch. *)
Definition parse_and_reply (c : Conn) (s : Server)
  : result unit * Conn * Server :=
  match json_loads (buffer c) with
  | None => (Raise json_error, c, s)
  | Some command => dispatch command (set_buffer c EmptyString) s
  end.

(** How a turn ends: [except ValueError: continue] inside,
    [except Exception] outside. *)
Definition end_of_turn (x : result unit * Conn * Server)
  : control * Conn * Server :=
  match x with
  | (Ok _, c, s) => (Continue, c, s)
  | (Raise e, c, s) =>
      if isinstance e ValueError
      then (Continue, c, s)    (* incomplete data, wait for more *)
      else let '(k, c') := on_exception e c in (k, c', s)
  end.

(** One turn of the [while] loop, from the return of [client.recv(8192)]. *)
Definition iteration (r : recv_outcome) (c : Conn) (s : Server)
  : control * Conn * Server :=
  match r with
  | RecvError e => let '(k, c') := on_exception e c in (k, c', s)
  | Data data =>
      let c := log_io c (Rx data) in
      match data with
      | [] => (Break, c, s)
      | _ =>
          match utf8_decode data with
          | None => let '(k, c') := on_exception decode_error c in (k, c', s)
          | Some text =>
              end_of_turn
                (parse_and_reply (set_buffer c (buffer c ++ text)) s)
          end
      end
  end.

(** What happens around a handler blocked in [recv]. *)
Inductive event : Set :=
| Recv (r : recv_outcome)              (* recv returns *)
| PeerGone (e : os_error)              (* from now on sendall raises e *)
| Stop                                 (* disconnect(): self.running = False *)
| Tick                                 (* the main thread runs its callbacks *)
| SetMainThread (m : main_thread_mode).

Inductive status : Set :=
| Reading    (* blocked in recv, the connection is open *)
| Closed.    (* the loop was left, client.close() was called *)

(** The [while self.running] loop, entered with [self.running] true. *)
Fixpoint handle_loop (evs : list event) (c : Conn) (s : Server)
  : status * Conn * Server :=
  match evs with
  | [] => (Reading, c, s)
  | Recv r :: evs' =>
      let '(k, c', s') := iteration r c s in
      match k with
      | Break => (Closed, c', s')
      | Continue =>
          if running s' then handle_loop evs' c' s' else (Closed, c', s')
      end
  | PeerGone e :: evs' => handle_loop evs' (set_write_error c (Some e)) s
  | Stop :: evs' => handle_loop evs' c (set_running s false)
  | Tick :: evs' => handle_loop evs' c (run_scheduled s)
  | SetMainThread m :: evs' => handle_loop evs' c (set_main_thread s m)
  end.

(** The script once [start_server] has run, with Live in state [l] and
    the main thread behaving as [m]. *)
Definition started (l : Live) (m : main_thread_mode) : Server :=
  {| running := true; live := l; main_thread := m;
     scheduled := []; queues := [] |}.

Definition new_conn : Conn :=
  {| buffer := EmptyString; wire := []; write_error := None |}.

Definition _handle_client (evs : list event) (s : Server)
  : status * Conn * Server :=
  if running s then handle_loop evs new_conn s else (Closed, new_conn, s).

(** **** [_server_thread] *)

(** What [self.server.accept()] gives: a client, numbered by the
    environment, or an exception ([socket.timeout] when nobody came
    within the second the listening socket waits). *)
Inductive accept_outcome : Set :=
| Accepted (client : nat)
| AcceptError (e : exn).

(** What happens around the server thread. *)
Inductive listener_event : Set :=
| Accept (o : accept_outcome)    (* accept returns or raises *)
| Halt                           (* disconnect(): self.running = False *)
| Ended (client : nat).          (* the handler thread of a client ends *)

(** The part of the script the server thread works on, and what it has
    done: the handler threads it started and its [time.sleep] calls,
    oldest first. *)
Record Listener : Set := {
  accepting : bool;              (* self.running *)
  client_threads : list nat;     (* self.client_threads, by client *)
  alive : list nat;              (* the handler threads that have not ended *)
  handlers : list nat;
  naps : list float
}.

(** A client was accepted: its handler thread is started (and is alive
    until the environment says it has ended) and appended to
    [self.client_threads], and the threads that are not alive are dropped
    from that list. *)
Definition accepted (client : nat) (st : Listener) : Listener :=
  let alive' := (alive st ++ [client])%list in
  {| accepting := accepting st;
     client_threads :=
       filter (fun t => existsb (Nat.eqb t) alive')
              (client_threads st ++ [client])%list;
     alive := alive';
     handlers := (handlers st ++ [client])%list;
     naps := naps st |}.

(** [accept] raised: a timeout is passed over, anything else costs half a
    second. *)
Definition accept_failed (e : exn) (st : Listener) : Listener :=
  if isinstance e (OS socket_timeout) then st
  else {| accepting := accepting st;
          client_threads := client_threads st;
          alive := alive st;
          handlers := handlers st;
          naps := (naps st ++ [0.5%float])%list |}.

Inductive listener_status : Set :=
| Listening     (* blocked in accept *)
| Stopped.      (* the loop was left *)

(** The [while self.running] loop of the server thread, entered with
    [self.running] true. *)
Fixpoint listen_loop (evs : list listener_event) (st : Listener)
  : listener_status * Listener :=
  match evs with
  | [] => (Listening, st)
  | Accept o :: evs' =>
      let st' :=
        match o with
        | Accepted client => accepted client st
        | AcceptError e => accept_failed e st
        end in
      if accepting st' then listen_loop evs' st' else (Stopped, st')
  | Halt :: evs' =>
      listen_loop evs'
        {| accepting := false; client_threads := client_threads st;
           alive := alive st; handlers := handlers st; naps := naps st |}
  | Ended client :: evs' =>
      listen_loop evs'
        {| accepting := accepting st; client_threads := client_threads st;
           alive := filter (fun t => negb (Nat.eqb t client)) (alive st);
           handlers := handlers st; naps := naps st |}
  end.

Definition _server_thread (evs : list listener_event) (st : Listener)
  : listener_status * Listener :=
  if accepting st then listen_loop evs st else (Stopped, st).

(** *** The client: [MCP_Server/server.py] *)

(** The builtin [repr()], which [str()] falls back to for what is not a
    [str]. *)
Variable py_repr : json -> string.

Definition py_str (v : json) : string :=
  match v with
  | JStr s => s
  | _ => py_repr v
  end.

(** A socket object; of its state only the timeout matters here. *)
Record Socket : Set := { timeout : option float }.

Record AbletonConnection : Set := {
  host : string;
  port : Z;
  sock : option Socket
}.

(** [AbletonConnection(host="localhost", port=9877)], and the same once
    connected. *)
Definition new_link : AbletonConnection :=
  {| host := "localhost"; port := 9877; sock := None |}.

Definition connected_link : AbletonConnection :=
  {| host := "localhost"; port := 9877;
     sock := Some {| timeout := None |} |}.

Definition set_sock (self : AbletonConnection) (k : option Socket)
  : AbletonConnection :=
  {| host := host self; port := port self; sock := k |}.

(** What the client does that can be seen from outside, oldest first.
    [Received t r]: a [recv] call made under timeout [t] gave [r]. *)
Inductive action : Set :=
| Sent (payload : bytes)
| Slept (seconds : float)
| SetTimeout (seconds : float)
| Received (under : option float) (r : recv_outcome).

(** [b''.join(chunks)]. *)
Definition join (chunks : list bytes) : bytes := concat chunks.

(** [json.loads(data.decode('utf-8'))]. *)
Definition parse (data : bytes) : result json :=
  match utf8_decode data with
  | None => Raise decode_error
  | Some text =>
      match json_loads text with
      | None => Raise json_error
      | Some v => Ok v
      end
  end.

(** After the loop of [receive_full_response]. *)
Definition after_loop (chunks : list bytes) : result bytes :=
  match chunks with
  | [] => Raise (Raised Exception "No data received")
  | _ =>
      match parse (join chunks) with
      | Ok _ => Ok (join chunks)
      | Raise e =>
          if isinstance e JSONDecodeError
          then Raise (Raised Exception "Incomplete JSON response received")
          else Raise e
      end
  end.

(** The loop of [receive_full_response], fed with the outcomes of its
    [recv] calls; [None] when they run out with the loop still going. *)
Fixpoint receive_loop (under : option float) (chunks : list bytes)
         (script : list recv_outcome)
  : option (result bytes) * list action :=
  match script with
  | [] => (None, [])
  | r :: script' =>
      let seen (x : option (result bytes) * list action) :=
        (fst x, Received under r :: snd x) in
      match r with
      | Data [] =>
          match chunks with
          | [] =>
              seen (Some (Raise (Raised Exception
                       "Connection closed before receiving any data")), [])
          | _ => seen (Some (after_loop chunks), [])
          end
      | Data chunk =>
          let chunks := (chunks ++ [chunk])%list in
          match parse (join chunks) with
          | Ok _ => seen (Some (Ok (join chunks)), [])
          | Raise e =>
              if isinstance e JSONDecodeError
              then seen (receive_loop under chunks script')
              else seen (Some (Raise e), [])
          end
      | RecvError e =>
          if isinstance e (OS socket_timeout)
          then seen (Some (after_loop chunks), [])
          else seen (Some (Raise e), [])
      end
  end.

Definition receive_full_response (k : Socket) (script : list recv_outcome)
  : option (result bytes) * Socket * list action :=
  let k := {| timeout := Some 15.0%float |} in
  let '(r, log) := receive_loop (timeout k) [] script in
  (r, k, SetTimeout 15.0 :: log).

(** The command types [send_command] takes to change Live's state. *)
Definition MODIFYING : list string :=
  [ "create_midi_track"; "create_audio_track"; "set_track_name";
    "create_clip"; "add_notes_to_clip"; "set_clip_name";
    "set_tempo"; "set_signature_denominator"; "set_signature_numerator";
    "fire_clip"; "stop_clip"; "set_device_parameter";
    "start_playback"; "stop_playback"; "load_instrument_or_effect";
    "set_record_mode"; "continue_playing"; "jump_by"; "set_back_to_arranger";
    "set_start_time"; "set_metronome"; "set_clip_trigger_quantization";
    "set_loop"; "set_loop_region"; "play_selection"; "jump_to_next_cue";
    "jump_to_prev_cue"; "toggle_cue_at_current"; "re_enable_automation";
    "set_arrangement_overdub"; "set_session_automation_record";
    "trigger_session_record"; "create_locator"; "set_song_position";
    "set_send_level";
    "duplicate_track_clip_to_arrangement"; "clear_arrangement";
    "rename_cue_point"; "set_current_song_time_beats"; "stop_all_clips";
    "jump_to_cue"; "jump_by_beats";
    "application_view_focus_view"; "application_view_hide_view";
    "application_view_scroll_view"; "application_view_show_view";
    "application_view_toggle_browse"; "application_view_zoom_view" ].

Definition is_modifying_command (command_type : string) : bool :=
  existsb (String.eqb command_type) MODIFYING.

(** The network as one call of [send_command] meets it. *)
Record Net : Set := {
  connect_error : option os_error;   (* raised by sock.connect, if any *)
  send_error : option os_error;      (* raised by sock.sendall, if any *)
  replies : list recv_outcome        (* what the recv calls give *)
}.

(** [self.connect()]. *)
Definition connect (net : Net) (self : AbletonConnection)
  : bool * AbletonConnection :=
  match sock self with
  | Some _ => (true, self)
  | None =>
      match connect_error net with
      | None => (true, set_sock self (Some {| timeout := None |}))
      | Some _ => (false, set_sock self None)
      end
  end.

Definition settle (modifying : bool) : list action :=
  if modifying then [Slept 0.1%float] else [].

(** The body of the [try] statement of [send_command], on socket [k]:
    its result ([None]: still waiting in [recv]), the socket, the log. *)
Definition exchange (command_type : string) (command : json) (net : Net)
           (k : Socket) : option (result json) * Socket * list action :=
  let modifying := is_modifying_command command_type in
  let payload := utf8_encode (json_dumps command) in
  match send_error net with
  | Some e => (Some (Raise (exn_of_os e)), k, [])
  | None =>
      let k1 :=
        {| timeout := Some (if modifying then 15.0 else 10.0)%float |} in
      let '(r, k2, log) := receive_full_response k1 (replies net) in
      let before :=
        (Sent payload :: settle modifying ++
         [SetTimeout (if modifying then 15.0 else 10.0)%float] ++ log)%list in
      match r with
      | None => (None, k2, before)
      | Some (Raise e) => (Some (Raise e), k2, before)
      | Some (Ok response_data) =>
          match parse response_data with
          | Raise e => (Some (Raise e), k2, before)
          | Ok response =>
              match py_get response "status" JNull with
              | Raise e => (Some (Raise e), k2, before)
              | Ok st =>
                  if eq_str st "error" then
                    match py_get response "message"
                                 (JStr "Unknown error from Ableton") with
                    | Raise e => (Some (Raise e), k2, before)
                    | Ok m =>
                        (Some (Raise (Raised Exception (py_str m))),
                         k2, before)
                    end
                  else
                    (Some (py_get response "result" (JDict [])), k2,
                     (before ++ settle modifying)%list)
              end
          end
      end
  end.

(** The [except] clauses of [send_command], in their order: the failure
    raised to the caller. *)
Definition reraise (e : exn) : exn :=
  if isinstance e (OS socket_timeout) then
    Raised Exception "Timeout waiting for Ableton response"
  else if isinstance e (OS ConnectionError) then
    Raised Exception ("Connection to Ableton lost: " ++ str e)
  else if isinstance e JSONDecodeError then
    Raised Exception ("Invalid response from Ableton: " ++ str e)
  else
    Raised Exception ("Communication error with Ableton: " ++ str e).

Definition send_command (command_type : string) (params : json)
           (net : Net) (self : AbletonConnection)
  : option (result json) * AbletonConnection * list action :=
  let '(connected, self) :=
    match sock self with
    | Some _ => (true, self)
    | None => connect net self
    end in
  match connected, sock self with
  | true, Some k =>
      let command :=
        JDict [("type", JStr command_type);
               ("params", if truthy params then params else JDict [])] in
      match exchange command_type command net k with
      | (None, k', log) => (None, set_sock self (Some k'), log)
      | (Some (Ok v), k', log) => (Some (Ok v), set_sock self (Some k'), log)
      | (Some (Raise e), _, log) =>
          (* every except clause: self.sock = None *)
          (Some (Raise (reraise e)), set_sock self None, log)
      end
  | _, _ =>
      (Some (Raise (Raised (OS ConnectionError) "Not connected to Ableton")),
       self, [])
  end.

(** **** [get_ableton_connection] *)

(** The test of the cached connection: [sock.settimeout(1.0)], then
    [sock.sendall(b'')], which raises [probe_error] on a dead socket.  A
    connection without a socket fails at the attribute access.  Where the
    source goes on with [disconnect()] the connection is dropped, which
    closes its socket and shows in no log. *)
Definition probe (probe_error : option os_error) (self : AbletonConnection)
  : result AbletonConnection * list action :=
  match sock self with
  | None => (Raise (no_attribute JNull "settimeout"), [])
  | Some _ =>
      match probe_error with
      | Some e => (Raise (exn_of_os e), [SetTimeout 1.0%float])
      | None =>
          (Ok (set_sock self (Some {| timeout := Some 1.0%float |})),
           [SetTimeout 1.0%float; Sent []])
      end
  end.

Definition max_attempts : nat := 3.

(** How the [for attempt in range(1, max_attempts + 1)] loop is left. *)
Inductive attempts_exit : Set :=
| Returned (self : AbletonConnection)          (* return _ableton_connection *)
| Exhausted (global : option AbletonConnection)   (* the loop ran out *)
| Blocked (self : AbletonConnection).
                             (* the validating command still waits in recv *)

(** The loop over the attempt [numbers] still to make; [nets attempt] is
    the network as that attempt finds it, [global] is
    [_ableton_connection].  The outer [except Exception] of the loop body
    has nothing to catch: [connect] and [disconnect] raise nothing and the
    failure of the validating command is caught inside. *)
Fixpoint attempts (numbers : list nat) (nets : nat -> Net)
         (global : option AbletonConnection)
  : attempts_exit * list action :=
  match numbers with
  | [] => (Exhausted global, [])
  | attempt :: numbers' =>
      let pause :=
        if (attempt <? max_attempts)%nat then [Slept 1.0%float] else [] in
      match connect (nets attempt) new_link with
      | (true, self) =>
          match send_command "get_session_info" JNull (nets attempt) self with
          | (None, self', log) => (Blocked self', log)
          | (Some (Ok _), self', log) => (Returned self', log)
          | (Some (Raise _), _, log) =>
              (* _ableton_connection.disconnect(); _ableton_connection = None *)
              let '(x, log') := attempts numbers' nets None in
              (x, (log ++ pause ++ log')%list)
          end
      | (false, _) =>
          (* _ableton_connection = None *)
          let '(x, log') := attempts numbers' nets None in
          (x, (pause ++ log')%list)
      end
  end.

Definition could_not_connect : exn :=
  Raised Exception
    "Could not connect to Ableton. Make sure the Remote Script is running.".

(** [get_ableton_connection()]: what it returns or raises ([None]: it is
    still waiting in [recv]), the global [_ableton_connection] afterwards,
    the log. *)
Definition get_ableton_connection (probe_error : option os_error)
           (nets : nat -> Net) (global : option AbletonConnection)
  : option (result AbletonConnection) * option AbletonConnection
    * list action :=
  let '(tested, log) :=
    match global with
    | None => (None, [])
    | Some self =>
        match probe probe_error self with
        | (Ok self', log) => (Some self', log)
        | (Raise _, log) =>
            (* _ableton_connection.disconnect(); _ableton_connection = None *)
            (None, log)
        end
    end in
  match tested with
  | Some self => (Some (Ok self), Some self, log)
  | None =>
      match attempts (seq 1 max_attempts) nets None with
      | (Returned self, log') => (Some (Ok self), Some self, (log ++ log')%list)
      | (Blocked self, log') => (None, Some self, (log ++ log')%list)
      | (Exhausted (Some self), log') =>
          (Some (Ok self), Some self, (log ++ log')%list)
      | (Exhausted None, log') =>
          (Some (Raise could_not_connect), None, (log ++ log')%list)
      end
  end.

(** **** The tools *)

(** What one tool call meets: the outcome of the probe of the cached
    connection, the network at each connection attempt, the network when
    the tool's own command is sent. *)
Record Env : Set := {
  probe_error : option os_error;
  attempt_net : nat -> Net;
  command_net : Net
}.

(** The two statements every tool starts with:
    [ableton = get_ableton_connection()] and
    [result = ableton.send_command(command_type, params)].  The connection
    is the global one, so what [send_command] does to it is seen by the
    next call. *)
Definition request (command_type : string) (params : json) (env : Env)
           (global : option AbletonConnection)
  : option (result json) * option AbletonConnection * list action :=
  match get_ableton_connection (probe_error env) (attempt_net env) global with
  | (None, g, log) => (None, g, log)
  | (Some (Raise e), g, log) => (Some (Raise e), g, log)
  | (Some (Ok ableton), _, log) =>
      let '(r, ableton', log') :=
        send_command command_type params (command_net env) ableton in
      (r, Some ableton', (log ++ log')%list)
  end.

(** [try: ... return text] with
    [except Exception as e: return f"{prefix}{str(e)}"]. *)
Definition or_error (prefix : string) (r : result string) : string :=
  match r with
  | Ok text => text
  | Raise e => prefix ++ str e
  end.

(** The builtin [len()]. *)
Definition py_len (v : json) : result Z :=
  match v with
  | JStr s => Ok (Z.of_nat (String.length s))
  | JList xs => Ok (Z.of_nat (length xs))
  | JDict d => Ok (Z.of_nat (length d))
  | _ => Raise (Raised TypeError
                  ("object of type '" ++ type_name v ++ "' has no len()"))
  end.

(** [json.dumps(v, indent=2)]. *)
Variable json_dumps_indent : json -> string.

(** The params a tool sends when an optional argument may be left out. *)
Definition with_optional (params : dict) (key : string) (v : json) : dict :=
  match v with
  | JNull => params
  | _ => dict_set params key v
  end.

Definition trigger_session_record_params (record_length : json) : dict :=
  with_optional [] "record_length" record_length.

Definition trigger_session_record (record_length : json) (env : Env)
           (global : option AbletonConnection)
  : option string * option AbletonConnection * list action :=
  let '(r, g, log) :=
    request "trigger_session_record"
            (JDict (trigger_session_record_params record_length))
            env global in
  (match r with
   | None => None
   | Some r =>
       Some (or_error "Error triggering session record: "
                      (_ <- r ;; Ok "Triggered session record"))
   end, g, log).

Definition write_automation_params
           (track_index clip_index device_index points
            parameter_index parameter_name : json) : dict :=
  with_optional
    (with_optional
       [("track_index", track_index); ("clip_index", clip_index);
        ("device_index", device_index); ("points", points)]
       "parameter_index" parameter_index)
    "parameter_name" parameter_name.

Definition missing_parameter : string :=
  "Error: You must provide either a parameter_index or a parameter_name.".

Definition write_automation
           (track_index clip_index device_index points
            parameter_index parameter_name : json) (env : Env)
           (global : option AbletonConnection)
  : option string * option AbletonConnection * list action :=
  match parameter_index, parameter_name with
  | JNull, JNull => (Some missing_parameter, global, [])
  | _, _ =>
      let '(r, g, log) :=
        request "write_automation"
                (JDict (write_automation_params
                          track_index clip_index device_index points
                          parameter_index parameter_name))
                env global in
      (match r with
       | None => None
       | Some r =>
           Some (or_error "Error writing automation: "
                   (result <- r ;;
                    _ <- py_get result "point_count" JNull ;;
                    n <- py_len points ;;
                    point_count <- py_get result "point_count" (JInt n) ;;
                    param_name <-
                      py_get result "parameter_name" (JStr "Unknown") ;;
                    Ok ("Wrote " ++ py_str point_count
                        ++ " automation points for parameter '"
                        ++ py_str param_name ++ "'.")))
       end, g, log)
  end.

Definition set_device_parameter_params
           (track_index device_index value
            parameter_index parameter_name : json) : dict :=
  with_optional
    (with_optional
       [("track_index", track_index); ("device_index", device_index);
        ("value", value)]
       "parameter_index" parameter_index)
    "parameter_name" parameter_name.

Definition set_device_parameter
           (track_index device_index value
            parameter_index parameter_name : json) (env : Env)
           (global : option AbletonConnection)
  : option string * option AbletonConnection * list action :=
  match parameter_index, parameter_name with
  | JNull, JNull => (Some missing_parameter, global, [])
  | _, _ =>
      let '(r, g, log) :=
        request "set_device_parameter"
                (JDict (set_device_parameter_params
                          track_index device_index value
                          parameter_index parameter_name))
                env global in
      (match r with
       | None => None
       | Some r =>
           Some (or_error "Error setting device parameter: "
                   (result <- r ;;
                    name <- py_get result "parameter_name" JNull ;;
                    new_value <- py_get result "new_value" value ;;
                    Ok ("Set parameter '" ++ py_str name
                        ++ "' on device " ++ py_str device_index
                        ++ " of track " ++ py_str track_index
                        ++ " to " ++ py_str new_value)))
       end, g, log)
  end.

Definition clear_arrangement_params (track_indices : json) : dict :=
  match track_indices with
  | JNull => []
  | _ => [("track_indices", track_indices)]
  end.

Definition clear_arrangement (track_indices : json) (env : Env)
           (global : option AbletonConnection)
  : option string * option AbletonConnection * list action :=
  let '(r, g, log) :=
    request "clear_arrangement"
            (JDict (clear_arrangement_params track_indices)) env global in
  (match r with
   | None => None
   | Some r =>
       Some (or_error "Error clearing arrangement: "
               (result <- r ;; Ok (json_dumps_indent result)))
   end, g, log).

Definition duplicate_track_clip_to_arrangement_params
           (track_index clip_index start_beats length_beats loop : json)
  : dict :=
  with_optional
    [("track_index", track_index); ("clip_index", clip_index);
     ("start_beats", start_beats); ("length_beats", length_beats)]
    "loop" loop.

Definition duplicate_track_clip_to_arrangement
           (track_index clip_index start_beats length_beats loop : json)
           (env : Env) (global : option AbletonConnection)
  : option string * option AbletonConnection * list action :=
  let '(r, g, log) :=
    request "duplicate_track_clip_to_arrangement"
            (JDict (duplicate_track_clip_to_arrangement_params
                      track_index clip_index start_beats length_beats loop))
            env global in
  (match r with
   | None => None
   | Some r =>
       Some (or_error "Error duplicating session clip to arrangement: "
               (result <- r ;; Ok (json_dumps_indent result)))
   end, g, log).

(** The [send_command] calls of the tools, in the order of the file: the
    tool, the command type it sends, the keys its params can hold. *)
Definition TOOL_COMMANDS : list (string * string * list string) :=
  [
    ("get_session_info", "get_session_info", []);
    ("get_application_info", "get_application_info", []);
    ("get_application_view_state", "get_application_view_state", []);
    ("get_application_process_usage", "get_application_process_usage", []);
    ("get_application_version", "get_application_version", []);
    ("get_application_document", "get_application_document", []);
    ("list_control_surfaces", "list_control_surfaces", []);
    ("application_view_available_main_views",
     "application_view_available_main_views",
     []);
    ("application_view_focus_view", "application_view_focus_view",
     ["view_name"]);
    ("application_view_hide_view", "application_view_hide_view",
     ["view_name"]);
    ("application_view_is_view_visible", "application_view_is_view_visible",
     ["view_name"]);
    ("application_view_scroll_view", "application_view_scroll_view",
     ["direction"; "view_name"; "modifier_pressed"]);
    ("application_view_show_view", "application_view_show_view",
     ["view_name"]);
    ("application_view_toggle_browse", "application_view_toggle_browse", []);
    ("application_view_zoom_view", "application_view_zoom_view",
     ["direction"; "view_name"; "modifier_pressed"]);
    ("press_current_dialog_button", "press_current_dialog_button", ["index"]);
    ("get_track_info", "get_track_info", ["track_index"]);
    ("list_scenes", "list_scenes", []);
    ("fire_scene", "fire_scene", ["scene_index"]);
    ("create_scene", "create_scene", ["scene_index"]);
    ("rename_scene", "rename_scene", ["scene_index"; "name"]);
    ("list_locators", "list_locators", []);
    ("list_return_tracks", "list_return_tracks", []);
    ("set_send_level", "set_send_level",
     ["track_index"; "send_index"; "level"]);
    ("create_locator", "create_locator", ["time"]);
    ("set_song_position", "set_song_position", ["time"]);
    ("set_current_song_time_beats", "set_current_song_time_beats", ["beats"]);
    ("set_record_mode", "set_record_mode", ["on"]);
    ("continue_playing", "continue_playing", []);
    ("jump_by", "jump_by", ["beats"]);
    ("set_back_to_arranger", "set_back_to_arranger", ["on"]);
    ("set_start_time", "set_start_time", ["beats"]);
    ("set_metronome", "set_metronome", ["on"]);
    ("set_clip_trigger_quantization", "set_clip_trigger_quantization",
     ["quant"]);
    ("set_loop", "set_loop", ["on"]);
    ("set_loop_region", "set_loop_region", ["start"; "length"]);
    ("play_selection", "play_selection", []);
    ("stop_all_clips", "stop_all_clips", ["quantized"]);
    ("jump_to_next_cue", "jump_to_next_cue", []);
    ("jump_to_prev_cue", "jump_to_prev_cue", []);
    ("jump_to_cue", "jump_to_cue", ["index"]);
    ("toggle_cue_at_current", "toggle_cue_at_current", []);
    ("re_enable_automation", "re_enable_automation", []);
    ("get_current_song_time_beats", "get_current_song_time_beats", []);
    ("set_arrangement_overdub", "set_arrangement_overdub", ["on"]);
    ("set_session_automation_record", "set_session_automation_record", ["on"]);
    ("trigger_session_record", "trigger_session_record", ["record_length"]);
    ("rename_cue_point", "rename_cue_point", ["cue_index"; "name"]);
    ("write_automation", "write_automation",
     ["track_index"; "clip_index"; "device_index"; "points";
      "parameter_index"; "parameter_name"]);
    ("create_midi_track", "create_midi_track", ["index"]);
    ("create_audio_track", "create_audio_track", ["index"]);
    ("set_track_name", "set_track_name", ["track_index"; "name"]);
    ("create_clip", "create_clip", ["track_index"; "clip_index"; "length"]);
    ("add_notes_to_clip", "add_notes_to_clip",
     ["track_index"; "clip_index"; "notes"]);
    ("set_clip_name", "set_clip_name", ["track_index"; "clip_index"; "name"]);
    ("get_clip_info", "get_clip_info", ["track_index"; "clip_index"]);
    ("set_tempo", "set_tempo", ["tempo"]);
    ("set_signature_denominator", "set_signature_denominator",
     ["signature_denominator"]);
    ("set_signature_numerator", "set_signature_numerator",
     ["signature_numerator"]);
    ("load_instrument_or_effect", "load_browser_item",
     ["track_index"; "item_uri"]);
    ("fire_clip", "fire_clip", ["track_index"; "clip_index"]);
    ("stop_clip", "stop_clip", ["track_index"; "clip_index"]);
    ("start_playback", "start_playback", []);
    ("stop_playback", "stop_playback", []);
    ("get_device_parameters", "get_device_parameters",
     ["track_index"; "device_index"]);
    ("get_device_details", "get_device_details",
     ["track_index"; "device_index"]);
    ("find_device_by_name", "find_device_by_name",
     ["track_index"; "device_name"]);
    ("set_device_parameter", "set_device_parameter",
     ["track_index"; "device_index"; "value"; "parameter_index";
      "parameter_name"]);
    ("delete_device", "delete_device", ["track_index"; "device_index"]);
    ("clear_arrangement", "clear_arrangement", ["track_indices"]);
    ("duplicate_track_clip_to_arrangement",
     "duplicate_track_clip_to_arrangement",
     ["track_index"; "clip_index"; "start_beats"; "length_beats"; "loop"]);
    ("get_browser_tree", "get_browser_tree", ["category_type"; "max_depth"]);
    ("get_browser_items_at_path", "get_browser_items_at_path", ["path"]);
    ("load_drum_kit", "load_browser_item", ["track_index"; "item_uri"]);
    ("load_drum_kit", "get_browser_items_at_path", ["path"]);
    ("load_drum_kit", "load_browser_item", ["track_index"; "item_uri"]);
    ("show_message", "show_message", ["message"]) ].


(** *** Vocabulary of the statements *)

(** The two shapes of a response. *)
Definition success_reply (v : json) : json :=
  JDict [("status", JStr "success"); ("result", v)].

Definition error_reply (message : string) : json :=
  JDict [("status", JStr "error"); ("result", JDict []);
         ("message", JStr message)].

(** [command.get("type", "")] and [command.get("params", {})] of a command
    that is a [dict]. *)
Definition command_type_of (d : dict) : json :=
  match dict_get d "type" with
  | Some v => v
  | None => JStr EmptyString
  end.

Definition params_of (d : dict) : json :=
  match dict_get d "params" with
  | Some v => v
  | None => JDict []
  end.

(** The response that carries the outcome of a command body. *)
Definition outcome_reply (r : result json) : json :=
  match r with
  | Ok v => success_reply v
  | Raise e => error_reply (str e)
  end.

(** The branch of the chain that answers a command in place, if any. *)
Definition direct_branch (command_type : json) : option body :=
  match find_body command_type DIRECT with
  | Some b => Some b
  | None =>
      if py_in command_type MAIN_THREAD then None
      else find_body command_type DIRECT_LATE
  end.

(** The task [_process_command] builds for a main-thread command received
    in state [s]: its queue is the next one made. *)
Definition task_of (command_type params : json) (s : Server) : Task :=
  {| task_command_type := command_type;
     task_params := params;
     task_queue := length (queues s) |}.

(** The items waiting in queue [q]. *)
Definition waiting (q : nat) (s : Server) : list json :=
  nth q (queues s) [].

(** Every scheduled task writes to a queue that exists. *)
Definition queues_exist (s : Server) : Prop :=
  Forall (fun t => task_queue t < length (queues s)) (scheduled s).

(** The connection after one command came in as [chunks] and [response]
    went out. *)
Definition answered (c : Conn) (chunks : list bytes) (response : json)
  : Conn :=
  {| buffer := EmptyString;
     wire := (wire c ++ map Rx chunks
              ++ [Tx (utf8_encode (json_dumps response))])%list;
     write_error := write_error c |}.

(** The command a run of chunks amounts to, when the buffer (holding
    [acc] before them) parses for the first time exactly at the last. *)
Fixpoint reassemble (acc : string) (chunks : list bytes) : option json :=
  match chunks with
  | [] => None
  | data :: rest =>
      match data, utf8_decode data with
      | _ :: _, Some text =>
          match json_loads (acc ++ text), rest with
          | Some command, [] => Some command
          | None, _ :: _ => reassemble (acc ++ text) rest
          | _, _ => None
          end
      | _, _ => None
      end
  end.

(** The responses to a sequence of commands, in their order. *)
Fixpoint respond_all (commands : list json) (s : Server)
  : list json * Server :=
  match commands with
  | [] => ([], s)
  | command :: rest =>
      match _process_command command s with
      | (Ok response, s') =>
          let '(responses, s'') := respond_all rest s' in
          (response :: responses, s'')
      | (Raise _, s') => ([], s')
      end
  end.

(** What the wire shows when each command is answered before the next is
    read. *)
Fixpoint exchanges (frames : list (list bytes)) (responses : list json)
  : list io :=
  match frames, responses with
  | chunks :: frames', response :: responses' =>
      (map Rx chunks ++ [Tx (utf8_encode (json_dumps response))]
       ++ exchanges frames' responses')%list
  | _, _ => []
  end.

(** The events of a client that sends [chunks]. *)
Definition arrive (chunks : list bytes) : list event :=
  map (fun data => Recv (Data data)) chunks.

(** Chunks that come one after the other, none empty, each leaving the
    bytes received so far (from [acc] on) an incomplete JSON text. *)
Fixpoint incomplete (acc chunks : list bytes) : bool :=
  match chunks with
  | [] => true
  | chunk :: rest =>
      match chunk, parse (join (acc ++ [chunk])) with
      | _ :: _, Raise e =>
          isinstance e JSONDecodeError && incomplete (acc ++ [chunk]) rest
      | _, _ => false
      end
  end.

(** The timeouts under which the [recv] calls of a log ran. *)
Fixpoint recv_timeouts (log : list action) : list (option float) :=
  match log with
  | [] => []
  | Received under _ :: log' => under :: recv_timeouts log'
  | _ :: log' => recv_timeouts log'
  end.

(** The command [send_command] builds from its arguments. *)
Definition command_of (command_type : string) (params : json) : dict :=
  [("type", JStr command_type);
   ("params", if truthy params then params else JDict [])].

(** The seconds slept in a log, oldest first. *)
Fixpoint sleeps (log : list action) : list float :=
  match log with
  | [] => []
  | Slept seconds :: log' => seconds :: sleeps log'
  | _ :: log' => sleeps log'
  end.

(** The key an argument is read under, and whether it is passed on as
    it is. *)
Definition arg_key (a : arg) : string :=
  match a with
  | Get key _ | GetInt key _ | GetBool key _ => key
  end.

Definition arg_default (a : arg) : json :=
  match a with
  | Get _ default | GetInt _ default | GetBool _ default => default
  end.

Definition plain (a : arg) : bool :=
  match a with
  | Get _ _ => true
  | _ => false
  end.

(** The branch that holds the body of a command: the one of the chain
    for a command answered in place, the one of [main_thread_task] for a
    command of the main-thread list. *)
Definition branch_of (command_type : json) : option body :=
  match direct_branch command_type with
  | Some b => Some b
  | None =>
      if py_in command_type MAIN_THREAD
      then find_body command_type MAIN_THREAD_BODIES
      else None
  end.

(** Texts that come one after the other, each leaving the buffer (which
    held [acc] before them) unparsable. *)
Fixpoint stays_incomplete (acc : string) (texts : list string) : bool :=
  match texts with
  | [] => true
  | text :: texts' =>
      match json_loads (acc ++ text) with
      | None => stays_incomplete (acc ++ text) texts'
      | Some _ => false
      end
  end.

Definition is_recv (ev : event) : bool :=
  match ev with
  | Recv _ => true
  | _ => false
  end.

(** A connection attempt that fails: no socket, or a validating command
    that raises. *)
Definition attempt_fails (net : Net) : bool :=
  match connect net new_link with
  | (true, self) =>
      match send_command "get_session_info" JNull net self with
      | (Some (Raise _), _, _) => true
      | _ => false
      end
  | (false, _) => true
  end.

(** A connection attempt that gives a validated connection. *)
Definition attempt_succeeds (net : Net) : bool :=
  match connect net new_link with
  | (true, self) =>
      match send_command "get_session_info" JNull net self with
      | (Some (Ok _), _, _) => true
      | _ => false
      end
  | (false, _) => false
  end.

(** The seconds slept after an attempt that failed. *)
Definition pause_of (attempt : nat) : list float :=
  if (attempt <? max_attempts)%nat then [1.0%float] else [].

(** What the body of a command does in Live when it is run on the params
    [send_command] puts in the command, if the command has a branch. *)
Definition served (command_type : string) (params : json) (l : Live)
  : option (result json * Live) :=
  match branch_of (JStr command_type) with
  | Some b =>
      Some (run_body b (params_of (command_of command_type params)) l)
  | None => None
  end.

Fixpoint same_keys (a b : list string) : bool :=
  match a, b with
  | [], [] => true
  | x :: a', y :: b' => String.eqb x y && same_keys a' b'
  | _, _ => false
  end.

Fixpoint distinct (keys : list string) : bool :=
  match keys with
  | [] => true
  | key :: keys' => negb (existsb (String.eqb key) keys') && distinct keys'
  end.

(** Whether the branch of an entry of [TOOL_COMMANDS] reads the keys the
    tool sends, in their order and each once. *)
Definition reads_what_is_sent (entry : string * string * list string)
  : bool :=
  let '(_, command_type, keys) := entry in
  match branch_of (JStr command_type) with
  | Some (Call _ args) => same_keys (map arg_key args) keys && distinct keys
  | Some (CallKw _) => true
  | None => false
  end.

(** The clients accepted and the pauses taken over a run of events of
    the server thread. *)
Fixpoint clients_of (evs : list listener_event) : list nat :=
  match evs with
  | [] => []
  | Accept (Accepted client) :: evs' => client :: clients_of evs'
  | _ :: evs' => clients_of evs'
  end.

Fixpoint naps_of (evs : list listener_event) : list float :=
  match evs with
  | [] => []
  | Accept (AcceptError e) :: evs' =>
      if isinstance e (OS socket_timeout) then naps_of evs'
      else 0.5%float :: naps_of evs'
  | _ :: evs' => naps_of evs'
  end.

Definition is_halt (ev : listener_event) : bool :=
  match ev with
  | Halt => true
  | _ => false
  end.

Definition is_accept (ev : listener_event) : bool :=
  match ev with
  | Accept _ => true
  | _ => false
  end.

Unset Implicit Arguments.

(** *** Facts about the command table *)

Lemma find_body_none (t : string) (chain : list (string * body)) :
  existsb (String.eqb t) (map fst chain) = false ->
  find_body (JStr t) chain = None.
Proof.
  induction chain as [|[name b] chain IH]; simpl; [reflexivity|].
  intros H. apply orb_false_iff in H. destruct H as [H1 H2].
  rewrite H1. auto.
Qed.

Lemma py_in_str (t : string) (names : list string) :
  py_in (JStr t) names = existsb (String.eqb t) names.
Proof. reflexivity. Qed.

Lemma unknown_not_in_chain (t : string) :
  known_command t = false ->
  find_body (JStr t) DIRECT = None
  /\ py_in (JStr t) MAIN_THREAD = false
  /\ find_body (JStr t) DIRECT_LATE = None.
Proof.
  unfold known_command. rewrite !existsb_app, !orb_false_iff.
  intros (H1 & H2 & H3). repeat split.
  - now apply find_body_none.
  - now rewrite py_in_str.
  - now apply find_body_none.
Qed.

Lemma route_unknown (t : string) (params : json) (response : dict)
      (s : Server) :
  known_command t = false ->
  route (JStr t) params response s =
  (Ok tt,
   dict_set (dict_set response "status" (JStr "error")) "message"
            (JStr ("Unknown command: " ++ t)),
   s).
Proof.
  intros H. destruct (unknown_not_in_chain t H) as (H1 & H2 & H3).
  unfold route. rewrite H1, H2, H3. reflexivity.
Qed.

Lemma process_unknown (d : dict) (t : string) (s : Server) :
  command_type_of d = JStr t ->
  known_command t = false ->
  _process_command (JDict d) s =
  (Ok (error_reply ("Unknown command: " ++ t)), s).
Proof.
  intros Ht Hk. unfold _process_command. cbn [py_get].
  fold (command_type_of d). rewrite Ht.
  rewrite route_unknown by exact Hk. reflexivity.
Qed.

(** *** What [_process_command] leaves alone *)

Lemma running_main_thread_task (t : Task) (s : Server) :
  running (main_thread_task t s) = running s.
Proof.
  unfold main_thread_task. destruct (task_body t (live s)). reflexivity.
Qed.

Lemma running_fold_tasks (ts : list Task) (s : Server) :
  running (fold_left (fun s' t => main_thread_task t s') ts s) = running s.
Proof.
  revert s. induction ts as [|t ts IH]; intros s; simpl; [reflexivity|].
  rewrite IH. apply running_main_thread_task.
Qed.

Lemma running_run_scheduled (s : Server) :
  running (run_scheduled s) = running s.
Proof. unfold run_scheduled. now rewrite running_fold_tasks. Qed.

Lemma running_queue_take (q : nat) (s s' : Server) (item : json) :
  queue_take q s = Some (item, s') -> running s' = running s.
Proof.
  unfold queue_take. destruct (take_nth (queues s) q) as [[i qs]|];
    intros H; inversion H; reflexivity.
Qed.

Lemma running_queue_get (q : nat) (t : float) (s : Server) :
  running (snd (queue_get q t s)) = running s.
Proof.
  unfold queue_get.
  destruct (queue_take q s) as [[item s']|] eqn:E1; simpl.
  - eapply running_queue_take; eauto.
  - destruct (main_thread s); simpl; [|reflexivity].
    destruct (PrimFloat.leb delay t); simpl; [|reflexivity].
    destruct (queue_take q (run_scheduled s)) as [[item s']|] eqn:E2; simpl.
    + erewrite running_queue_take by eauto. apply running_run_scheduled.
    + apply running_run_scheduled.
Qed.

Lemma running_direct (b : body) (params : json) (response : dict)
      (s : Server) :
  running (snd (direct b params response s)) = running s.
Proof.
  unfold direct. destruct (run_body b params (live s)) as [[v|e] l];
    reflexivity.
Qed.

Lemma running_marshalled (command_type params : json) (response : dict)
      (s : Server) :
  running (snd (marshalled command_type params response s)) = running s.
Proof.
  unfold marshalled, queue_new, schedule_message.
  set (s0 := set_queues s _). set (task := Build_Task _ _ _).
  assert (H0 : running s0 = running s) by reflexivity.
  destruct (main_thread s0) as [delay|e]; cbn [fst snd].
  - match goal with
    | |- context [queue_get ?q ?t ?x] =>
        pose proof (running_queue_get q t x) as Hg;
        destruct (queue_get q t x) as [[item|e] s2]
    end; simpl in Hg.
    + destruct (collect item response). simpl. now rewrite Hg.
    + destruct (isinstance e queue_Empty); simpl; now rewrite Hg.
  - destruct (isinstance e AssertionError); [|simpl; exact H0].
    match goal with
    | |- context [queue_get ?q ?t ?x] =>
        pose proof (running_queue_get q t x) as Hg;
        destruct (queue_get q t x) as [[item|e'] s2]
    end; simpl in Hg; rewrite running_main_thread_task in Hg.
    + destruct (collect item response). simpl. now rewrite Hg.
    + destruct (isinstance e' queue_Empty); simpl; now rewrite Hg.
Qed.

Lemma running_route (command_type params : json) (response : dict)
      (s : Server) :
  running (snd (route command_type params response s)) = running s.
Proof.
  unfold route.
  destruct (find_body command_type DIRECT); [apply running_direct|].
  destruct (py_in command_type MAIN_THREAD); [apply running_marshalled|].
  destruct (find_body command_type DIRECT_LATE); [apply running_direct|].
  unfold unknown. destruct (str_add _ command_type); reflexivity.
Qed.

Lemma running_process_command (command : json) (s : Server) :
  running (snd (_process_command command s)) = running s.
Proof.
  unfold _process_command.
  destruct (py_get command "type" _); [|reflexivity].
  destruct (py_get command "params" _); [|reflexivity].
  match goal with
  | |- context [route ?a ?b ?c ?x] =>
      pose proof (running_route a b c x) as H;
      destruct (route a b c x) as [[[u|e] r] s']
  end; exact H.
Qed.

(** A command that is a [dict] always gets a response. *)
Lemma process_command_returns (d : dict) (s : Server) :
  exists response s', _process_command (JDict d) s = (Ok response, s').
Proof.
  unfold _process_command. cbn [py_get].
  match goal with
  | |- context [route ?a ?b ?c ?x] =>
      destruct (route a b c x) as [[[u|e] r] s']
  end; eauto.
Qed.

(** *** One turn of the handler's loop *)

(** A chunk that completes a command: the buffer is cleared, the command
    is dispatched, its response is written, the loop goes on. *)
Lemma iteration_answers (c : Conn) (s s' : Server) (data : bytes)
      (text : string) (d : dict) (response : json) :
  data <> [] ->
  utf8_decode data = Some text ->
  json_loads (buffer c ++ text) = Some (JDict d) ->
  write_error c = None ->
  _process_command (JDict d) s = (Ok response, s') ->
  iteration (Data data) c s = (Continue, answered c [data] response, s').
Proof.
  intros Hdata Htext Hloads Hw Hp.
  unfold iteration. destruct data as [|b data]; [congruence|].
  rewrite Htext. unfold parse_and_reply.
  cbn [buffer set_buffer log_io]. rewrite Hloads.
  unfold dispatch. cbn [py_get]. rewrite Hp.
  unfold sendall. cbn [write_error set_buffer log_io]. rewrite Hw.
  unfold answered, log_io, set_buffer, end_of_turn. simpl.
  rewrite Hw, <- app_assoc. reflexivity.
Qed.

(** A chunk that leaves the buffer unparsable: nothing is written, the
    text stays in the buffer. *)
Lemma iteration_waits (c : Conn) (s : Server) (data : bytes)
      (text : string) :
  data <> [] ->
  utf8_decode data = Some text ->
  json_loads (buffer c ++ text) = None ->
  iteration (Data data) c s =
  (Continue,
   {| buffer := buffer c ++ text;
      wire := (wire c ++ [Rx data])%list;
      write_error := write_error c |},
   s).
Proof.
  intros Hdata Htext Hloads.
  unfold iteration. destruct data as [|b data]; [congruence|].
  rewrite Htext. unfold parse_and_reply.
  cbn [buffer set_buffer log_io]. rewrite Hloads. reflexivity.
Qed.

Lemma handle_loop_recv (r : recv_outcome) (evs : list event) (c : Conn)
      (s : Server) :
  handle_loop (Recv r :: evs) c s
  = let '(k, c', s') := iteration r c s in
    match k with
    | Break => (Closed, c', s')
    | Continue =>
        if running s' then handle_loop evs c' s' else (Closed, c', s')
    end.
Proof. reflexivity. Qed.

(** The loop after a command was answered. *)
Lemma handle_loop_answers (evs : list event) (c : Conn) (s s' : Server)
      (data : bytes) (text : string) (d : dict) (response : json) :
  running s = true ->
  data <> [] ->
  utf8_decode data = Some text ->
  json_loads (buffer c ++ text) = Some (JDict d) ->
  write_error c = None ->
  _process_command (JDict d) s = (Ok response, s') ->
  handle_loop (Recv (Data data) :: evs) c s =
  handle_loop evs (answered c [data] response) s'.
Proof.
  intros Hrun Hdata Htext Hloads Hw Hp.
  cbn [handle_loop].
  rewrite (iteration_answers c s s' data text d response Hdata Htext Hloads Hw Hp).
  pose proof (running_process_command (JDict d) s) as Hr.
  rewrite Hp in Hr. simpl in Hr. rewrite Hr, Hrun. reflexivity.
Qed.

(** ** The claims about the server *)

(** C2. A command whose type is not in the command table (a missing
    ["type"] counts as the empty type) gets the response
    [{"status": "error", "result": {}, "message": "Unknown command: " + type}];
    the script's state, Live included, is left as it was; and the handler
    that received the command on an open connection writes the response
    and goes on with its loop, ready for the next command. *)
Theorem unknown_command_is_answered_and_survived
        (d : dict) (t : string) (s : Server) :
  command_type_of d = JStr t ->
  known_command t = false ->
  _process_command (JDict d) s
  = (Ok (error_reply ("Unknown command: " ++ t)), s)
  /\ forall (c : Conn) (data : bytes) (text : string) (evs : list event),
      running s = true ->
      write_error c = None ->
      data <> [] ->
      utf8_decode data = Some text ->
      json_loads (buffer c ++ text) = Some (JDict d) ->
      handle_loop (Recv (Data data) :: evs) c s
      = handle_loop evs
          (answered c [data] (error_reply ("Unknown command: " ++ t))) s.
Proof.
  intros Ht Hk.
  pose proof (process_unknown d t s Ht Hk) as Hp.
  split; [exact Hp|].
  intros c data text evs Hrun Hw Hdata Htext Hloads.
  now apply handle_loop_answers with (text := text) (d := d).
Qed.

(** The buffer is not touched after it has been cleared. *)
Lemma buffer_sendall (payload : bytes) (c : Conn) :
  buffer (snd (sendall payload c)) = buffer c.
Proof. unfold sendall. destruct (write_error c); reflexivity. Qed.

Lemma buffer_on_exception (e : exn) (c : Conn) :
  buffer (snd (on_exception e c)) = buffer c.
Proof.
  unfold on_exception.
  pose proof (buffer_sendall
                (utf8_encode (json_dumps (error_response e))) c) as H.
  destruct (sendall _ c) as [[u|e'] c']; simpl in *; [|exact H].
  destruct (isinstance e ValueError); exact H.
Qed.

Lemma buffer_end_of_turn (r : result unit) (c : Conn) (s : Server) :
  buffer (snd (fst (end_of_turn (r, c, s)))) = buffer c.
Proof.
  destruct r as [u|e]; simpl; [reflexivity|].
  destruct (isinstance e ValueError); [reflexivity|].
  pose proof (buffer_on_exception e c) as H.
  destruct (on_exception e c); exact H.
Qed.

Lemma dispatch_keeps_buffer (command : json) (c : Conn) (s : Server) :
  buffer (snd (fst (end_of_turn (dispatch command c s)))) = buffer c.
Proof.
  unfold dispatch.
  destruct (py_get command "type" _) as [v|e];
    [|apply buffer_end_of_turn].
  destruct (_process_command command s) as [[response|e] s'];
    [|apply buffer_end_of_turn].
  pose proof (buffer_sendall (utf8_encode (json_dumps response)) c) as H.
  destruct (sendall _ c) as [r c']. simpl in H.
  rewrite buffer_end_of_turn. exact H.
Qed.

(** C1. When the chunk just received makes the buffer parse as a JSON
    value, the handler's turn is the dispatch of that value on a
    connection whose buffer has been cleared, and the buffer is empty when
    the turn ends.  Of the buffer and of the chunk nothing but the decoded
    value has a part in what follows: what came after the value in the
    buffer is dropped, and the next turn parses the text of its own chunk
    alone. *)
Theorem parsed_buffer_is_cleared
        (c : Conn) (s : Server) (data : bytes) (text : string)
        (command : json) :
  data <> [] ->
  utf8_decode data = Some text ->
  json_loads (buffer c ++ text) = Some command ->
  iteration (Data data) c s
  = end_of_turn
      (dispatch command (set_buffer (log_io c (Rx data)) EmptyString) s)
  /\ buffer (snd (fst (iteration (Data data) c s))) = EmptyString
  /\ forall (data' : bytes) (text' : string),
      data' <> [] ->
      utf8_decode data' = Some text' ->
      iteration (Data data')
                (snd (fst (iteration (Data data) c s)))
                (snd (iteration (Data data) c s))
      = end_of_turn
          (parse_and_reply
             (set_buffer
                (log_io (snd (fst (iteration (Data data) c s))) (Rx data'))
                text')
             (snd (iteration (Data data) c s))).
Proof.
  intros Hdata Htext Hloads.
  assert (E : iteration (Data data) c s
              = end_of_turn
                  (dispatch command
                     (set_buffer (log_io c (Rx data)) EmptyString) s)).
  { unfold iteration. destruct data as [|b data]; [congruence|].
    rewrite Htext. unfold parse_and_reply.
    cbn [buffer set_buffer log_io]. rewrite Hloads. reflexivity. }
  assert (B : buffer (snd (fst (iteration (Data data) c s))) = EmptyString)
    by (rewrite E, dispatch_keeps_buffer; reflexivity).
  split; [exact E|]. split; [exact B|].
  intros data' text' Hdata' Htext'.
  destruct (iteration (Data data) c s) as [[k c'] s'].
  cbn [fst snd] in *.
  unfold iteration. destruct data' as [|b' data']; [congruence|].
  rewrite Htext'. cbn [buffer log_io]. rewrite B. reflexivity.
Qed.

(** The loop over the chunks of one command: nothing is written before
    the last chunk, then the response is, and the loop is back at [recv]
    with an empty buffer. *)
Lemma handle_loop_frame (chunks : list bytes) :
  forall (c : Conn) (s s' : Server) (d : dict) (response : json)
         (evs : list event),
    running s = true ->
    write_error c = None ->
    reassemble (buffer c) chunks = Some (JDict d) ->
    _process_command (JDict d) s = (Ok response, s') ->
    handle_loop (arrive chunks ++ evs) c s
    = handle_loop evs (answered c chunks response) s'.
Proof.
  induction chunks as [|data rest IH]; intros c s s' d response evs
    Hrun Hw Hre Hp; [discriminate|].
  cbn [reassemble] in Hre.
  destruct data as [|b data]; [discriminate|].
  destruct (utf8_decode (b :: data)) as [text|] eqn:Htext; [|discriminate].
  assert (Hdata : b :: data <> []) by discriminate.
  destruct (json_loads (buffer c ++ text)) as [command|] eqn:Hloads.
  - destruct rest; [|discriminate]. inversion Hre; subst command.
    cbn [arrive map app].
    apply handle_loop_answers with (text := text) (d := d); assumption.
  - destruct rest as [|data' rest']; [discriminate|].
    change (arrive ((b :: data) :: data' :: rest') ++ evs)%list
      with (Recv (Data (b :: data)) :: (arrive (data' :: rest') ++ evs))%list.
    rewrite handle_loop_recv.
    rewrite (iteration_waits c s (b :: data) text Hdata Htext Hloads).
    rewrite Hrun.
    rewrite (IH {| buffer := buffer c ++ text;
                   wire := (wire c ++ [Rx (b :: data)])%list;
                   write_error := write_error c |}
                s s' d response evs Hrun Hw Hre Hp).
    f_equal. unfold answered. cbn [buffer wire write_error map].
    rewrite <- app_assoc. reflexivity.
Qed.

Lemma respond_all_running (commands : list json) :
  forall s, running (snd (respond_all commands s)) = running s.
Proof.
  induction commands as [|command rest IH]; intros s; [reflexivity|].
  cbn [respond_all].
  pose proof (running_process_command command s) as H.
  destruct (_process_command command s) as [[response|e] s']; simpl in H;
    [|exact H].
  specialize (IH s'). destruct (respond_all rest s') as [responses s''].
  simpl in *. congruence.
Qed.

(** C9. A client sends commands one at a time, each a JSON object
    arriving in one or more chunks of which only the last completes it,
    over a connection whose socket works, to a script that keeps running.
    Then the handler answers every command exactly once and in order: on
    the wire each command's chunks are followed by its response, written
    before the next command's first chunk is read; after the last response
    the handler is back at [recv] with an empty buffer, and goes on with
    whatever comes next. *)
Theorem one_response_per_command_in_order (frames : list (list bytes)) :
  forall (commands : list json) (c : Conn) (s : Server)
         (evs : list event),
    running s = true ->
    write_error c = None ->
    buffer c = EmptyString ->
    Forall2 (fun chunks command =>
               reassemble EmptyString chunks = Some command
               /\ exists d, command = JDict d) frames commands ->
    handle_loop (concat (map arrive frames) ++ evs) c s
    = handle_loop evs
        {| buffer := EmptyString;
           wire := (wire c
                    ++ exchanges frames (fst (respond_all commands s)))%list;
           write_error := None |}
        (snd (respond_all commands s))
    /\ length (fst (respond_all commands s)) = length commands.
Proof.
  induction frames as [|chunks frames IH]; intros commands c s evs
    Hrun Hw Hb Hall; inversion Hall as [|? command ? rest [Hre [d Hd]] Hrest];
    subst.
  - cbn [map concat app respond_all exchanges fst snd].
    rewrite app_nil_r. split; [|reflexivity].
    f_equal. destruct c; simpl in *; congruence.
  - cbn [map concat respond_all].
    destruct (process_command_returns d s) as (response & s' & Hp).
    rewrite Hp.
    pose proof (running_process_command (JDict d) s) as Hr.
    rewrite Hp in Hr; simpl in Hr.
    rewrite <- app_assoc.
    rewrite <- Hb in Hre.
    rewrite (handle_loop_frame chunks c s s' d response _ Hrun Hw Hre Hp).
    assert (Hrun' : running s' = true) by congruence.
    destruct (IH rest (answered c chunks response) s' evs Hrun' Hw eq_refl
                 Hrest) as [E L].
    rewrite E.
    destruct (respond_all rest s') as [responses s''].
    cbn [fst snd exchanges length] in *. split; [|now rewrite L].
    f_equal. f_equal. unfold answered; cbn [wire].
    rewrite <- !app_assoc. reflexivity.
Qed.

(** *** Queues *)

Lemma take_fresh (qs : list (list json)) :
  take_nth (qs ++ [[]]) (length qs) = None.
Proof.
  induction qs as [|items qs IH]; [reflexivity|].
  cbn [app length take_nth]. rewrite IH. destruct items; reflexivity.
Qed.

Lemma put_fresh (qs : list (list json)) (item : json) :
  put_nth (qs ++ [[]]) (length qs) item = (qs ++ [[item]])%list.
Proof.
  induction qs as [|items qs IH]; [reflexivity|].
  cbn [app length put_nth]. now rewrite IH.
Qed.

Lemma take_put_fresh (qs : list (list json)) (item : json) :
  take_nth (qs ++ [[item]]) (length qs) = Some (item, (qs ++ [[]])%list).
Proof.
  induction qs as [|items qs IH]; [reflexivity|].
  cbn [app length take_nth]. rewrite IH. destruct items; reflexivity.
Qed.

(** An item put in some queue shows at most at the end of queue [q]. *)
Lemma nth_put_nth (qs : list (list json)) :
  forall (q k : nat) (item : json),
    nth q (put_nth qs k item) [] = nth q qs []
    \/ nth q (put_nth qs k item) [] = (nth q qs [] ++ [item])%list.
Proof.
  induction qs as [|items qs IH]; intros q k item.
  - left. destruct k; reflexivity.
  - destruct k as [|k]; destruct q as [|q]; cbn [put_nth nth]; auto.
Qed.

Lemma take_nth_in (qs : list (list json)) :
  forall (q : nat) (item : json) (qs' : list (list json)),
    take_nth qs q = Some (item, qs') -> In item (nth q qs []).
Proof.
  induction qs as [|items qs IH]; intros q item qs' H.
  - destruct q; discriminate.
  - destruct q as [|q].
    + destruct items as [|i items]; [discriminate|].
      inversion H; subst. now left.
    + cbn [take_nth] in H.
      destruct (take_nth qs q) as [[i qs'']|] eqn:E.
      * assert (i = item) by (destruct items; inversion H; reflexivity).
        subst. cbn [nth]. now apply IH with (qs' := qs'').
      * destruct items; discriminate.
Qed.

(** A property of the items the main thread puts holds of all that wait in
    a queue where it held before. *)
Section QueueInvariant.
Variable P : json -> Prop.
Hypothesis P_item : forall r, P (task_item r).

Lemma waiting_main_thread_task (q : nat) (t : Task) (s : Server) :
  Forall P (waiting q s) -> Forall P (waiting q (main_thread_task t s)).
Proof.
  unfold main_thread_task, waiting.
  destruct (task_body t (live s)) as [r l]. cbn [queue_put set_queues
    queues set_live].
  intros H.
  destruct (nth_put_nth (queues s) q (task_queue t) (task_item r))
    as [E|E]; rewrite E; [exact H|].
  apply Forall_app. split; [exact H|]. constructor; [apply P_item|
    constructor].
Qed.

Lemma waiting_fold_tasks (q : nat) (ts : list Task) :
  forall s,
    Forall P (waiting q s) ->
    Forall P (waiting q
                (fold_left (fun s' t => main_thread_task t s') ts s)).
Proof.
  induction ts as [|t ts IH]; intros s H; [exact H|].
  cbn [fold_left]. apply IH. now apply waiting_main_thread_task.
Qed.

Lemma waiting_run_scheduled (q : nat) (s : Server) :
  Forall P (waiting q s) -> Forall P (waiting q (run_scheduled s)).
Proof. intros H. unfold run_scheduled. now apply waiting_fold_tasks. Qed.

Lemma queue_take_item (q : nat) (s s' : Server) (item : json) :
  Forall P (waiting q s) -> queue_take q s = Some (item, s') -> P item.
Proof.
  unfold queue_take, waiting. intros H E.
  destruct (take_nth (queues s) q) as [[i qs]|] eqn:T; [|discriminate].
  inversion E; subst.
  eapply Forall_forall; [exact H|]. eapply take_nth_in; eauto.
Qed.

Lemma queue_get_item (q : nat) (t : float) (s s' : Server)
      (item : json) :
  Forall P (waiting q s) -> queue_get q t s = (Ok item, s') -> P item.
Proof.
  unfold queue_get. intros H E.
  destruct (queue_take q s) as [[i s1]|] eqn:T.
  - inversion E; subst. eapply queue_take_item; eauto.
  - destruct (main_thread s); [|discriminate].
    destruct (PrimFloat.leb delay t); [|discriminate].
    destruct (queue_take q (run_scheduled s)) as [[i s1]|] eqn:T';
      [|discriminate].
    inversion E; subst.
    eapply queue_take_item; [|exact T'].
    now apply waiting_run_scheduled.
Qed.
End QueueInvariant.

(** *** The shape of a response *)

Lemma collect_task_item (r : result json) :
  exists response,
    collect (task_item r) initial_response = (Ok tt, response)
    /\ JDict response = outcome_reply r.
Proof. destruct r as [v|e]; eexists; split; reflexivity. Qed.

Lemma waiting_fresh (s : Server) :
  waiting (length (queues s)) (set_queues s (queues s ++ [[]])%list) = [].
Proof. unfold waiting. cbn [queues set_queues]. apply nth_middle. Qed.

Lemma marshalled_shape (command_type params : json) (s s' : Server)
      (r : result unit) (response : dict) :
  marshalled command_type params initial_response s = (r, response, s') ->
  match r with
  | Ok _ => exists o, JDict response = outcome_reply o
  | Raise _ => response = initial_response
  end.
Proof.
  pose (P := fun item => exists o, item = task_item o).
  assert (P_item : forall o, P (task_item o)) by (intros o; now exists o).
  unfold marshalled, queue_new.
  set (q := length (queues s)).
  set (s0 := set_queues s _).
  set (task := Build_Task _ _ _).
  assert (H0 : Forall P (waiting q s0)).
  { unfold q, s0. rewrite waiting_fresh. constructor. }
  assert (Hget : forall s1 item s2,
             Forall P (waiting q s1) ->
             queue_get q 10 s1 = (Ok item, s2) ->
             forall r' response',
               collect item initial_response = (r', response') ->
               (r', response', s2) = (r, response, s') ->
               match r with
               | Ok _ => exists o, JDict response = outcome_reply o
               | Raise _ => response = initial_response
               end).
  { intros s1 item s2 Hw G r' response' Hc E.
    destruct (queue_get_item P P_item q 10 s1 s2 item Hw G) as [o ->].
    destruct (collect_task_item o) as (resp & Hc' & Hshape).
    rewrite Hc' in Hc. inversion Hc; subst. inversion E; subst.
    now exists o. }
  assert (Hwait : forall s1,
             Forall P (waiting q s1) ->
             match queue_get q 10 s1 with
             | (Ok task_response, s2) =>
                 let '(r', response') :=
                   collect task_response initial_response in
                 (r', response', s2)
             | (Raise e, s2) =>
                 if isinstance e queue_Empty
                 then (Ok tt, timed_out initial_response, s2)
                 else (Raise e, initial_response, s2)
             end = (r, response, s') ->
             match r with
             | Ok _ => exists o, JDict response = outcome_reply o
             | Raise _ => response = initial_response
             end).
  { intros s1 Hw E.
    destruct (queue_get q 10 s1) as [[item|e] s2] eqn:G.
    - destruct (collect item initial_response) as [r' response'] eqn:Hc.
      eapply Hget; eauto.
    - destruct (isinstance e queue_Empty); inversion E; subst.
      + exists (Raise (Raised queue_Empty
                         "Timeout waiting for operation to complete")).
        reflexivity.
      + reflexivity. }
  unfold schedule_message.
  destruct (main_thread s0) as [delay|e].
  - exact (Hwait (set_scheduled s0 (scheduled s0 ++ [task])%list) H0).
  - destruct (isinstance e AssertionError).
    + exact (Hwait (main_thread_task task s0)
                   (waiting_main_thread_task P P_item q task s0 H0)).
    + intros E; inversion E; subst. reflexivity.
Qed.

Lemma route_shape (command_type params : json) (s s' : Server)
      (r : result unit) (response : dict) :
  route command_type params initial_response s = (r, response, s') ->
  match r with
  | Ok _ => exists o, JDict response = outcome_reply o
  | Raise _ =>
      response = initial_response
      \/ response = dict_set initial_response "status" (JStr "error")
  end.
Proof.
  assert (Hdirect : forall b,
             direct b params initial_response s = (r, response, s') ->
             match r with
             | Ok _ => exists o, JDict response = outcome_reply o
             | Raise _ =>
                 response = initial_response
                 \/ response
                    = dict_set initial_response "status" (JStr "error")
             end).
  { intros b. unfold direct.
    destruct (run_body b params (live s)) as [[v|e] l]; intros E;
      inversion E; subst.
    - now exists (Ok v).
    - now left. }
  unfold route.
  destruct (find_body command_type DIRECT); [apply Hdirect|].
  destruct (py_in command_type MAIN_THREAD).
  - intros E. apply marshalled_shape in E.
    destruct r; [exact E|now left].
  - destruct (find_body command_type DIRECT_LATE); [apply Hdirect|].
    unfold unknown. destruct (str_add _ command_type) as [m|e];
      intros E; inversion E; subst.
    + now exists (Raise (Raised Exception m)).
    + now right.
Qed.

(** An exception that leaves the [try] body becomes an error response
    with its message. *)
Lemma process_command_dict (d : dict) (s : Server) :
  _process_command (JDict d) s
  = match route (command_type_of d) (params_of d) initial_response s with
    | (Ok _, response, s') => (Ok (JDict response), s')
    | (Raise e, response, s') =>
        (Ok (JDict (dict_set (dict_set response "status" (JStr "error"))
                             "message" (JStr (str e)))), s')
    end.
Proof. reflexivity. Qed.

Lemma process_command_caught (d : dict) (s s' : Server) (e : exn)
      (response : dict) :
  route (command_type_of d) (params_of d) initial_response s
  = (Raise e, response, s') ->
  _process_command (JDict d) s = (Ok (error_reply (str e)), s').
Proof.
  intros Hr. rewrite process_command_dict, Hr.
  apply route_shape in Hr. destruct Hr as [-> | ->]; reflexivity.
Qed.

(** C10. Every response [_process_command] returns has a ["result"] key
    and one of two shapes: [{"status": "success", "result": v}], with no
    ["message"] key, or
    [{"status": "error", "result": {}, "message": m}] with [m] a string
    and ["result"] still the empty mapping it was initialised to. *)
Theorem response_keeps_result_key
        (command : json) (s s' : Server) (response : json) :
  _process_command command s = (Ok response, s') ->
  (exists v, response = success_reply v)
  \/ (exists m, response = error_reply m).
Proof.
  unfold _process_command.
  destruct (py_get command "type" _) as [command_type|e]; [|discriminate].
  destruct (py_get command "params" _) as [params|e]; [|discriminate].
  destruct (route command_type params initial_response s)
    as [[[u|e] r] s1] eqn:Hr; intros E; inversion E; subst;
    apply route_shape in Hr.
  - destruct Hr as [[v|e] Ho]; rewrite Ho;
      [left; exists v|right; exists (str e)]; reflexivity.
  - right. exists (str e). destruct Hr as [-> | ->]; reflexivity.
Qed.

(** *** Commands handed to the main thread *)

Lemma main_thread_not_direct (command_type : json) :
  py_in command_type MAIN_THREAD = true ->
  find_body command_type DIRECT = None.
Proof.
  destruct command_type as [| | | |t| |]; try discriminate.
  rewrite py_in_str. unfold MAIN_THREAD. cbn [existsb].
  rewrite !orb_true_iff.
  intros H.
  repeat match type of H with
         | _ \/ _ => destruct H as [H|H]
         end;
    try discriminate;
    apply String.eqb_eq in H; subst t; reflexivity.
Qed.

Lemma route_main_thread (command_type params : json) (response : dict)
      (s : Server) :
  py_in command_type MAIN_THREAD = true ->
  route command_type params response s
  = marshalled command_type params response s.
Proof.
  intros H. unfold route.
  rewrite (main_thread_not_direct command_type H), H. reflexivity.
Qed.

(** [schedule_message] raises [AssertionError]: the task runs at once, on
    the handler's thread, and its item is taken from the queue. *)
Lemma marshalled_in_place (command_type params : json) (response : dict)
      (s : Server) (a : exn) :
  main_thread s = Refuses a ->
  isinstance a AssertionError = true ->
  marshalled command_type params response s
  = (let '(o, l) := task_body (task_of command_type params s) (live s) in
     let '(r, response') := collect (task_item o) response in
     (r, response',
      set_live (set_queues s (queues s ++ [[]])%list) l)).
Proof.
  intros Hm Ha.
  unfold marshalled, queue_new, schedule_message.
  cbn [main_thread set_queues]. rewrite Hm, Ha.
  unfold main_thread_task, task_of. cbn [live set_queues task_queue].
  destruct (task_body _ (live s)) as [o l].
  unfold queue_get, queue_take, queue_put.
  cbn [queues set_queues set_live].
  rewrite put_fresh, take_put_fresh.
  destruct (collect (task_item o) response). reflexivity.
Qed.

(** The main thread does not run the task before the ten seconds are
    over: the task stays scheduled, Live is as it was, the response is the
    time-out. *)
Lemma marshalled_times_out (command_type params : json) (response : dict)
      (s : Server) (delay : float) :
  main_thread s = Services delay ->
  PrimFloat.leb delay 10 = false ->
  marshalled command_type params response s
  = (Ok tt, timed_out response,
     set_scheduled (set_queues s (queues s ++ [[]])%list)
                   (scheduled s ++ [task_of command_type params s])%list).
Proof.
  intros Hm Hd.
  unfold marshalled, queue_new, schedule_message.
  cbn [main_thread set_queues]. rewrite Hm.
  unfold queue_get, queue_take.
  cbn [queues set_queues set_scheduled main_thread].
  rewrite take_fresh, Hm, Hd. reflexivity.
Qed.

(** The main thread runs the task within the ten seconds, nothing else
    being scheduled: the task's item is taken from the queue. *)
Lemma marshalled_in_time (command_type params : json) (response : dict)
      (s : Server) (delay : float) :
  main_thread s = Services delay ->
  PrimFloat.leb delay 10 = true ->
  scheduled s = [] ->
  marshalled command_type params response s
  = (let '(o, l) := task_body (task_of command_type params s) (live s) in
     let '(r, response') := collect (task_item o) response in
     (r, response',
      set_scheduled
        (set_live (set_queues s (queues s ++ [[]])%list) l) [])).
Proof.
  intros Hm Hd Hs.
  unfold marshalled, queue_new, schedule_message.
  cbn [main_thread set_queues]. rewrite Hm.
  unfold queue_get, queue_take.
  cbn [queues set_queues set_scheduled main_thread].
  rewrite take_fresh, Hm, Hd.
  unfold run_scheduled. cbn [scheduled set_scheduled set_queues].
  rewrite Hs. cbn [app fold_left].
  unfold main_thread_task, task_of.
  cbn [live set_scheduled set_queues task_queue].
  destruct (task_body _ (live s)) as [o l].
  unfold queue_put. cbn [queues set_queues set_live set_scheduled].
  rewrite put_fresh, take_put_fresh.
  destruct (collect (task_item o) response). reflexivity.
Qed.

(** What the main thread does when it gets to a task scheduled last. *)
Lemma run_scheduled_last (s : Server) (t : Task) :
  run_scheduled (set_scheduled s (scheduled s ++ [t])%list)
  = main_thread_task t (run_scheduled s).
Proof.
  unfold run_scheduled. cbn [scheduled set_scheduled].
  rewrite fold_left_app. reflexivity.
Qed.

Lemma scheduled_main_thread_task (t : Task) (s : Server) :
  scheduled (main_thread_task t s) = scheduled s.
Proof.
  unfold main_thread_task. destruct (task_body t (live s)). reflexivity.
Qed.

Lemma scheduled_fold_tasks (ts : list Task) (s : Server) :
  scheduled (fold_left (fun s' t => main_thread_task t s') ts s)
  = scheduled s.
Proof.
  revert s. induction ts as [|t ts IH]; intros s; [reflexivity|].
  cbn [fold_left]. rewrite IH. apply scheduled_main_thread_task.
Qed.

(** Once run, nothing stays scheduled. *)
Lemma scheduled_run_scheduled (s : Server) :
  scheduled (run_scheduled s) = [].
Proof. unfold run_scheduled. now rewrite scheduled_fold_tasks. Qed.

(** The response to a main-thread command, from what [marshalled] gives. *)
Lemma process_main_thread (d : dict) (s : Server) :
  py_in (command_type_of d) MAIN_THREAD = true ->
  _process_command (JDict d) s
  = match marshalled (command_type_of d) (params_of d)
                     initial_response s with
    | (Ok _, response, s') => (Ok (JDict response), s')
    | (Raise e, response, s') =>
        (Ok (JDict (dict_set (dict_set response "status" (JStr "error"))
                             "message" (JStr (str e)))), s')
    end.
Proof.
  intros Hin. rewrite process_command_dict.
  rewrite (route_main_thread _ _ _ _ Hin). reflexivity.
Qed.

Lemma process_in_place (d : dict) (s : Server) (a : exn) :
  py_in (command_type_of d) MAIN_THREAD = true ->
  main_thread s = Refuses a ->
  isinstance a AssertionError = true ->
  _process_command (JDict d) s
  = (let '(o, l) :=
       task_body (task_of (command_type_of d) (params_of d) s) (live s) in
     (Ok (outcome_reply o),
      set_live (set_queues s (queues s ++ [[]])%list) l)).
Proof.
  intros Hin Hm Ha.
  rewrite (process_main_thread d s Hin).
  rewrite (marshalled_in_place _ _ _ s a Hm Ha).
  destruct (task_body _ (live s)) as [o l].
  destruct (collect_task_item o) as (response & -> & <-). reflexivity.
Qed.

Lemma process_times_out (d : dict) (s : Server) (delay : float) :
  py_in (command_type_of d) MAIN_THREAD = true ->
  main_thread s = Services delay ->
  PrimFloat.leb delay 10 = false ->
  _process_command (JDict d) s
  = (Ok (error_reply "Timeout waiting for operation to complete"),
     set_scheduled
       (set_queues s (queues s ++ [[]])%list)
       (scheduled s
        ++ [task_of (command_type_of d) (params_of d) s])%list).
Proof.
  intros Hin Hm Hd.
  rewrite (process_main_thread d s Hin).
  rewrite (marshalled_times_out _ _ _ s delay Hm Hd). reflexivity.
Qed.

Lemma process_in_time (d : dict) (s : Server) (delay : float) :
  py_in (command_type_of d) MAIN_THREAD = true ->
  main_thread s = Services delay ->
  PrimFloat.leb delay 10 = true ->
  scheduled s = [] ->
  _process_command (JDict d) s
  = (let '(o, l) :=
       task_body (task_of (command_type_of d) (params_of d) s) (live s) in
     (Ok (outcome_reply o),
      set_scheduled
        (set_live (set_queues s (queues s ++ [[]])%list) l) [])).
Proof.
  intros Hin Hm Hd Hs.
  rewrite (process_main_thread d s Hin).
  rewrite (marshalled_in_time _ _ _ s delay Hm Hd Hs).
  destruct (task_body _ (live s)) as [o l].
  destruct (collect_task_item o) as (response & -> & <-). reflexivity.
Qed.

Lemma live_main_thread_task (t : Task) (s : Server) :
  live (main_thread_task t s) = snd (task_body t (live s)).
Proof.
  unfold main_thread_task. destruct (task_body t (live s)). reflexivity.
Qed.

Lemma length_put_nth (qs : list (list json)) :
  forall (k : nat) (item : json), length (put_nth qs k item) = length qs.
Proof.
  induction qs as [|items qs IH]; intros k item; [destruct k; reflexivity|].
  destruct k; cbn [put_nth length]; [reflexivity|]. now rewrite IH.
Qed.

Lemma length_queues_main_thread_task (t : Task) (s : Server) :
  length (queues (main_thread_task t s)) = length (queues s).
Proof.
  unfold main_thread_task. destruct (task_body t (live s)).
  cbn [queue_put queues set_queues set_live]. apply length_put_nth.
Qed.

Lemma length_queues_fold_tasks (ts : list Task) (s : Server) :
  length (queues (fold_left (fun s' t => main_thread_task t s') ts s))
  = length (queues s).
Proof.
  revert s. induction ts as [|t ts IH]; intros s; [reflexivity|].
  cbn [fold_left]. rewrite IH. apply length_queues_main_thread_task.
Qed.

Lemma length_queues_run_scheduled (s : Server) :
  length (queues (run_scheduled s)) = length (queues s).
Proof. unfold run_scheduled. now rewrite length_queues_fold_tasks. Qed.

Lemma nth_put_same (qs : list (list json)) :
  forall (q : nat) (item : json),
    q < length qs ->
    nth q (put_nth qs q item) [] = (nth q qs [] ++ [item])%list.
Proof.
  induction qs as [|items qs IH]; intros q item H; [inversion H|].
  destruct q as [|q]; cbn [put_nth nth]; [reflexivity|].
  apply IH. simpl in H. lia.
Qed.

(** The item of a task that runs lands at the end of its queue. *)
Lemma waiting_own_queue (t : Task) (s : Server) :
  task_queue t < length (queues s) ->
  waiting (task_queue t) (main_thread_task t s)
  = (waiting (task_queue t) s
     ++ [task_item (fst (task_body t (live s)))])%list.
Proof.
  intros H. unfold main_thread_task, waiting.
  destruct (task_body t (live s)) as [o l].
  cbn [queue_put queues set_queues set_live fst].
  now apply nth_put_same.
Qed.

Lemma run_scheduled_idle (s : Server) :
  scheduled s = [] -> run_scheduled s = s.
Proof.
  intros H. unfold run_scheduled. rewrite H. destruct s; simpl in *.
  now subst.
Qed.

(** *** Tasks left over from earlier timeouts *)

Lemma nth_put_other (qs : list (list json)) :
  forall (q k : nat) (item : json),
    k <> q -> nth q (put_nth qs k item) [] = nth q qs [].
Proof.
  induction qs as [|items qs IH]; intros q k item H.
  - destruct k; reflexivity.
  - destruct k as [|k]; destruct q as [|q]; cbn [put_nth nth];
      try reflexivity; try congruence.
    apply IH. congruence.
Qed.

Lemma waiting_other_task (q : nat) (t : Task) (s : Server) :
  task_queue t <> q ->
  waiting q (main_thread_task t s) = waiting q s.
Proof.
  intros H. unfold main_thread_task, waiting.
  destruct (task_body t (live s)) as [o l].
  cbn [queue_put queues set_queues set_live]. now apply nth_put_other.
Qed.

Lemma waiting_fold_other (q : nat) (ts : list Task) :
  forall s,
    Forall (fun t => task_queue t <> q) ts ->
    waiting q (fold_left (fun s' t => main_thread_task t s') ts s)
    = waiting q s.
Proof.
  induction ts as [|t ts IH]; intros s H; [reflexivity|].
  inversion H; subst. cbn [fold_left].
  rewrite IH by assumption. now apply waiting_other_task.
Qed.

Lemma take_put_empty (qs : list (list json)) :
  forall (q : nat) (item : json),
    q < length qs ->
    nth q qs [] = [] ->
    take_nth (put_nth qs q item) q = Some (item, qs).
Proof.
  induction qs as [|items qs IH]; intros q item Hq Hn; [inversion Hq|].
  destruct q as [|q]; cbn [put_nth take_nth nth] in *.
  - subst items. reflexivity.
  - rewrite IH by (assumption || (simpl in Hq; lia)).
    destruct items; reflexivity.
Qed.

(** The tasks left scheduled write to queues made before the one of the
    command at hand: they leave that one empty. *)
Lemma waiting_after_leftovers (s : Server) :
  queues_exist s ->
  waiting (length (queues s))
          (run_scheduled (set_queues s (queues s ++ [[]])%list))
  = [].
Proof.
  intros H. unfold run_scheduled. cbn [scheduled set_queues].
  rewrite waiting_fold_other.
  - apply (waiting_fresh s).
  - unfold queues_exist in H.
    eapply Forall_impl; [|exact H]. cbn beta. intros t Ht. lia.
Qed.

(** The main thread runs what is scheduled within the ten seconds: first
    the tasks left over, then the task of the command, whose item is taken
    from the queue. *)
Lemma marshalled_after_leftovers (command_type params : json)
      (response : dict) (s : Server) (delay : float) :
  main_thread s = Services delay ->
  PrimFloat.leb delay 10 = true ->
  queues_exist s ->
  marshalled command_type params response s
  = (let s0 := run_scheduled (set_queues s (queues s ++ [[]])%list) in
     let '(o, l) := task_body (task_of command_type params s) (live s0) in
     let '(r, response') := collect (task_item o) response in
     (r, response', set_live s0 l)).
Proof.
  intros Hm Hd Hq.
  unfold marshalled, queue_new, schedule_message.
  cbn [main_thread set_queues]. rewrite Hm.
  unfold queue_get, queue_take.
  cbn [queues set_queues set_scheduled main_thread].
  rewrite take_fresh, Hm, Hd.
  set (s0 := set_queues s (queues s ++ [[]])%list).
  set (task := Build_Task _ _ _).
  change (run_scheduled (set_scheduled s0 (scheduled s ++ [task])%list))
    with (run_scheduled (set_scheduled s0 (scheduled s0 ++ [task])%list)).
  rewrite (run_scheduled_last s0 task).
  pose proof (waiting_after_leftovers s Hq) as Hw.
  pose proof (length_queues_run_scheduled s0) as Hl.
  fold s0 in Hw. unfold waiting in Hw.
  unfold main_thread_task, task_of. fold task.
  destruct (task_body task (live (run_scheduled s0))) as [o l].
  unfold queue_put. cbn [queues set_queues set_live].
  change (task_queue task) with (length (queues s)).
  rewrite take_put_empty.
  - destruct (collect (task_item o) response).
    destruct (run_scheduled s0). reflexivity.
  - rewrite Hl. unfold s0. cbn [queues set_queues].
    rewrite length_app. simpl. lia.
  - exact Hw.
Qed.

Lemma process_after_leftovers (d : dict) (s : Server) (delay : float) :
  py_in (command_type_of d) MAIN_THREAD = true ->
  main_thread s = Services delay ->
  PrimFloat.leb delay 10 = true ->
  queues_exist s ->
  _process_command (JDict d) s
  = (let s0 := run_scheduled (set_queues s (queues s ++ [[]])%list) in
     let '(o, l) :=
       task_body (task_of (command_type_of d) (params_of d) s) (live s0) in
     (Ok (outcome_reply o), set_live s0 l)).
Proof.
  intros Hin Hm Hd Hq.
  rewrite (process_main_thread d s Hin).
  rewrite (marshalled_after_leftovers _ _ _ s delay Hm Hd Hq).
  cbv zeta.
  destruct (task_body _ (live (run_scheduled _))) as [o l].
  destruct (collect_task_item o) as (response & -> & <-). reflexivity.
Qed.

(** [queues_exist] holds when the script starts and ever after. *)

Lemma queues_exist_started (l : Live) (m : main_thread_mode) :
  queues_exist (started l m).
Proof. constructor. Qed.

Lemma queues_exist_longer (s : Server) (qs : list (list json)) :
  length (queues s) <= length qs ->
  queues_exist s -> queues_exist (set_queues s qs).
Proof.
  unfold queues_exist. cbn [scheduled queues set_queues]. intros Hl H.
  eapply Forall_impl; [|exact H]. cbn beta. intros t Ht. lia.
Qed.

Lemma length_take_nth (qs : list (list json)) :
  forall (q : nat) (item : json) (qs' : list (list json)),
    take_nth qs q = Some (item, qs') -> length qs' = length qs.
Proof.
  induction qs as [|items qs IH]; intros q item qs' H.
  - destruct q; discriminate.
  - destruct q as [|q].
    + destruct items; [discriminate|]. inversion H; reflexivity.
    + cbn [take_nth] in H.
      destruct (take_nth qs q) as [[i qs'']|] eqn:E.
      * assert (qs' = items :: qs'')
          by (destruct items; inversion H; reflexivity).
        subst. cbn [length]. f_equal. now apply IH with (q := q) (item := i).
      * destruct items; discriminate.
Qed.

Lemma queues_exist_main_thread_task (t : Task) (s : Server) :
  queues_exist s -> queues_exist (main_thread_task t s).
Proof.
  unfold queues_exist.
  rewrite scheduled_main_thread_task, length_queues_main_thread_task.
  auto.
Qed.

Lemma queues_exist_run_scheduled (s : Server) :
  queues_exist (run_scheduled s).
Proof.
  unfold queues_exist. rewrite scheduled_run_scheduled. constructor.
Qed.

Lemma queues_exist_queue_take (q : nat) (s s' : Server) (item : json) :
  queue_take q s = Some (item, s') ->
  queues_exist s -> queues_exist s'.
Proof.
  unfold queue_take.
  destruct (take_nth (queues s) q) as [[i qs]|] eqn:E; [|discriminate].
  intros H; inversion H; subst. apply queues_exist_longer.
  rewrite (length_take_nth _ _ _ _ E). lia.
Qed.

Lemma queues_exist_queue_get (q : nat) (t : float) (s : Server) :
  queues_exist s -> queues_exist (snd (queue_get q t s)).
Proof.
  intros H. unfold queue_get.
  destruct (queue_take q s) as [[item s']|] eqn:E; cbn [snd].
  - now apply (queues_exist_queue_take q s s' item E).
  - destruct (main_thread s); [|exact H].
    destruct (PrimFloat.leb delay t); [|exact H].
    destruct (queue_take q (run_scheduled s)) as [[item s']|] eqn:E';
      cbn [snd].
    + apply (queues_exist_queue_take q _ s' item E').
      apply queues_exist_run_scheduled.
    + apply queues_exist_run_scheduled.
Qed.

Lemma queues_exist_marshalled (command_type params : json)
      (response : dict) (s : Server) :
  queues_exist s ->
  queues_exist (snd (marshalled command_type params response s)).
Proof.
  intros H. unfold marshalled, queue_new, schedule_message.
  set (s0 := set_queues s _). set (task := Build_Task _ _ _).
  assert (H0 : queues_exist s0).
  { apply queues_exist_longer; [|exact H]. rewrite length_app. lia. }
  assert (H1 : queues_exist (set_scheduled s0 (scheduled s0 ++ [task])%list)).
  { unfold queues_exist in *. cbn [scheduled queues set_scheduled].
    apply Forall_app. split; [exact H0|]. constructor; [|constructor].
    unfold s0, task. cbn [task_queue queues set_queues].
    rewrite length_app. simpl. lia. }
  assert (Hget : forall s1,
             queues_exist s1 ->
             queues_exist
               (snd (match queue_get (length (queues s)) 10 s1 with
                     | (Ok task_response, s2) =>
                         let '(r', response') :=
                           collect task_response response in
                         (r', response', s2)
                     | (Raise e, s2) =>
                         if isinstance e queue_Empty
                         then (Ok tt, timed_out response, s2)
                         else (Raise e, response, s2)
                     end))).
  { intros s1 Hs1.
    pose proof (queues_exist_queue_get (length (queues s)) 10 s1 Hs1) as Hg.
    destruct (queue_get _ 10 s1) as [[item|e] s2]; cbn [snd] in *.
    - destruct (collect item response). exact Hg.
    - destruct (isinstance e queue_Empty); exact Hg. }
  cbn [main_thread] in *.
  destruct (main_thread s0) as [delay|e].
  - exact (Hget _ H1).
  - destruct (isinstance e AssertionError).
    + exact (Hget _ (queues_exist_main_thread_task task s0 H0)).
    + exact H0.
Qed.

Lemma queues_exist_process_command (command : json) (s : Server) :
  queues_exist s -> queues_exist (snd (_process_command command s)).
Proof.
  intros H. unfold _process_command.
  destruct (py_get command "type" _) as [command_type|e]; [|exact H].
  destruct (py_get command "params" _) as [params|e]; [|exact H].
  assert (Hr : queues_exist
                 (snd (route command_type params initial_response s))).
  { assert (Hd : forall b response,
               queues_exist (snd (direct b params response s))).
    { intros b response. unfold direct.
      destruct (run_body b params (live s)) as [[v|e] l]; exact H. }
    unfold route.
    destruct (find_body command_type DIRECT); [apply Hd|].
    destruct (py_in command_type MAIN_THREAD);
      [now apply queues_exist_marshalled|].
    destruct (find_body command_type DIRECT_LATE); [apply Hd|].
    unfold unknown. destruct (str_add _ command_type); exact H. }
  destruct (route command_type params _ s) as [[[u|e] r] s']; exact Hr.
Qed.

Lemma queues_exist_iteration (r : recv_outcome) (c : Conn) (s : Server) :
  queues_exist s -> queues_exist (snd (iteration r c s)).
Proof.
  intros H. unfold iteration.
  destruct r as [data|e]; [|destruct (on_exception e c); exact H].
  destruct data as [|b data]; [exact H|].
  destruct (utf8_decode (b :: data)) as [text|];
    [|destruct (on_exception decode_error _); exact H].
  unfold parse_and_reply.
  destruct (json_loads _) as [command|];
    [|cbn [end_of_turn isinstance]; exact H].
  unfold dispatch.
  destruct (py_get command "type" _) as [v|e].
  - pose proof (queues_exist_process_command command s H) as Hp.
    destruct (_process_command command s) as [[response|e] s'];
      cbn [snd] in Hp.
    + destruct (sendall _ _) as [[u|e] c']; cbn [end_of_turn snd];
        [exact Hp|].
      destruct (isinstance e ValueError); [exact Hp|].
      destruct (on_exception e c'); exact Hp.
    + cbn [end_of_turn]. destruct (isinstance e ValueError); [exact Hp|].
      destruct (on_exception e _); exact Hp.
  - cbn [end_of_turn]. destruct (isinstance e ValueError); [exact H|].
    destruct (on_exception e _); exact H.
Qed.

(** Whatever happens around the handler, every scheduled task has its
    queue. *)
Lemma queues_exist_handle_loop (evs : list event) :
  forall (c : Conn) (s : Server),
    queues_exist s -> queues_exist (snd (handle_loop evs c s)).
Proof.
  induction evs as [|ev evs IH]; intros c s H; [exact H|].
  destruct ev as [r|e| | |m]; cbn [handle_loop].
  - pose proof (queues_exist_iteration r c s H) as Hi.
    destruct (iteration r c s) as [[k c'] s']. cbn [snd] in Hi.
    destruct k; [|exact Hi].
    destruct (running s'); [now apply IH|exact Hi].
  - now apply IH.
  - now apply IH.
  - apply IH, queues_exist_run_scheduled.
  - now apply IH.
Qed.

(** C3. A command handed to the main thread waits for its outcome with
    [queue.get(timeout=10.0)].  When the main thread does not run what is
    scheduled within those ten seconds, the response is the error
    ["Timeout waiting for operation to complete"], Live is as it was, and
    the task is left scheduled: when the main thread later gets to it, it
    runs once, on the Live of that moment, its item lands in the queue
    nobody reads any more, and nothing stays scheduled.  When the main
    thread is in time, it runs what earlier timeouts left scheduled and
    then the task, and the response is the outcome of the command. *)
Theorem timeout_leaves_the_task_scheduled
        (d : dict) (s : Server) (delay : float) :
  py_in (command_type_of d) MAIN_THREAD = true ->
  main_thread s = Services delay ->
  let task := task_of (command_type_of d) (params_of d) s in
  let s0 := set_queues s (queues s ++ [[]])%list in
  let s1 := set_scheduled s0 (scheduled s ++ [task])%list in
  (PrimFloat.leb delay 10 = false ->
   _process_command (JDict d) s
   = (Ok (error_reply "Timeout waiting for operation to complete"), s1)
   /\ live s1 = live s
   /\ run_scheduled s1 = main_thread_task task (run_scheduled s0)
   /\ live (run_scheduled s1)
      = snd (task_body task (live (run_scheduled s0)))
   /\ waiting (task_queue task) (run_scheduled s1)
      = (waiting (task_queue task) (run_scheduled s0)
         ++ [task_item (fst (task_body task (live (run_scheduled s0))))])%list
   /\ run_scheduled (run_scheduled s1) = run_scheduled s1)
  /\ (PrimFloat.leb delay 10 = true ->
      queues_exist s ->
      _process_command (JDict d) s
      = (Ok (outcome_reply
               (fst (task_body task (live (run_scheduled s0))))),
         set_live (run_scheduled s0)
                  (snd (task_body task (live (run_scheduled s0)))))).
Proof.
  intros Hin Hm task s0 s1. split.
  - intros Hd.
    assert (Hrun : run_scheduled s1 = main_thread_task task (run_scheduled s0))
      by apply (run_scheduled_last s0 task).
    repeat split.
    + apply (process_times_out d s delay Hin Hm Hd).
    + exact Hrun.
    + rewrite Hrun. apply live_main_thread_task.
    + rewrite Hrun. apply waiting_own_queue.
      rewrite length_queues_run_scheduled. unfold s0, task, task_of.
      cbn [task_queue queues set_queues]. rewrite length_app. simpl. lia.
    + apply run_scheduled_idle. apply scheduled_run_scheduled.
  - intros Hd Hq.
    rewrite (process_after_leftovers d s delay Hin Hm Hd Hq).
    cbv zeta. fold s0. fold task.
    destruct (task_body task (live (run_scheduled s0))). reflexivity.
Qed.

(** C4. When [schedule_message] raises [AssertionError], the task is not
    scheduled: it runs at once on the handler's thread, on the Live of
    that moment, and puts its item in the queue as it would on the main
    thread; the response is the outcome of the command, the same the
    handler gets from a main thread that is in time. *)
Theorem assertion_error_runs_the_task_in_place
        (d : dict) (s : Server) (a : exn) :
  py_in (command_type_of d) MAIN_THREAD = true ->
  main_thread s = Refuses a ->
  isinstance a AssertionError = true ->
  let task := task_of (command_type_of d) (params_of d) s in
  let s0 := set_queues s (queues s ++ [[]])%list in
  let o := fst (task_body task (live s)) in
  let l := snd (task_body task (live s)) in
  schedule_message task s0 = (Raise a, s0)
  /\ waiting (task_queue task) (main_thread_task task s0) = [task_item o]
  /\ _process_command (JDict d) s = (Ok (outcome_reply o), set_live s0 l)
  /\ scheduled (set_live s0 l) = scheduled s
  /\ forall delay,
      PrimFloat.leb delay 10 = true ->
      scheduled s = [] ->
      _process_command (JDict d) (set_main_thread s (Services delay))
      = (Ok (outcome_reply o),
         set_main_thread (set_live s0 l) (Services delay)).
Proof.
  intros Hin Hm Ha task s0 o l.
  repeat split.
  - unfold schedule_message, s0. cbn [main_thread set_queues].
    now rewrite Hm.
  - rewrite waiting_own_queue.
    + unfold s0, task, task_of. cbn [task_queue]. rewrite waiting_fresh.
      reflexivity.
    + unfold s0, task, task_of. cbn [task_queue queues set_queues].
      rewrite length_app. simpl. lia.
  - rewrite (process_in_place d s a Hin Hm Ha). fold task.
    unfold o, l. destruct (task_body task (live s)). reflexivity.
  - intros delay Hd Hs.
    rewrite (process_in_time d (set_main_thread s (Services delay)) delay
               Hin eq_refl Hd Hs).
    cbn [live set_main_thread queues]. unfold o, l, task, s0, task_of.
    cbn [queues set_main_thread].
    destruct (task_body _ (live s)) as [o' l'].
    cbn [fst snd]. f_equal.
    destruct s; simpl in *; subst; reflexivity.
Qed.

(** *** Commands answered in place *)

Lemma route_direct (command_type params : json) (response : dict)
      (s : Server) (b : body) :
  direct_branch command_type = Some b ->
  route command_type params response s = direct b params response s.
Proof.
  unfold direct_branch, route.
  destruct (find_body command_type DIRECT) as [b'|].
  - intros H; inversion H; reflexivity.
  - destruct (py_in command_type MAIN_THREAD); [discriminate|].
    now intros ->.
Qed.

Lemma process_direct (d : dict) (s : Server) (b : body) :
  direct_branch (command_type_of d) = Some b ->
  _process_command (JDict d) s
  = (let '(o, l) := run_body b (params_of d) (live s) in
     (Ok (outcome_reply o), set_live s l)).
Proof.
  intros Hb. rewrite process_command_dict.
  rewrite (route_direct _ _ _ s b Hb). unfold direct.
  destruct (run_body b (params_of d) (live s)) as [[v|e] l]; reflexivity.
Qed.

(** With a socket that works, the one exception that can leave the inner
    [try] after a parse is the [AttributeError] of the handler's own
    [command.get] on a value that is not an object; [_process_command] is
    called on objects only, and returns. *)
Lemma dispatch_raises_only_on_non_objects
      (command : json) (c : Conn) (s : Server) (e : exn) :
  write_error c = None ->
  fst (fst (dispatch command c s)) = Raise e ->
  e = no_attribute command "get" /\ forall d, command <> JDict d.
Proof.
  intros Hw. unfold dispatch.
  destruct command as [| | | | | |d];
    try (cbn [py_get fst]; intros H; inversion H; split;
         [reflexivity|discriminate]).
  cbn [py_get].
  destruct (process_command_returns d s) as (response & s' & ->).
  unfold sendall. rewrite Hw. discriminate.
Qed.

(** C5. A command that is a JSON object always gets a response from
    [_process_command]: no exception leaves it, and the handler calls it
    on objects only.  An exception raised while a command answered in place
    reads its parameters or runs its body, and any exception that leaves
    the routed branch, becomes the response
    [{"status": "error", "result": {}, "message": str(e)}]; so does one
    raised by the body of a main-thread command that runs in place or
    within the ten seconds.  The handler writes the response and goes on
    with its loop: the connection stays open. *)
Theorem exceptions_become_error_responses (d : dict) (s : Server) :
  (exists response s', _process_command (JDict d) s = (Ok response, s'))
  /\ (forall b e l,
         direct_branch (command_type_of d) = Some b ->
         run_body b (params_of d) (live s) = (Raise e, l) ->
         _process_command (JDict d) s
         = (Ok (error_reply (str e)), set_live s l))
  /\ (forall e response s',
         route (command_type_of d) (params_of d) initial_response s
         = (Raise e, response, s') ->
         _process_command (JDict d) s = (Ok (error_reply (str e)), s'))
  /\ (forall a e l,
         py_in (command_type_of d) MAIN_THREAD = true ->
         main_thread s = Refuses a ->
         isinstance a AssertionError = true ->
         task_body (task_of (command_type_of d) (params_of d) s) (live s)
         = (Raise e, l) ->
         _process_command (JDict d) s
         = (Ok (error_reply (str e)),
            set_live (set_queues s (queues s ++ [[]])%list) l))
  /\ (forall delay e l,
         py_in (command_type_of d) MAIN_THREAD = true ->
         main_thread s = Services delay ->
         PrimFloat.leb delay 10 = true ->
         scheduled s = [] ->
         task_body (task_of (command_type_of d) (params_of d) s) (live s)
         = (Raise e, l) ->
         _process_command (JDict d) s
         = (Ok (error_reply (str e)),
            set_scheduled
              (set_live (set_queues s (queues s ++ [[]])%list) l) []))
  /\ (forall c e,
         write_error c = None ->
         fst (fst (dispatch (JDict d) c s)) <> Raise e)
  /\ (forall c data text evs,
         running s = true ->
         write_error c = None ->
         data <> [] ->
         utf8_decode data = Some text ->
         json_loads (buffer c ++ text) = Some (JDict d) ->
         exists response s',
           _process_command (JDict d) s = (Ok response, s')
           /\ handle_loop (Recv (Data data) :: evs) c s
              = handle_loop evs (answered c [data] response) s').
Proof.
  split; [apply process_command_returns|].
  split.
  { intros b e l Hb Hr. rewrite (process_direct d s b Hb), Hr.
    reflexivity. }
  split.
  { intros e response s' Hr. now apply process_command_caught
      with (response := response). }
  split.
  { intros a e l Hin Hm Ha Hb.
    rewrite (process_in_place d s a Hin Hm Ha), Hb. reflexivity. }
  split.
  { intros delay e l Hin Hm Hd Hs Hb.
    rewrite (process_in_time d s delay Hin Hm Hd Hs), Hb. reflexivity. }
  split.
  { intros c e Hw H.
    destruct (dispatch_raises_only_on_non_objects (JDict d) c s e Hw H)
      as [_ Hn].
    now apply (Hn d). }
  intros c data text evs Hrun Hw Hdata Htext Hloads.
  destruct (process_command_returns d s) as (response & s' & Hp).
  exists response, s'. split; [exact Hp|].
  now apply handle_loop_answers with (text := text) (d := d).
Qed.

(** ** The claims about the client *)

(** Case analysis on the parse a hypothesis depends on; the case where
    the bytes parse contradicts the hypothesis. *)
Ltac case_parse H P :=
  match type of H with
  | context [parse ?data] =>
      let e := fresh "e" in
      destruct (parse data) as [|e] eqn:P; [discriminate H|]
  end.

Lemma receive_loop_timeout (under : option float) (chunks : list bytes)
      (script : list recv_outcome) (e : exn) :
  isinstance e (OS socket_timeout) = true ->
  fst (receive_loop under chunks (RecvError e :: script))
  = Some (after_loop chunks).
Proof. intros H. cbn [receive_loop]. rewrite H. reflexivity. Qed.

Lemma receive_loop_incomplete (under : option float)
      (chunks : list bytes) :
  forall (acc : list bytes) (script : list recv_outcome),
    incomplete acc chunks = true ->
    fst (receive_loop under acc (map Data chunks ++ script))
    = fst (receive_loop under (acc ++ chunks) script).
Proof.
  induction chunks as [|chunk rest IH]; intros acc script H.
  - now rewrite app_nil_r.
  - cbn [incomplete] in H.
    destruct chunk as [|b chunk]; [discriminate|].
    case_parse H P.
    apply andb_true_iff in H. destruct H as [He Hrest].
    cbn [map app receive_loop]. rewrite P, He. cbn [fst].
    rewrite (IH _ script Hrest), <- app_assoc. reflexivity.
Qed.

Lemma incomplete_last (chunks : list bytes) :
  forall acc,
    chunks <> [] ->
    incomplete acc chunks = true ->
    exists e, parse (join (acc ++ chunks)) = Raise e
              /\ isinstance e JSONDecodeError = true.
Proof.
  induction chunks as [|chunk rest IH]; intros acc Hne H; [congruence|].
  cbn [incomplete] in H.
  destruct chunk as [|b chunk]; [discriminate|].
  case_parse H P.
  apply andb_true_iff in H. destruct H as [He Hrest].
  destruct rest as [|chunk' rest'].
  - exists e. now split.
  - destruct (IH (acc ++ [b :: chunk])%list) as (e' & P' & He');
      [discriminate|exact Hrest|].
    exists e'. rewrite <- app_assoc in P'. now split.
Qed.

(** C6. In the receive loop of the client, a socket timeout that comes
    when at least one chunk has been received ends the loop with the bytes
    received so far if they parse as JSON, and with an exception if they
    do not; since the loop returns as soon as the bytes parse, a timeout
    met on the way from the first chunk always finds them incomplete and
    raises.  A timeout, or the peer's close, before any chunk raises and
    returns nothing. *)
Theorem timeout_returns_only_valid_json
        (k : Socket) (under : option float) (chunks : list bytes)
        (script : list recv_outcome) (e : exn) :
  isinstance e (OS socket_timeout) = true ->
  (chunks <> [] ->
   (forall v, parse (join chunks) = Ok v ->
      fst (receive_loop under chunks (RecvError e :: script))
      = Some (Ok (join chunks)))
   /\ (forall e', parse (join chunks) = Raise e' ->
         exists e'',
           fst (receive_loop under chunks (RecvError e :: script))
           = Some (Raise e''))
   /\ (incomplete [] chunks = true ->
       fst (fst (receive_full_response k
                   (map Data chunks ++ RecvError e :: script)))
       = Some (Raise (Raised Exception
                        "Incomplete JSON response received"))))
  /\ fst (fst (receive_full_response k (RecvError e :: script)))
     = Some (Raise (Raised Exception "No data received"))
  /\ fst (fst (receive_full_response k (Data [] :: script)))
     = Some (Raise (Raised Exception
                      "Connection closed before receiving any data")).
Proof.
  intros He.
  assert (Hfull : forall sc,
             fst (fst (receive_full_response k sc))
             = fst (receive_loop (Some 15%float) [] sc)).
  { intros sc. unfold receive_full_response. cbn [timeout].
    destruct (receive_loop (Some 15%float) [] sc). reflexivity. }
  split; [intros Hne; split; [|split]|split].
  - intros v P. rewrite (receive_loop_timeout under chunks script e He).
    unfold after_loop. rewrite P. destruct chunks; [congruence|reflexivity].
  - intros e' P. rewrite (receive_loop_timeout under chunks script e He).
    unfold after_loop. rewrite P.
    destruct chunks; [congruence|].
    destruct (isinstance e' JSONDecodeError); eauto.
  - intros Hinc. rewrite Hfull.
    rewrite (receive_loop_incomplete (Some 15%float) chunks [] _ Hinc).
    cbn [app]. rewrite (receive_loop_timeout _ chunks script e He).
    destruct (incomplete_last chunks [] Hne Hinc) as (e' & P & He').
    cbn [app] in P. unfold after_loop. rewrite P, He'.
    destruct chunks; [congruence|reflexivity].
  - rewrite Hfull, (receive_loop_timeout _ [] script e He). reflexivity.
  - rewrite Hfull. reflexivity.
Qed.

Lemma recv_timeouts_app (l1 l2 : list action) :
  recv_timeouts (l1 ++ l2) = (recv_timeouts l1 ++ recv_timeouts l2)%list.
Proof.
  induction l1 as [|a l1 IH]; [reflexivity|].
  destruct a; cbn [app recv_timeouts]; now rewrite IH.
Qed.

Lemma recv_timeouts_settle (modifying : bool) :
  recv_timeouts (settle modifying) = [].
Proof. destruct modifying; reflexivity. Qed.

Lemma recv_timeouts_receive_loop (under : option float)
      (script : list recv_outcome) :
  forall chunks,
    Forall (fun t => t = under)
           (recv_timeouts (snd (receive_loop under chunks script))).
Proof.
  induction script as [|r script IH]; intros chunks; [constructor|].
  cbn [receive_loop].
  destruct r as [[|b data]|e].
  - destruct chunks; repeat constructor.
  - destruct (parse _) as [v|e]; [repeat constructor|].
    destruct (isinstance e JSONDecodeError); [|repeat constructor].
    cbn [snd recv_timeouts]. constructor; [reflexivity|apply IH].
  - destruct (isinstance e (OS socket_timeout)); repeat constructor.
Qed.

Lemma recv_timeouts_receive_full_response (k : Socket)
      (script : list recv_outcome) :
  Forall (fun t => t = Some 15%float)
         (recv_timeouts (snd (receive_full_response k script))).
Proof.
  unfold receive_full_response. cbn [timeout].
  pose proof (recv_timeouts_receive_loop (Some 15%float) script []) as H.
  destruct (receive_loop (Some 15%float) [] script) as [r log].
  exact H.
Qed.

Lemma recv_timeouts_exchange (command_type : string) (command : json)
      (net : Net) (k : Socket) :
  Forall (fun t => t = Some 15%float)
         (recv_timeouts (snd (exchange command_type command net k))).
Proof.
  unfold exchange.
  destruct (send_error net); [constructor|].
  match goal with
  | |- context [receive_full_response ?k1 ?sc] =>
      pose proof (recv_timeouts_receive_full_response k1 sc) as H;
      destruct (receive_full_response k1 sc) as [[r k2] log]
  end.
  cbn [snd] in H.
  assert (Hb : Forall (fun t => t = Some 15%float)
                 (recv_timeouts
                    (Sent (utf8_encode (json_dumps command))
                     :: settle (is_modifying_command command_type)
                     ++ [SetTimeout (if is_modifying_command command_type
                                     then 15 else 10)%float] ++ log)%list)).
  { cbn [recv_timeouts].
    rewrite recv_timeouts_app, recv_timeouts_settle. exact H. }
  destruct r as [[data|e]|]; cbn [snd]; try exact Hb.
  destruct (parse data) as [response|e]; cbn [snd]; try exact Hb.
  destruct (py_get response "status" JNull) as [st|e]; cbn [snd];
    try exact Hb.
  destruct (eq_str st "error").
  - destruct (py_get response "message" _); exact Hb.
  - cbn [snd]. rewrite app_comm_cons, recv_timeouts_app,
      recv_timeouts_settle, app_nil_r. exact Hb.
Qed.

(** Whatever the command, every [recv] of [send_command] runs under the
    timeout of fifteen seconds that [receive_full_response] sets. *)
Lemma recv_timeouts_send_command (command_type : string) (params : json)
      (net : Net) (self : AbletonConnection) :
  Forall (fun t => t = Some 15%float)
         (recv_timeouts (snd (send_command command_type params net self))).
Proof.
  unfold send_command.
  destruct (match sock self with
            | Some _ => (true, self)
            | None => connect net self
            end) as [connected self'].
  destruct connected; [|constructor].
  destruct (sock self') as [k|]; [|constructor].
  match goal with
  | |- context [exchange ?a ?b ?c ?x] =>
      pose proof (recv_timeouts_exchange a b c x) as H;
      destruct (exchange a b c x) as [[[[v|e]|] k'] log]
  end; exact H.
Qed.

Lemma connect_fails_without_socket (net : Net) (self self' : AbletonConnection) :
  connect net self = (false, self') -> sock self' = None.
Proof.
  unfold connect. destruct (sock self); [discriminate|].
  destruct (connect_error net); intros H; inversion H; reflexivity.
Qed.

(** C8, as the code has it. Whenever [send_command] raises, the cached
    socket is [None] afterwards, whatever failed: a connection-level
    error, a reply that does not parse, or a response whose status is
    ["error"].  Such a response raises
    ["Communication error with Ableton: "] followed by its message
    (["Unknown error from Ableton"] when it has none), through the same
    catch-all clause that drops the socket. *)
Theorem every_failure_drops_the_socket
        (command_type : string) (params : json) (net : Net)
        (self : AbletonConnection) :
  (forall e self' log,
      send_command command_type params net self
      = (Some (Raise e), self', log) ->
      sock self' = None)
  /\ (forall k data response,
         sock self = Some k ->
         send_error net = None ->
         fst (fst (receive_full_response k (replies net)))
         = Some (Ok data) ->
         parse data = Ok (JDict response) ->
         dict_get response "status" = Some (JStr "error") ->
         fst (send_command command_type params net self)
         = (Some (Raise
              (Raised Exception
                 ("Communication error with Ableton: "
                  ++ py_str match dict_get response "message" with
                            | Some m => m
                            | None => JStr "Unknown error from Ableton"
                            end))),
            set_sock self None)).
Proof.
  split.
  - intros e self' log. unfold send_command.
    destruct (sock self) as [k|] eqn:Hs.
    + rewrite Hs.
      destruct (exchange _ _ net k) as [[[[v|e']|] k'] log'];
        intros H; inversion H; reflexivity.
    + destruct (connect net self) as [[|] self1] eqn:Hc.
      * destruct (sock self1) as [k|] eqn:Hs1.
        -- destruct (exchange _ _ net k) as [[[[v|e']|] k'] log'];
             intros H; inversion H; reflexivity.
        -- intros H; inversion H; subst. exact Hs1.
      * intros H; inversion H; subst.
        now apply connect_fails_without_socket with (net := net)
                                                     (self := self).
  - intros k data response Hs Hsend Hrecv Hparse Hstatus.
    unfold send_command. rewrite Hs, Hs.
    unfold exchange. rewrite Hsend.
    assert (Hk : forall k1,
               fst (fst (receive_full_response k1 (replies net)))
               = fst (fst (receive_full_response k (replies net))))
      by reflexivity.
    match goal with
    | |- context [receive_full_response ?k1 (replies net)] =>
        specialize (Hk k1);
        destruct (receive_full_response k1 (replies net))
          as [[r k2] log]
    end.
    cbn [fst] in Hk. rewrite Hk, Hrecv, Hparse.
    cbn [py_get]. rewrite Hstatus. cbn [eq_str String.eqb Ascii.eqb
      Bool.eqb fst]. cbn. unfold reraise. cbn. reflexivity.
Qed.

(** ** More on the handler's loop *)

Lemma os_error_is_no_value_error (e : os_error) :
  isinstance (exn_of_os e) ValueError = false.
Proof. destruct e as [[] m]; reflexivity. Qed.

Lemma no_attribute_is_no_value_error (v : json) (attr : string) :
  isinstance (no_attribute v attr) ValueError = false.
Proof. reflexivity. Qed.

Lemma running_iteration (r : recv_outcome) (c : Conn) (s : Server) :
  running (snd (iteration r c s)) = running s.
Proof.
  unfold iteration. destruct r as [data|e].
  - destruct data as [|b data]; [reflexivity|].
    destruct (utf8_decode (b :: data)) as [text|].
    + unfold parse_and_reply.
      destruct (json_loads _) as [command|]; [|reflexivity].
      unfold dispatch.
      destruct (py_get command "type" _) as [t|e].
      * pose proof (running_process_command command s) as H.
        destruct (_process_command command s) as [[response|e] s'];
          simpl in H.
        -- destruct (sendall _ _) as [[u|e] c']; simpl;
             [exact H|].
           destruct (isinstance e ValueError); [exact H|].
           destruct (on_exception e c'); exact H.
        -- simpl. destruct (isinstance e ValueError); [exact H|].
           destruct (on_exception e _); exact H.
      * simpl. destruct (isinstance e ValueError); [reflexivity|].
        destruct (on_exception e _); reflexivity.
    + destruct (on_exception _ _); reflexivity.
  - destruct (on_exception e c); reflexivity.
Qed.

(** X1. A chunk that completes a JSON value which is not an object (a list,
    a number, a string, [true], [null]): the buffer is cleared, the
    handler writes [{"status": "error", "message": "'<type>' object has no
    attribute 'get'"}] (two keys, no ["result"]), leaves its loop and the
    connection is closed; the script is left as it was and what follows on
    the connection is not read. *)
Theorem non_object_command_closes_the_connection
        (c : Conn) (s : Server) (data : bytes) (text : string)
        (command : json) (evs : list event) :
  data <> [] ->
  utf8_decode data = Some text ->
  json_loads (buffer c ++ text) = Some command ->
  (forall d, command <> JDict d) ->
  write_error c = None ->
  handle_loop (Recv (Data data) :: evs) c s
  = (Closed,
     {| buffer := EmptyString;
        wire := (wire c
                 ++ [Rx data;
                     Tx (utf8_encode
                           (json_dumps
                              (error_response
                                 (no_attribute command "get"))))])%list;
        write_error := None |},
     s).
Proof.
  intros Hdata Htext Hloads Hobj Hw.
  rewrite handle_loop_recv. unfold iteration.
  destruct data as [|b data]; [congruence|].
  rewrite Htext. unfold parse_and_reply.
  cbn [buffer set_buffer log_io]. rewrite Hloads.
  unfold dispatch, end_of_turn, on_exception, sendall.
  destruct command; try (exfalso; eapply Hobj; reflexivity);
    cbn [py_get write_error set_buffer log_io]; rewrite Hw;
    rewrite !no_attribute_is_no_value_error;
    unfold log_io, set_buffer; cbn [buffer wire write_error];
    rewrite Hw, <- app_assoc; reflexivity.
Qed.

(** X2. A chunk that is not valid UTF-8 is answered with an error response
    carrying the decoder's message and is dropped: the buffer keeps what
    it held before the chunk, and the handler goes on reading. *)
Theorem undecodable_chunk_is_answered_and_dropped
        (c : Conn) (s : Server) (data : bytes) (evs : list event) :
  running s = true ->
  data <> [] ->
  utf8_decode data = None ->
  write_error c = None ->
  handle_loop (Recv (Data data) :: evs) c s
  = handle_loop evs
      {| buffer := buffer c;
         wire := (wire c
                  ++ [Rx data;
                      Tx (utf8_encode
                            (json_dumps (error_response decode_error)))])%list;
         write_error := None |}
      s.
Proof.
  intros Hrun Hdata Htext Hw.
  rewrite handle_loop_recv. unfold iteration.
  destruct data as [|b data]; [congruence|].
  rewrite Htext. unfold on_exception, sendall.
  cbn [write_error log_io]. rewrite Hw. cbn. rewrite Hrun.
  unfold log_io. cbn [buffer wire write_error].
  rewrite Hw, <- app_assoc. reflexivity.
Qed.

(** X3. How a connection ends without a command.  When [recv] returns no
    data the handler leaves its loop without writing anything, whatever
    its buffer holds; when [recv] raises an error that is no [ValueError]
    (a reset, say) the handler tries to write an error response and leaves
    the loop.  The script's state is untouched in both cases, and nothing
    that follows is read. *)
Theorem connection_end_leaves_the_script_untouched
        (c : Conn) (s : Server) (evs : list event) :
  handle_loop (Recv (Data []) :: evs) c s
  = (Closed,
     {| buffer := buffer c; wire := (wire c ++ [Rx []])%list;
        write_error := write_error c |},
     s)
  /\ forall e,
      isinstance e ValueError = false ->
      handle_loop (Recv (RecvError e) :: evs) c s
      = (Closed,
         match write_error c with
         | Some _ => c
         | None =>
             {| buffer := buffer c;
                wire := (wire c
                         ++ [Tx (utf8_encode
                                   (json_dumps (error_response e)))])%list;
                write_error := None |}
         end,
         s).
Proof.
  split; [reflexivity|].
  intros e He. rewrite handle_loop_recv.
  unfold iteration, on_exception, sendall.
  destruct (write_error c) eqn:Hw; [reflexivity|].
  rewrite He. unfold log_io. rewrite Hw. reflexivity.
Qed.

(** X4. Once the peer is gone (every [sendall] raises), a command that
    arrives complete is still processed, so its effect on Live and on the
    script takes place, but no response and no error response is written,
    and the handler leaves its loop. *)
Theorem lost_peer_still_runs_the_command
        (c : Conn) (s s' : Server) (e : os_error) (data : bytes)
        (text : string) (d : dict) (response : json) (evs : list event) :
  write_error c = Some e ->
  data <> [] ->
  utf8_decode data = Some text ->
  json_loads (buffer c ++ text) = Some (JDict d) ->
  _process_command (JDict d) s = (Ok response, s') ->
  handle_loop (Recv (Data data) :: evs) c s
  = (Closed,
     {| buffer := EmptyString; wire := (wire c ++ [Rx data])%list;
        write_error := Some e |},
     s').
Proof.
  intros Hw Hdata Htext Hloads Hp.
  rewrite handle_loop_recv. unfold iteration.
  destruct data as [|b data]; [congruence|].
  rewrite Htext. unfold parse_and_reply.
  cbn [buffer set_buffer log_io]. rewrite Hloads.
  unfold dispatch. cbn [py_get]. rewrite Hp.
  unfold sendall. cbn [write_error set_buffer log_io]. rewrite Hw.
  unfold end_of_turn. rewrite os_error_is_no_value_error.
  unfold on_exception, sendall. cbn [write_error]. rewrite ?Hw.
  unfold set_buffer, log_io. cbn [buffer wire write_error]. rewrite ?Hw.
  reflexivity.
Qed.

(** Events other than [recv] returning leave the handler where it is. *)
Lemma handle_loop_between (evs1 : list event) :
  forall (c : Conn) (s : Server) (rest : list event),
    forallb (fun ev => negb (is_recv ev)) evs1 = true ->
    fst (fst (handle_loop evs1 c s)) = Reading
    /\ (running s = false -> running (snd (handle_loop evs1 c s)) = false)
    /\ handle_loop (evs1 ++ rest) c s
       = handle_loop rest (snd (fst (handle_loop evs1 c s)))
                     (snd (handle_loop evs1 c s)).
Proof.
  induction evs1 as [|ev evs1 IH]; intros c s rest Hev.
  - repeat split; auto.
  - cbn [forallb] in Hev. apply andb_true_iff in Hev. destruct Hev as [H1 H2].
    destruct ev; try discriminate; cbn [app handle_loop].
    + destruct (IH (set_write_error c (Some e)) s rest H2) as (A & B & C).
      repeat split; auto.
    + destruct (IH c (set_running s false) rest H2) as (A & B & C).
      repeat split; auto.
    + destruct (IH c (run_scheduled s) rest H2) as (A & B & C).
      repeat split; auto.
      intros Hrun. apply B. now rewrite running_run_scheduled.
    + destruct (IH c (set_main_thread s m) rest H2) as (A & B & C).
      repeat split; auto.
Qed.

(** X5. After [disconnect()] has cleared [self.running], a handler that is
    blocked in [recv] still serves what arrives next (a complete command
    is processed and answered as usual) and only then leaves its loop:
    the connection is closed after that one turn and nothing later is
    read. *)
Theorem stop_closes_after_the_turn_in_progress
        (evs1 evs2 : list event) (r : recv_outcome) (c : Conn)
        (s : Server) :
  forallb (fun ev => negb (is_recv ev)) evs1 = true ->
  handle_loop (Stop :: evs1 ++ Recv r :: evs2) c s
  = (let '(_, c1, s1) := handle_loop (Stop :: evs1) c s in
     let '(_, c2, s2) := iteration r c1 s1 in
     (Closed, c2, s2)).
Proof.
  intros Hev. cbn [handle_loop].
  destruct (handle_loop_between evs1 c (set_running s false)
                                (Recv r :: evs2) Hev) as (A & B & C).
  rewrite C. specialize (B eq_refl).
  destruct (handle_loop evs1 c (set_running s false)) as [[st c1] s1].
  cbn [fst snd] in *. rewrite handle_loop_recv.
  pose proof (running_iteration r c1 s1) as H.
  destruct (iteration r c1 s1) as [[k c2] s2]. cbn [snd] in H.
  rewrite H, B. destruct k; reflexivity.
Qed.

(** X6. While the buffer does not parse the handler writes nothing and
    keeps everything: after any number of chunks, each leaving the buffer
    unparsable, the buffer is what it held before followed by all the
    text received, with no bound on its size, and the handler is still
    reading.  The script is not touched. *)
Theorem nothing_is_written_while_the_buffer_is_incomplete
        (chunks : list bytes) :
  forall (texts : list string) (c : Conn) (s : Server) (evs : list event),
    running s = true ->
    Forall2 (fun data text => data <> [] /\ utf8_decode data = Some text)
            chunks texts ->
    stays_incomplete (buffer c) texts = true ->
    handle_loop (arrive chunks ++ evs) c s
    = handle_loop evs
        {| buffer := buffer c ++ String.concat EmptyString texts;
           wire := (wire c ++ map Rx chunks)%list;
           write_error := write_error c |}
        s.
Proof.
  induction chunks as [|data chunks IH]; intros texts c s evs Hrun HF Hinc.
  - inversion HF; subst. cbn. rewrite app_nil_r.
    replace (buffer c ++ EmptyString) with (buffer c)
      by (clear; induction (buffer c); cbn; congruence).
    destruct c; reflexivity.
  - inversion HF as [|? text ? texts' [Hdata Htext] HF']; subst.
    cbn [stays_incomplete] in Hinc.
    destruct (json_loads (buffer c ++ text)) eqn:Hloads; [discriminate|].
    cbn [arrive map app]. rewrite handle_loop_recv.
    rewrite (iteration_waits c s data text Hdata Htext Hloads).
    rewrite Hrun.
    change (map (fun data0 => Recv (Data data0)) chunks) with (arrive chunks).
    rewrite (IH texts'
                {| buffer := buffer c ++ text;
                   wire := (wire c ++ [Rx data])%list;
                   write_error := write_error c |} s evs Hrun HF' Hinc).
    cbn [buffer wire write_error map].
    f_equal. f_equal.
    + assert (Happ : forall a b t : string, (a ++ b) ++ t = a ++ b ++ t)
        by (clear; induction a; intros; cbn; congruence).
      rewrite Happ. f_equal.
      destruct texts' as [|t' texts'']; cbn.
      * clear. induction text; cbn; congruence.
      * reflexivity.
    + now rewrite <- app_assoc.
Qed.

(** ** More on the router *)

Lemma extract_all_plain (args : list arg) :
  forall d,
    forallb plain args = true ->
    extract_all (JDict d) args
    = Ok (map (fun a => match dict_get d (arg_key a) with
                        | Some v => v
                        | None => arg_default a
                        end) args).
Proof.
  induction args as [|a args IH]; intros d H; [reflexivity|].
  cbn [forallb] in H. apply andb_true_iff in H. destruct H as [Ha Hargs].
  cbn [extract_all map]. rewrite (IH d Hargs).
  destruct a; try discriminate. reflexivity.
Qed.

(** X7. A branch that passes its parameters on as they are never fails
    over a missing key: for params that are an object, each argument is
    the value under its key, or the branch's default when the key is
    absent, keys the branch does not read are ignored, and the method is
    called.  With no params at all the method gets the defaults. *)
Theorem missing_parameters_take_their_defaults
        (method : string) (args : list arg) (p : dict) (l : Live) :
  forallb plain args = true ->
  run_body (Call method args) (JDict p) l
  = call method
         (map (fun a => match dict_get p (arg_key a) with
                        | Some v => v
                        | None => arg_default a
                        end) args) l
  /\ run_body (Call method args) (JDict []) l
     = call method (map arg_default args) l.
Proof.
  intros H. unfold run_body. rewrite !extract_all_plain by exact H.
  split; reflexivity.
Qed.

Lemma set_live_same (s : Server) : set_live s (live s) = s.
Proof. destruct s; reflexivity. Qed.

(** X8. Params that are not an object.  A branch that reads at least one
    parameter fails at the first [params.get] and never calls its method,
    so Live is not touched; a command answered in place then gets the
    error response with the [AttributeError] message and the script is
    left as it was.  A branch that reads no parameter ignores what
    ["params"] holds. *)
Theorem non_object_params_never_reach_the_method
        (method : string) (a : arg) (args : list arg) (params : json) :
  (forall p, params <> JDict p) ->
  (forall l,
      run_body (Call method (a :: args)) params l
      = (Raise (no_attribute params "get"), l))
  /\ (forall l, run_body (Call method []) params l = call method [] l)
  /\ (forall d s,
         direct_branch (command_type_of d) = Some (Call method (a :: args)) ->
         params_of d = params ->
         _process_command (JDict d) s
         = (Ok (error_reply (str (no_attribute params "get"))), s)).
Proof.
  intros Hobj.
  assert (Hrun : forall l,
             run_body (Call method (a :: args)) params l
             = (Raise (no_attribute params "get"), l)).
  { intros l. unfold run_body. cbn [extract_all].
    destruct params; try (exfalso; eapply Hobj; reflexivity);
      destruct a; reflexivity. }
  split; [exact Hrun|]. split; [reflexivity|].
  intros d s Hb Hp.
  rewrite (process_direct d s _ Hb), Hp, Hrun.
  cbn [outcome_reply]. now rewrite set_live_same.
Qed.

Lemma find_body_non_string (command_type : json)
      (chain : list (string * body)) :
  (forall t, command_type <> JStr t) ->
  find_body command_type chain = None.
Proof.
  intros H. induction chain as [|[name b] chain IH]; [reflexivity|].
  cbn [find_body]. destruct command_type; try exact IH.
  exfalso. eapply H. reflexivity.
Qed.

Lemma py_in_non_string (command_type : json) (names : list string) :
  (forall t, command_type <> JStr t) ->
  py_in command_type names = false.
Proof.
  intros H. unfold py_in. induction names as [|name names IH];
    [reflexivity|].
  cbn [existsb]. rewrite IH.
  destruct command_type; try reflexivity.
  exfalso. eapply H. reflexivity.
Qed.

(** X9. A command whose ["type"] is not a string matches no branch; the
    [else] branch then fails to build its message, and the response is
    the error response with the [TypeError] message of the failed
    concatenation, not ["Unknown command: ..."].  The script is left as it
    was. *)
Theorem non_string_type_is_answered_with_a_type_error
        (d : dict) (s : Server) :
  (forall t, command_type_of d <> JStr t) ->
  _process_command (JDict d) s
  = (Ok (error_reply
           ("can only concatenate str (not "
            ++ quoted (type_name (command_type_of d)) ++ ") to str")),
     s).
Proof.
  intros H. rewrite process_command_dict. unfold route.
  rewrite !find_body_non_string by exact H.
  rewrite py_in_non_string by exact H.
  unfold unknown, str_add.
  destruct (command_type_of d); try reflexivity.
  exfalso. eapply H. reflexivity.
Qed.

(** X10. A command answered in place never involves the main thread: its
    response and what it does to Live are the same whether the main
    thread is quick, slow or refuses callbacks, and nothing is scheduled
    and no queue is made. *)
Theorem read_only_commands_do_not_wait_for_the_main_thread
        (d : dict) (s : Server) (b : body) (m : main_thread_mode) :
  direct_branch (command_type_of d) = Some b ->
  _process_command (JDict d) (set_main_thread s m)
  = (fst (_process_command (JDict d) s),
     set_main_thread (snd (_process_command (JDict d) s)) m)
  /\ scheduled (snd (_process_command (JDict d) s)) = scheduled s
  /\ queues (snd (_process_command (JDict d) s)) = queues s.
Proof.
  intros Hb.
  rewrite (process_direct d s b Hb),
          (process_direct d (set_main_thread s m) b Hb).
  cbn [live set_main_thread].
  destruct (run_body b (params_of d) (live s)) as [o l].
  repeat split.
Qed.

Lemma py_in_some (command_type : json) (names : list string) :
  py_in command_type names = true ->
  exists t, command_type = JStr t /\ In t names.
Proof.
  unfold py_in. induction names as [|name names IH]; [discriminate|].
  cbn [existsb]. intros H. apply orb_true_iff in H. destruct H as [H|H].
  - destruct command_type; try discriminate.
    cbn [eq_str] in H. apply String.eqb_eq in H. subst.
    exists name. split; [reflexivity|now left].
  - destruct (IH H) as (t & Ht & Hin). exists t. split; [exact Ht|now right].
Qed.

(** X11. Every command of the list that sends commands to the main thread
    has its branch inside [main_thread_task], so the [result] of such a
    task is never the initial [None]; and no branch of that chain is for
    a command outside the list. *)
Theorem every_main_thread_command_has_a_body (command_type : json) :
  (py_in command_type MAIN_THREAD = true ->
   exists b, find_body command_type MAIN_THREAD_BODIES = Some b)
  /\ (forall b,
         find_body command_type MAIN_THREAD_BODIES = Some b ->
         py_in command_type MAIN_THREAD = true).
Proof.
  split.
  - intros H. destruct (py_in_some _ _ H) as (t & -> & Hin).
    assert (Hall : forallb
                     (fun n => match find_body (JStr n) MAIN_THREAD_BODIES with
                               | Some _ => true
                               | None => false
                               end) MAIN_THREAD = true)
      by (vm_compute; reflexivity).
    rewrite forallb_forall in Hall. specialize (Hall t Hin).
    destruct (find_body (JStr t) MAIN_THREAD_BODIES) as [b|];
      [eauto|discriminate].
  - intros b Hb.
    destruct command_type as [| | | |t| |];
      try (rewrite find_body_non_string in Hb by discriminate; discriminate).
    assert (Hall : forallb (fun n => py_in (JStr n) MAIN_THREAD)
                           (map fst MAIN_THREAD_BODIES) = true)
      by (vm_compute; reflexivity).
    rewrite forallb_forall in Hall. apply Hall.
    clear Hall. revert Hb. generalize MAIN_THREAD_BODIES.
    induction l as [|[name b'] chain IH]; [discriminate|].
    cbn [find_body eq_str map fst]. destruct (String.eqb t name) eqn:E.
    + intros _. apply String.eqb_eq in E. subst. now left.
    + intros H. right. now apply IH.
Qed.

(** ** More on the client *)

Lemma receive_loop_incomplete_log (under : option float)
      (chunks : list bytes) :
  forall (acc : list bytes) (script : list recv_outcome),
    incomplete acc chunks = true ->
    receive_loop under acc (map Data chunks ++ script)
    = (fst (receive_loop under (acc ++ chunks) script),
       (map (fun chunk => Received under (Data chunk)) chunks
        ++ snd (receive_loop under (acc ++ chunks) script))%list).
Proof.
  induction chunks as [|chunk chunks IH]; intros acc script H.
  - cbn [map app]. rewrite app_nil_r.
    now destruct (receive_loop under acc script).
  - cbn [incomplete] in H. destruct chunk as [|b chunk]; [discriminate|].
    case_parse H P.
    apply andb_true_iff in H. destruct H as [He Hrest].
    cbn [map app receive_loop]. rewrite P, He. cbn [fst snd].
    rewrite (IH _ script Hrest), <- app_assoc. reflexivity.
Qed.

(** X12. [receive_full_response] returns at the first chunk that makes the
    bytes received so far one JSON document: it gives back exactly those
    bytes, after one [recv] per chunk, each under fifteen seconds, and
    reads nothing of what the socket holds after them. *)
Theorem response_ends_at_the_first_complete_json
        (k : Socket) (chunks : list bytes) (chunk : bytes) (v : json)
        (script : list recv_outcome) :
  incomplete [] chunks = true ->
  chunk <> [] ->
  parse (join (chunks ++ [chunk])) = Ok v ->
  receive_full_response k (map Data chunks ++ Data chunk :: script)
  = (Some (Ok (join (chunks ++ [chunk]))),
     {| timeout := Some 15%float |},
     SetTimeout 15
       :: map (fun chunk => Received (Some 15%float) (Data chunk))
              (chunks ++ [chunk])).
Proof.
  intros Hinc Hchunk Hparse. unfold receive_full_response.
  cbn [timeout]. rewrite (receive_loop_incomplete_log _ chunks [] _ Hinc).
  cbn [app]. destruct chunk as [|b chunk]; [congruence|].
  cbn [receive_loop]. rewrite Hparse. cbn [fst snd].
  rewrite map_app. reflexivity.
Qed.

Lemma eq_str_false (v : json) (literal : string) :
  v <> JStr literal -> eq_str v literal = false.
Proof.
  intros H. destruct v; try reflexivity. cbn [eq_str].
  apply String.eqb_neq. congruence.
Qed.

Lemma receive_full_response_socket (k k' : Socket)
      (script : list recv_outcome) :
  fst (fst (receive_full_response k' script))
  = fst (fst (receive_full_response k script))
  /\ snd (fst (receive_full_response k' script))
     = {| timeout := Some 15%float |}.
Proof.
  unfold receive_full_response. cbn [timeout].
  destruct (receive_loop _ _ script). split; reflexivity.
Qed.

(** X13. What [send_command] takes for a success: any response object
    whose ["status"] is not the string ["error"], a missing status
    included.  It returns the ["result"] field, or [{}] when there is
    none, and keeps the socket, whose timeout is left at fifteen
    seconds. *)
Theorem any_status_but_error_is_a_success
        (command_type : string) (params : json) (net : Net)
        (self : AbletonConnection) (k : Socket) (data : bytes)
        (response : dict) :
  sock self = Some k ->
  send_error net = None ->
  fst (fst (receive_full_response k (replies net))) = Some (Ok data) ->
  parse data = Ok (JDict response) ->
  dict_get response "status" <> Some (JStr "error") ->
  fst (send_command command_type params net self)
  = (Some (Ok match dict_get response "result" with
              | Some v => v
              | None => JDict []
              end),
     set_sock self (Some {| timeout := Some 15%float |})).
Proof.
  intros Hs Hsend Hrecv Hparse Hstatus.
  unfold send_command. rewrite Hs, Hs.
  unfold exchange. rewrite Hsend.
  match goal with
  | |- context [receive_full_response ?k1 (replies net)] =>
      destruct (receive_full_response_socket k k1 (replies net)) as [H1 H2];
      destruct (receive_full_response k1 (replies net)) as [[r k2] log]
  end.
  cbn [fst snd] in H1, H2. rewrite H1, Hrecv, Hparse. subst k2.
  cbn [py_get]. rewrite eq_str_false; [reflexivity|].
  destruct (dict_get response "status"); congruence.
Qed.

Lemma send_command_without_socket
      (command_type : string) (params : json) (net : Net)
      (self : AbletonConnection) :
  sock self = None ->
  send_command command_type params net self
  = match connect_error net with
    | Some _ =>
        (Some (Raise (Raised (OS ConnectionError)
                             "Not connected to Ableton")),
         self, [])
    | None =>
        send_command command_type params net
                     (set_sock self (Some {| timeout := None |}))
    end.
Proof.
  intros Hs. unfold send_command, connect. rewrite Hs.
  destruct (connect_error net) as [e|]; [|reflexivity].
  destruct self as [h p k]. cbn in Hs. subst. reflexivity.
Qed.

(** X14. A link without a socket connects before it sends.  When the
    connection is refused, [send_command] raises the [ConnectionError]
    ["Not connected to Ableton"] as it is (it is raised before the [try]
    statement), having sent nothing; when it is accepted, the call goes on
    as on a link that was connected. *)
Theorem send_command_connects_on_demand
        (command_type : string) (params : json) (net : Net)
        (self : AbletonConnection) :
  sock self = None ->
  (forall e,
      connect_error net = Some e ->
      send_command command_type params net self
      = (Some (Raise (Raised (OS ConnectionError)
                             "Not connected to Ableton")),
         self, []))
  /\ (connect_error net = None ->
      send_command command_type params net self
      = send_command command_type params net
                     (set_sock self (Some {| timeout := None |}))).
Proof.
  intros Hs. rewrite (send_command_without_socket _ _ net self Hs).
  split; [intros e He|intros He]; rewrite He; reflexivity.
Qed.

Lemma sleeps_app (l1 l2 : list action) :
  sleeps (l1 ++ l2) = (sleeps l1 ++ sleeps l2)%list.
Proof.
  induction l1 as [|[] l1 IH]; cbn [app sleeps]; try exact IH;
    [reflexivity | now rewrite IH].
Qed.

Lemma sleeps_receive_loop (under : option float)
      (script : list recv_outcome) :
  forall chunks, sleeps (snd (receive_loop under chunks script)) = [].
Proof.
  induction script as [|r script IH]; intros chunks; [reflexivity|].
  cbn [receive_loop]. destruct r as [[|b data]|e].
  - destruct chunks; reflexivity.
  - destruct (parse _) as [v|e]; [reflexivity|].
    destruct (isinstance e JSONDecodeError); [|reflexivity].
    cbn [snd sleeps]. apply IH.
  - destruct (isinstance e (OS socket_timeout)); reflexivity.
Qed.

Lemma sleeps_receive_full_response (k : Socket)
      (script : list recv_outcome) :
  sleeps (snd (receive_full_response k script)) = [].
Proof.
  unfold receive_full_response. cbn [timeout].
  pose proof (sleeps_receive_loop (Some 15%float) script []) as H.
  destruct (receive_loop _ _ script). exact H.
Qed.

Lemma sleeps_exchange (command_type : string) (command : json) (net : Net)
      (k : Socket) :
  let m := is_modifying_command command_type in
  match exchange command_type command net k with
  | (Some (Ok _), _, log) => sleeps log = (sleeps (settle m ++ settle m))%list
  | (Some (Raise _), _, log) => sleeps log = sleeps (settle m) \/ log = []
  | (None, _, log) => sleeps log = sleeps (settle m)
  end.
Proof.
  intros m. unfold exchange. fold m.
  destruct (send_error net) as [e|]; [now right|].
  match goal with
  | |- context [receive_full_response ?k1 (replies net)] =>
      pose proof (sleeps_receive_full_response k1 (replies net)) as H;
      destruct (receive_full_response k1 (replies net)) as [[r k2] log]
  end.
  cbn [snd] in H.
  assert (Hb : sleeps
                 (Sent (utf8_encode (json_dumps command))
                  :: settle m
                  ++ [SetTimeout (if m then 15 else 10)%float] ++ log)
               = sleeps (settle m)).
  { cbn [sleeps]. rewrite !sleeps_app, H. cbn [sleeps].
    now rewrite !app_nil_r. }
  destruct r as [[data|e]|]; [|now left|exact Hb].
  destruct (parse data) as [response|e]; [|now left].
  destruct (py_get response "status" JNull) as [st|e] eqn:Hst; [|now left].
  destruct (eq_str st "error").
  - destruct (py_get response "message" _); now left.
  - destruct response; try discriminate. cbn [py_get].
    rewrite sleeps_app, Hb, sleeps_app. reflexivity.
Qed.

Lemma sleeps_send_command (command_type : string) (params : json)
      (net : Net) (self : AbletonConnection) :
  let m := is_modifying_command command_type in
  match send_command command_type params net self with
  | (Some (Ok _), _, log) => sleeps log = sleeps (settle m ++ settle m)%list
  | (Some (Raise _), _, log) => sleeps log = sleeps (settle m) \/ log = []
  | (None, _, log) => sleeps log = sleeps (settle m)
  end.
Proof.
  intros m.
  assert (Hsome : forall self1 k,
             sock self1 = Some k ->
             match send_command command_type params net self1 with
             | (Some (Ok _), _, log) =>
                 sleeps log = sleeps (settle m ++ settle m)%list
             | (Some (Raise _), _, log) =>
                 sleeps log = sleeps (settle m) \/ log = []
             | (None, _, log) => sleeps log = sleeps (settle m)
             end).
  { intros self1 k Hs. unfold send_command. rewrite Hs, Hs.
    match goal with
    | |- context [exchange ?a ?b ?c ?d] =>
        pose proof (sleeps_exchange a b c d) as H;
        destruct (exchange a b c d) as [[[[v|e]|] k'] log]
    end; exact H. }
  destruct (sock self) as [k|] eqn:Hs; [exact (Hsome self k Hs)|].
  rewrite (send_command_without_socket _ _ net self Hs).
  destruct (connect_error net) as [e|]; [now right|].
  exact (Hsome (set_sock self (Some {| timeout := None |}))
               {| timeout := None |} eq_refl).
Qed.

(** X15. The settle delays of [send_command].  A command the client does
    not take to change Live's state never sleeps.  A command it does take
    so sleeps a tenth of a second once the command is sent, and a second
    tenth only when the response is a success; a call that raises has
    slept once, or has done nothing at all. *)
Theorem settle_delays_follow_the_outcome
        (command_type : string) (params : json) (net : Net)
        (self : AbletonConnection) :
  (is_modifying_command command_type = false ->
   sleeps (snd (send_command command_type params net self)) = [])
  /\ (is_modifying_command command_type = true ->
      forall v self' log,
        send_command command_type params net self
        = (Some (Ok v), self', log) ->
        sleeps log = [0.1; 0.1]%float)
  /\ (is_modifying_command command_type = true ->
      forall e self' log,
        send_command command_type params net self
        = (Some (Raise e), self', log) ->
        sleeps log = [0.1]%float \/ log = []).
Proof.
  pose proof (sleeps_send_command command_type params net self) as Hy.
  cbn zeta in Hy. repeat split.
  - intros Hm. rewrite Hm in Hy.
    destruct (send_command command_type params net self)
      as [[[[v|e]|] self'] log]; cbn [snd]; try exact Hy.
    destruct Hy as [Hy| ->]; [exact Hy|reflexivity].
  - intros Hm v self' log E. rewrite E, Hm in Hy. exact Hy.
  - intros Hm e self' log E. rewrite E, Hm in Hy. exact Hy.
Qed.

(** ** The two programs together *)

Lemma parse_of (data : bytes) (text : string) (v : json) :
  utf8_decode data = Some text ->
  json_loads text = Some v ->
  parse data = Ok v.
Proof. intros H1 H2. unfold parse. now rewrite H1, H2. Qed.

Lemma process_command_outcome (command : json) (s s' : Server)
      (response : json) :
  _process_command command s = (Ok response, s') ->
  exists o, response = outcome_reply o.
Proof.
  unfold _process_command.
  destruct (py_get command "type" _) as [command_type|e]; [|discriminate].
  destruct (py_get command "params" _) as [params|e]; [|discriminate].
  destruct (route command_type params initial_response s)
    as [[[u|e] r] s1] eqn:Hr; intros E; inversion E; subst;
    apply route_shape in Hr.
  - destruct Hr as [o Ho]. exists o. exact Ho.
  - exists (Raise e). destruct Hr as [-> | ->]; reflexivity.
Qed.

(** [send_command] on a connected link, once the reply has come in one
    chunk. *)
Lemma send_command_answered
      (command_type : string) (params : json) (self : AbletonConnection)
      (k : Socket) (reply : bytes) (o : result json)
      (more : list recv_outcome) :
  sock self = Some k ->
  reply <> [] ->
  parse reply = Ok (outcome_reply o) ->
  send_command command_type params
               {| connect_error := None; send_error := None;
                  replies := Data reply :: more |} self
  = (match o with
     | Ok v => Some (Ok v)
     | Raise e =>
         Some (Raise (Raised Exception
                        ("Communication error with Ableton: " ++ str e)))
     end,
     match o with
     | Ok _ => set_sock self (Some {| timeout := Some 15%float |})
     | Raise _ => set_sock self None
     end,
     (Sent (utf8_encode (json_dumps (JDict (command_of command_type params))))
      :: settle (is_modifying_command command_type)
      ++ [SetTimeout (if is_modifying_command command_type
                      then 15 else 10)%float;
          SetTimeout 15%float;
          Received (Some 15%float) (Data reply)]
      ++ match o with
         | Ok _ => settle (is_modifying_command command_type)
         | Raise _ => []
         end)%list).
Proof.
  intros Hs Hreply Hparse. unfold send_command. rewrite Hs, Hs.
  unfold exchange, receive_full_response. cbn [send_error replies timeout].
  destruct reply as [|b reply]; [congruence|].
  cbn [receive_loop app join concat]. rewrite app_nil_r, Hparse.
  cbn [fst snd]. rewrite Hparse.
  generalize (is_modifying_command command_type). intros m.
  destruct o as [v|e]; destruct m; reflexivity.
Qed.

(** X16. One command, from the client's call to its return.  The bytes
    [send_command] writes for a command type and params, read by a handler
    with an empty buffer, are answered with the response of
    [_process_command]; and these bytes, read back by [send_command], make
    it return the result of the command body when the response is a
    success, and raise ["Communication error with Ableton: "] followed by
    the server's message, dropping the socket, when it is an error.  The
    codecs are assumed to give back the command and the response they
    were given. *)
Theorem command_round_trip
        (command_type : string) (params : json) (self : AbletonConnection)
        (k : Socket) (c : Conn) (s s' : Server) (response : json)
        (more : list recv_outcome) (evs : list event) :
  let command := JDict (command_of command_type params) in
  let payload := utf8_encode (json_dumps command) in
  let reply := utf8_encode (json_dumps response) in
  let net := {| connect_error := None; send_error := None;
                replies := Data reply :: more |} in
  sock self = Some k ->
  running s = true ->
  buffer c = EmptyString ->
  write_error c = None ->
  payload <> [] ->
  utf8_decode payload = Some (json_dumps command) ->
  json_loads (json_dumps command) = Some command ->
  reply <> [] ->
  utf8_decode reply = Some (json_dumps response) ->
  json_loads (json_dumps response) = Some response ->
  _process_command command s = (Ok response, s') ->
  (exists rest, snd (send_command command_type params net self)
                = Sent payload :: rest)
  /\ handle_loop (Recv (Data payload) :: evs) c s
     = handle_loop evs (answered c [payload] response) s'
  /\ exists o,
      response = outcome_reply o
      /\ fst (send_command command_type params net self)
         = match o with
           | Ok v =>
               (Some (Ok v),
                set_sock self (Some {| timeout := Some 15%float |}))
           | Raise e =>
               (Some (Raise (Raised Exception
                               ("Communication error with Ableton: "
                                ++ str e))),
                set_sock self None)
           end.
Proof.
  intros command payload reply net Hs Hrun Hbuf Hw Hp Hpd Hpl Hr Hrd Hrl
         Hproc.
  destruct (process_command_outcome _ _ _ _ Hproc) as [o Ho].
  assert (Hparse : parse reply = Ok (outcome_reply o)).
  { rewrite <- Ho. exact (parse_of _ _ _ Hrd Hrl). }
  pose proof (send_command_answered command_type params self k reply o more
                                    Hs Hr Hparse) as Hsend.
  fold net in Hsend. rewrite Hsend. cbn [fst snd].
  split; [eexists; reflexivity|]. split.
  - apply (handle_loop_answers evs c s s' payload (json_dumps command)
                               (command_of command_type params) response);
      try assumption.
    rewrite Hbuf. exact Hpl.
  - exists o. split; [exact Ho|]. destruct o; reflexivity.
Qed.

(** ** Getting a connection *)

Lemma send_command_ok_socket
      (command_type : string) (params : json) (net : Net)
      (self self' : AbletonConnection) (v : json) (log : list action) :
  send_command command_type params net self = (Some (Ok v), self', log) ->
  sock self' = Some {| timeout := Some 15%float |}.
Proof.
  assert (Hx : forall k self1,
             sock self1 = Some k ->
             send_command command_type params net self1
             = (Some (Ok v), self', log) ->
             sock self' = Some {| timeout := Some 15%float |}).
  { intros k self1 Hs. unfold send_command. rewrite Hs, Hs.
    unfold exchange. destruct (send_error net); [discriminate|].
    match goal with
    | |- context [receive_full_response ?k1 (replies net)] =>
        destruct (receive_full_response_socket k k1 (replies net))
          as [_ H2];
        destruct (receive_full_response k1 (replies net)) as [[r k2] lg]
    end.
    cbn [fst snd] in H2. subst k2.
    destruct r as [[data|e]|]; [|discriminate|discriminate].
    destruct (parse data) as [response|e]; [|discriminate].
    destruct (py_get response "status" JNull) as [st|e]; [|discriminate].
    destruct (eq_str st "error").
    - destruct (py_get response "message" _); discriminate.
    - destruct (py_get response "result" _); [|discriminate].
      intros E. inversion E. reflexivity. }
  destruct (sock self) as [k|] eqn:Hs; [exact (Hx k self Hs)|].
  rewrite (send_command_without_socket _ _ net self Hs).
  destruct (connect_error net); [discriminate|].
  exact (Hx {| timeout := None |}
            (set_sock self (Some {| timeout := None |})) eq_refl).
Qed.

Lemma send_command_raise_socket
      (command_type : string) (params : json) (net : Net)
      (self self' : AbletonConnection) (e : exn) (log : list action) :
  send_command command_type params net self = (Some (Raise e), self', log) ->
  sock self' = None.
Proof.
  unfold send_command.
  destruct (sock self) as [k|] eqn:Hs.
  - rewrite Hs.
    destruct (exchange _ _ net k) as [[[[v|e']|] k'] log'];
      intros H; inversion H; reflexivity.
  - destruct (connect net self) as [[|] self1] eqn:Hc.
    + destruct (sock self1) as [k|] eqn:Hs1.
      * destruct (exchange _ _ net k) as [[[[v|e']|] k'] log'];
          intros H; inversion H; reflexivity.
      * intros H; inversion H; subst. exact Hs1.
    + intros H; inversion H; subst.
      now apply connect_fails_without_socket with (net := net)
                                                   (self := self).
Qed.

(** An attempt that fails costs its pause and nothing else. *)
Lemma attempts_after_a_failure (attempt : nat) (numbers : list nat)
      (nets : nat -> Net) (global : option AbletonConnection) :
  attempt_fails (nets attempt) = true ->
  fst (attempts (attempt :: numbers) nets global)
  = fst (attempts numbers nets None)
  /\ sleeps (snd (attempts (attempt :: numbers) nets global))
     = (pause_of attempt ++ sleeps (snd (attempts numbers nets None)))%list.
Proof.
  unfold attempt_fails. cbn [attempts]. fold (pause_of attempt).
  destruct (connect (nets attempt) new_link) as [[|] self].
  - pose proof (sleeps_send_command "get_session_info" JNull
                                    (nets attempt) self) as Hsl.
    cbn zeta in Hsl.
    destruct (send_command "get_session_info" JNull (nets attempt) self)
      as [[[[v|e]|] self'] log]; try discriminate.
    intros _. destruct (attempts numbers nets None) as [x log'].
    cbn [fst snd]. split; [reflexivity|].
    rewrite !sleeps_app.
    assert (Hlog : sleeps log = []) by (destruct Hsl as [H| ->]; auto).
    rewrite Hlog. cbn [app]. f_equal.
    unfold pause_of. destruct (attempt <? max_attempts)%nat; reflexivity.
  - intros _. destruct (attempts numbers nets None) as [x log'].
    cbn [fst snd]. split; [reflexivity|].
    rewrite sleeps_app. f_equal.
    unfold pause_of. destruct (attempt <? max_attempts)%nat; reflexivity.
Qed.

(** An attempt that succeeds ends the loop with a connected link. *)
Lemma attempts_at_a_success (attempt : nat) (numbers : list nat)
      (nets : nat -> Net) (global : option AbletonConnection) :
  attempt_succeeds (nets attempt) = true ->
  exists self,
    fst (attempts (attempt :: numbers) nets global) = Returned self
    /\ sock self = Some {| timeout := Some 15%float |}
    /\ sleeps (snd (attempts (attempt :: numbers) nets global)) = [].
Proof.
  unfold attempt_succeeds. cbn [attempts].
  destruct (connect (nets attempt) new_link) as [[|] self]; [|discriminate].
  pose proof (sleeps_send_command "get_session_info" JNull
                                  (nets attempt) self) as Hsl.
  cbn zeta in Hsl.
  destruct (send_command "get_session_info" JNull (nets attempt) self)
    as [[[[v|e]|] self'] log] eqn:E; try discriminate.
  intros _. exists self'. cbn [fst snd]. repeat split.
  - exact (send_command_ok_socket _ _ _ _ _ _ _ E).
  - exact Hsl.
Qed.

(** What the loop of the attempts can come to. *)
Lemma attempts_exit_cases (numbers : list nat) (nets : nat -> Net) :
  match attempts numbers nets None with
  | (Returned self, log) =>
      sock self = Some {| timeout := Some 15%float |}
  | (Exhausted global, log) =>
      global = None
      /\ Forall (fun attempt => attempt_fails (nets attempt) = true) numbers
      /\ sleeps log = flat_map pause_of numbers
  | (Blocked _, _) => True
  end.
Proof.
  induction numbers as [|attempt numbers IH].
  - cbn. repeat split. constructor.
  - destruct (attempt_fails (nets attempt)) eqn:Hf.
    + destruct (attempts_after_a_failure attempt numbers nets None Hf)
        as [H1 H2].
      destruct (attempts (attempt :: numbers) nets None) as [x log].
      destruct (attempts numbers nets None) as [x' log'].
      cbn [fst snd] in *. subst x'.
      destruct x as [self|global|self]; auto.
      destruct IH as (Hg & Hall & Hsl). repeat split; auto.
      rewrite H2, Hsl. reflexivity.
    + unfold attempt_fails in Hf. cbn [attempts].
      destruct (connect (nets attempt) new_link) as [[|] self];
        [|discriminate].
      destruct (send_command "get_session_info" JNull (nets attempt) self)
        as [[[[v|e]|] self'] log] eqn:E; try discriminate; [|exact I].
      exact (send_command_ok_socket _ _ _ _ _ _ _ E).
Qed.

Lemma sleeps_probe (probe_error : option os_error)
      (self : AbletonConnection) :
  sleeps (snd (probe probe_error self)) = [].
Proof.
  unfold probe. destruct (sock self); [|reflexivity].
  destruct probe_error; reflexivity.
Qed.

(** X17. A connection [get_ableton_connection] returns always has a
    socket, and it is the one the global [_ableton_connection] holds
    afterwards: a cached connection that has lost its socket is never
    handed out. *)
Theorem a_returned_connection_has_a_socket
        (probe_error : option os_error) (nets : nat -> Net)
        (global global' : option AbletonConnection)
        (self : AbletonConnection) (log : list action) :
  get_ableton_connection probe_error nets global
  = (Some (Ok self), global', log) ->
  (exists k, sock self = Some k) /\ global' = Some self.
Proof.
  unfold get_ableton_connection.
  assert (Hloop : forall log0,
             match attempts (seq 1 max_attempts) nets None with
             | (Returned self0, log') =>
                 (Some (Ok self0), Some self0, (log0 ++ log')%list)
             | (Exhausted (Some self0), log') =>
                 (Some (Ok self0), Some self0, (log0 ++ log')%list)
             | (Exhausted None, log') =>
                 (Some (Raise could_not_connect), None, (log0 ++ log')%list)
             | (Blocked self0, log') =>
                 (None, Some self0, (log0 ++ log')%list)
             end = (Some (Ok self), global', log) ->
             (exists k, sock self = Some k) /\ global' = Some self).
  { intros log0.
    pose proof (attempts_exit_cases (seq 1 max_attempts) nets) as H.
    destruct (attempts (seq 1 max_attempts) nets None) as [[s0|g|s0] log'].
    - intros E. inversion E; subst. split; [eauto|reflexivity].
    - destruct H as (-> & _). discriminate.
    - discriminate. }
  destruct global as [cached|]; [|apply Hloop].
  unfold probe. destruct (sock cached) as [k|]; [|apply Hloop].
  destruct probe_error as [e|]; [apply Hloop|].
  intros E. inversion E; subst. split; [|reflexivity].
  eexists. reflexivity.
Qed.

(** X18. [get_ableton_connection] has one way to fail: with the message
    ["Could not connect to Ableton. Make sure the Remote Script is
    running."], after three attempts that all failed and two pauses of
    one second (none after the last attempt), leaving no global
    connection.  What made the attempts fail is not in the exception. *)
Theorem could_not_connect_is_the_only_failure
        (probe_error : option os_error) (nets : nat -> Net)
        (global global' : option AbletonConnection)
        (e : exn) (log : list action) :
  get_ableton_connection probe_error nets global
  = (Some (Raise e), global', log) ->
  e = could_not_connect
  /\ global' = None
  /\ sleeps log = [1.0; 1.0]%float
  /\ attempt_fails (nets 1) = true
  /\ attempt_fails (nets 2) = true
  /\ attempt_fails (nets 3) = true.
Proof.
  unfold get_ableton_connection.
  assert (Hloop : forall log0,
             sleeps log0 = [] ->
             match attempts (seq 1 max_attempts) nets None with
             | (Returned self0, log') =>
                 (Some (Ok self0), Some self0, (log0 ++ log')%list)
             | (Exhausted (Some self0), log') =>
                 (Some (Ok self0), Some self0, (log0 ++ log')%list)
             | (Exhausted None, log') =>
                 (Some (Raise could_not_connect), None, (log0 ++ log')%list)
             | (Blocked self0, log') =>
                 (None, Some self0, (log0 ++ log')%list)
             end = (Some (Raise e), global', log) ->
             e = could_not_connect
             /\ global' = None
             /\ sleeps log = [1.0; 1.0]%float
             /\ attempt_fails (nets 1) = true
             /\ attempt_fails (nets 2) = true
             /\ attempt_fails (nets 3) = true).
  { intros log0 Hlog0.
    pose proof (attempts_exit_cases (seq 1 max_attempts) nets) as H.
    destruct (attempts (seq 1 max_attempts) nets None) as [[s0|g|s0] log'];
      try discriminate.
    destruct H as (-> & Hall & Hsl). intros E. inversion E; subst.
    rewrite sleeps_app, Hlog0, Hsl.
    cbn in Hall. inversion Hall as [|? ? H1 Hall']; subst.
    inversion Hall' as [|? ? H2 Hall'']; subst.
    inversion Hall'' as [|? ? H3 ?]; subst.
    repeat split; assumption. }
  destruct global as [cached|]; [|apply (Hloop [] eq_refl)].
  pose proof (sleeps_probe probe_error cached) as Hp.
  destruct (probe probe_error cached) as [[cached'|e'] log0];
    [discriminate|].
  apply Hloop. exact Hp.
Qed.

(** X19. The first attempt that connects and gets a success for its
    [get_session_info] gives the connection, after one pause of a second
    for each attempt that failed before it; the connection comes back with
    its socket set to a timeout of fifteen seconds. *)
Theorem the_first_good_attempt_wins
        (probe_error : option os_error) (nets : nat -> Net)
        (failed : nat) :
  (failed < max_attempts)%nat ->
  (forall attempt,
      (1 <= attempt <= failed)%nat -> attempt_fails (nets attempt) = true) ->
  attempt_succeeds (nets (S failed)) = true ->
  exists self log,
    get_ableton_connection probe_error nets None
    = (Some (Ok self), Some self, log)
    /\ sock self = Some {| timeout := Some 15%float |}
    /\ sleeps log = repeat 1.0%float failed.
Proof.
  intros Hlt Hfail Hok.
  assert (Hloop : exists self log,
             attempts (seq 1 max_attempts) nets None = (Returned self, log)
             /\ sock self = Some {| timeout := Some 15%float |}
             /\ sleeps log = repeat 1.0%float failed).
  { unfold max_attempts in *. cbn [seq].
    destruct failed as [|[|[|failed]]]; [| | |lia].
    - destruct (attempts_at_a_success 1 [2; 3] nets None Hok)
        as (self & H1 & H2 & H3).
      destruct (attempts [1; 2; 3] nets None) as [x log].
      cbn [fst snd] in *. subst x. exists self, log. auto.
    - destruct (attempts_after_a_failure 1 [2; 3] nets None
                  (Hfail 1 ltac:(lia))) as [F1 F2].
      destruct (attempts_at_a_success 2 [3] nets None Hok)
        as (self & H1 & H2 & H3).
      destruct (attempts [1; 2; 3] nets None) as [x log].
      cbn [fst snd] in *. exists self, log.
      rewrite F1 in *. repeat split; auto; try congruence.
      rewrite F2, H3. reflexivity.
    - destruct (attempts_after_a_failure 1 [2; 3] nets None
                  (Hfail 1 ltac:(lia))) as [F1 F2].
      destruct (attempts_after_a_failure 2 [3] nets None
                  (Hfail 2 ltac:(lia))) as [G1 G2].
      destruct (attempts_at_a_success 3 [] nets None Hok)
        as (self & H1 & H2 & H3).
      destruct (attempts [1; 2; 3] nets None) as [x log].
      cbn [fst snd] in *. exists self, log.
      repeat split; auto; try congruence.
      rewrite F2, G2, H3. reflexivity. }
  destruct Hloop as (self & log & E & Hs & Hsl).
  exists self, log. unfold get_ableton_connection. rewrite E.
  repeat split; assumption.
Qed.

Lemma get_ableton_connection_without_socket
      (probe_error : option os_error) (nets : nat -> Net)
      (self : AbletonConnection) :
  sock self = None ->
  get_ableton_connection probe_error nets (Some self)
  = get_ableton_connection probe_error nets None.
Proof.
  intros Hs. unfold get_ableton_connection, probe. rewrite Hs. reflexivity.
Qed.

(** X20. Any failure costs the next call a reconnection.  After a request
    that raised, be it for a dead socket, a timeout or an error response
    of the server, the global connection is gone or has no socket, so the
    next [get_ableton_connection] does what it does without a cached
    connection: it connects anew and validates with [get_session_info]
    before anything else is sent.  After a request that returned, the
    global connection has a socket. *)
Theorem a_failed_request_forces_a_reconnection
        (command_type : string) (params : json) (env : Env)
        (global global' : option AbletonConnection) (log : list action) :
  (forall e,
      request command_type params env global = (Some (Raise e), global', log) ->
      forall probe_error nets,
        get_ableton_connection probe_error nets global'
        = get_ableton_connection probe_error nets None)
  /\ (forall v,
         request command_type params env global
         = (Some (Ok v), global', log) ->
         exists self k, global' = Some self /\ sock self = Some k).
Proof.
  unfold request.
  destruct (get_ableton_connection (probe_error env) (attempt_net env) global)
    as [[[[ableton|e0]|] g] log0] eqn:Hg.
  - destruct (send_command command_type params (command_net env) ableton)
      as [[r ableton'] log'] eqn:Hsend.
    split.
    + intros e E. inversion E; subst. intros p nets.
      apply get_ableton_connection_without_socket.
      exact (send_command_raise_socket _ _ _ _ _ _ _ Hsend).
    + intros v E. inversion E; subst.
      exists ableton'. eexists. split; [reflexivity|].
      exact (send_command_ok_socket _ _ _ _ _ _ _ Hsend).
  - split; [|discriminate].
    intros e E. inversion E; subst.
    assert (Hnone : global' = None).
    { revert Hg. unfold get_ableton_connection.
      destruct global as [cached|].
      - destruct (probe (probe_error env) cached) as [[c'|e'] lg];
          [discriminate|].
        destruct (attempts _ _ None) as [[s0|[s0|]|s0] lg'];
          intros E'; inversion E'; reflexivity.
      - destruct (attempts _ _ None) as [[s0|[s0|]|s0] lg'];
          intros E'; inversion E'; reflexivity. }
    subst. reflexivity.
  - split; discriminate.
Qed.

(** ** The tools and the command table *)

Lemma tool_commands_checked :
  forallb reads_what_is_sent TOOL_COMMANDS = true.
Proof. vm_compute. reflexivity. Qed.

(** X21. Every command a tool sends is one the router has a branch for:
    no tool can be answered ["Unknown command"]. *)
Theorem every_tool_command_has_a_branch
        (tool command_type : string) (keys : list string) :
  In (tool, command_type, keys) TOOL_COMMANDS ->
  known_command command_type = true
  /\ exists b, branch_of (JStr command_type) = Some b.
Proof.
  intros Hin. split.
  - assert (H : forallb (fun entry => known_command (snd (fst entry)))
                        TOOL_COMMANDS = true) by (vm_compute; reflexivity).
    rewrite forallb_forall in H. exact (H _ Hin).
  - pose proof tool_commands_checked as H.
    rewrite forallb_forall in H. specialize (H _ Hin).
    unfold reads_what_is_sent in H.
    destruct (branch_of (JStr command_type)) as [b|]; [eauto|discriminate].
Qed.

Lemma same_keys_eq (a : list string) :
  forall b, same_keys a b = true -> a = b.
Proof.
  induction a as [|x a IH]; intros [|y b] H; try discriminate;
    [reflexivity|].
  cbn [same_keys] in H. apply andb_true_iff in H. destruct H as [H1 H2].
  apply String.eqb_eq in H1. subst. f_equal. now apply IH.
Qed.

Lemma dict_get_app_none (pre d : dict) (key : string) :
  dict_get pre key = None ->
  dict_get (pre ++ d)%list key = dict_get d key.
Proof.
  induction pre as [|[k v] pre IH]; [reflexivity|].
  cbn [dict_get app]. destruct (String.eqb k key); [discriminate|exact IH].
Qed.

Lemma lookup_positional (args : list arg) :
  forall (vals : list json) (pre : dict),
    distinct (map arg_key args) = true ->
    length vals = length args ->
    (forall a, In a args -> dict_get pre (arg_key a) = None) ->
    map (fun a =>
           match dict_get (pre ++ combine (map arg_key args) vals)%list
                          (arg_key a) with
           | Some v => v
           | None => arg_default a
           end) args
    = vals.
Proof.
  induction args as [|a args IH]; intros vals pre Hd Hlen Hpre.
  - destruct vals; [reflexivity|discriminate].
  - destruct vals as [|v vals]; [discriminate|].
    cbn [map combine distinct] in *.
    apply andb_true_iff in Hd. destruct Hd as [Hfresh Hd].
    apply negb_true_iff in Hfresh.
    f_equal.
    + rewrite dict_get_app_none by (apply Hpre; now left).
      cbn [dict_get]. now rewrite String.eqb_refl.
    + replace (pre ++ (arg_key a, v) :: combine (map arg_key args) vals)%list
        with ((pre ++ [(arg_key a, v)])
              ++ combine (map arg_key args) vals)%list
        by (now rewrite <- app_assoc).
      apply IH; [exact Hd|now inversion Hlen|].
      intros a' Hin. rewrite dict_get_app_none by (apply Hpre; now right).
      cbn [dict_get].
      destruct (String.eqb (arg_key a) (arg_key a')) eqn:E; [|reflexivity].
      exfalso.
      assert (Hex : existsb (String.eqb (arg_key a)) (map arg_key args)
                    = true).
      { apply existsb_exists. exists (arg_key a'). split; [|exact E].
        now apply in_map. }
      congruence.
Qed.

Lemma params_of_command_of (command_type : string) (p : dict) :
  params_of (command_of command_type (JDict p)) = JDict p.
Proof. destruct p; reflexivity. Qed.

(** X22. What a tool passes arrives.  For every [send_command] call of a
    tool, the branch of the command reads exactly the keys the tool
    sends, in the tool's order; so, when the branch passes its parameters
    on as they are, the method of the script is called with the tool's
    values as its positional arguments, in that order.  ([write_automation]
    gets the whole params as keyword arguments.) *)
Theorem tool_arguments_arrive_in_order
        (tool command_type : string) (keys : list string)
        (vals : list json) (l : Live) :
  In (tool, command_type, keys) TOOL_COMMANDS ->
  length vals = length keys ->
  match branch_of (JStr command_type) with
  | Some (Call method args) =>
      map arg_key args = keys
      /\ (forallb plain args = true ->
          served command_type (JDict (combine keys vals)) l
          = Some (call method vals l))
  | Some (CallKw method) =>
      served command_type (JDict (combine keys vals)) l
      = Some (call_kw method (combine keys vals) l)
  | None => False
  end.
Proof.
  intros Hin Hlen.
  pose proof tool_commands_checked as H.
  rewrite forallb_forall in H. specialize (H _ Hin).
  unfold reads_what_is_sent in H. unfold served.
  destruct (branch_of (JStr command_type)) as [[method args|method]|];
    [| |discriminate].
  - apply andb_true_iff in H. destruct H as [Hkeys Hdistinct].
    apply same_keys_eq in Hkeys. split; [exact Hkeys|].
    intros Hplain. rewrite params_of_command_of. unfold run_body.
    rewrite extract_all_plain by exact Hplain. subst keys.
    pose proof (lookup_positional args vals [] Hdistinct) as Hl.
    cbn [app] in Hl. rewrite Hl; [reflexivity| |reflexivity].
    now rewrite Hlen, length_map.
  - now rewrite params_of_command_of.
Qed.

Lemma is_modifying_in (command_type : string) :
  is_modifying_command command_type = true -> In command_type MODIFYING.
Proof.
  unfold is_modifying_command. intros H.
  apply existsb_exists in H. destruct H as (name & Hin & E).
  apply String.eqb_eq in E. now subst.
Qed.

(** X23. The two lists of state-changing commands.  Every command type
    the client takes to change Live's state is run by the server on the
    main thread, but for ["load_instrument_or_effect"], which the server
    does not know and no tool sends: the tool of that name sends
    ["load_browser_item"], which is not in the client's list, so loading
    a browser item gets no settle delay. *)
Theorem modifying_commands_run_on_the_main_thread :
  (forall command_type,
      is_modifying_command command_type = true ->
      command_type = "load_instrument_or_effect"
      \/ py_in (JStr command_type) MAIN_THREAD = true)
  /\ known_command "load_instrument_or_effect" = false
  /\ (forall tool command_type keys,
         In (tool, command_type, keys) TOOL_COMMANDS ->
         command_type <> "load_instrument_or_effect")
  /\ (forall command_type keys,
         In ("load_instrument_or_effect", command_type, keys) TOOL_COMMANDS ->
         command_type = "load_browser_item"
         /\ is_modifying_command command_type = false
         /\ py_in (JStr command_type) MAIN_THREAD = true).
Proof.
  split; [|split; [reflexivity|split]].
  - intros command_type H. apply is_modifying_in in H.
    assert (Hall : forallb
                     (fun name =>
                        String.eqb name "load_instrument_or_effect"
                        || py_in (JStr name) MAIN_THREAD) MODIFYING = true)
      by (vm_compute; reflexivity).
    rewrite forallb_forall in Hall. specialize (Hall _ H).
    apply orb_true_iff in Hall. destruct Hall as [E|E]; [left|now right].
    now apply String.eqb_eq.
  - intros tool command_type keys Hin.
    assert (Hall : forallb
                     (fun entry =>
                        negb (String.eqb (snd (fst entry))
                                         "load_instrument_or_effect"))
                     TOOL_COMMANDS = true) by (vm_compute; reflexivity).
    rewrite forallb_forall in Hall. specialize (Hall _ Hin).
    apply negb_true_iff, String.eqb_neq in Hall. exact Hall.
  - intros command_type keys Hin.
    assert (Hall : forallb
                     (fun entry =>
                        negb (String.eqb (fst (fst entry))
                                         "load_instrument_or_effect")
                        || String.eqb (snd (fst entry)) "load_browser_item")
                     TOOL_COMMANDS = true) by (vm_compute; reflexivity).
    rewrite forallb_forall in Hall. specialize (Hall _ Hin).
    cbn [fst snd] in Hall. rewrite String.eqb_refl in Hall.
    apply String.eqb_eq in Hall. subst. repeat split.
Qed.

(** X24. An optional argument left out arrives as [None].  The tools that
    put an optional argument in the params only when it is given send
    params from which the server's branch calls the method with exactly
    the tool's arguments, the ones left out being [None] by the branch's
    default. *)
Theorem optional_arguments_reach_the_method (l : Live) :
  (forall record_length,
      served "trigger_session_record"
             (JDict (trigger_session_record_params record_length)) l
      = Some (call "_trigger_session_record" [record_length] l))
  /\ (forall track_indices,
         served "clear_arrangement"
                (JDict (clear_arrangement_params track_indices)) l
         = Some (call "_clear_arrangement" [track_indices] l))
  /\ (forall track_index clip_index start_beats length_beats loop,
         served "duplicate_track_clip_to_arrangement"
                (JDict (duplicate_track_clip_to_arrangement_params
                          track_index clip_index start_beats length_beats
                          loop)) l
         = Some (call "_duplicate_track_clip_to_arrangement"
                      [track_index; clip_index; start_beats; length_beats;
                       loop] l))
  /\ (forall track_index device_index value parameter_index parameter_name,
         served "set_device_parameter"
                (JDict (set_device_parameter_params
                          track_index device_index value
                          parameter_index parameter_name)) l
         = Some (call "_set_device_parameter"
                      [track_index; device_index; value;
                       parameter_index; parameter_name] l))
  /\ (forall track_index clip_index device_index points
             parameter_index parameter_name,
         served "write_automation"
                (JDict (write_automation_params
                          track_index clip_index device_index points
                          parameter_index parameter_name)) l
         = Some (call_kw "_write_automation"
                         (write_automation_params
                            track_index clip_index device_index points
                            parameter_index parameter_name) l)).
Proof.
  unfold served. repeat split.
  - intros v. destruct v; reflexivity.
  - intros v. destruct v; reflexivity.
  - intros ti ci sb lb loop. destruct loop; reflexivity.
  - intros ti di value pi pn. destruct pi; destruct pn; reflexivity.
  - intros ti ci di points pi pn. rewrite params_of_command_of.
    reflexivity.
Qed.

(** X25. The two tools that need a parameter to act on refuse at once
    when neither its index nor its name is given: they return their
    message without testing, making or using a connection, and the global
    connection is left as it was.  With one of the two given, the request
    is made. *)
Theorem a_tool_without_its_parameter_does_nothing
        (env : Env) (global : option AbletonConnection)
        (track_index clip_index device_index points value : json) :
  write_automation track_index clip_index device_index points JNull JNull
                   env global
  = (Some missing_parameter, global, [])
  /\ set_device_parameter track_index device_index value JNull JNull
                          env global
     = (Some missing_parameter, global, [])
  /\ forall parameter_index parameter_name,
      (parameter_index <> JNull \/ parameter_name <> JNull) ->
      snd (write_automation track_index clip_index device_index points
                            parameter_index parameter_name env global)
      = snd (request "write_automation"
                     (JDict (write_automation_params
                               track_index clip_index device_index points
                               parameter_index parameter_name))
                     env global)
      /\ snd (set_device_parameter track_index device_index value
                                   parameter_index parameter_name env global)
         = snd (request "set_device_parameter"
                        (JDict (set_device_parameter_params
                                  track_index device_index value
                                  parameter_index parameter_name))
                        env global).
Proof.
  split; [reflexivity|]. split; [reflexivity|].
  intros pi pn H. unfold write_automation, set_device_parameter.
  split.
  - destruct (request "write_automation" _ env global) as [[r g] log].
    destruct pi; destruct pn; try reflexivity.
    destruct H; congruence.
  - destruct (request "set_device_parameter" _ env global) as [[r g] log].
    destruct pi; destruct pn; try reflexivity.
    destruct H; congruence.
Qed.

Lemma request_on_a_live_link
      (command_type : string) (params : json) (env : Env)
      (self : AbletonConnection) (k : Socket) :
  sock self = Some k ->
  probe_error env = None ->
  request command_type params env (Some self)
  = (let '(r, self', log) :=
       send_command command_type params (command_net env)
                    (set_sock self (Some {| timeout := Some 1.0%float |})) in
     (r, Some self', ([SetTimeout 1.0%float; Sent []] ++ log)%list)).
Proof.
  intros Hs Hp. unfold request, get_ableton_connection, probe.
  rewrite Hs, Hp. reflexivity.
Qed.

Lemma request_answered_with_an_error
      (command_type : string) (params : json) (env : Env)
      (self : AbletonConnection) (k : Socket) (reply : bytes)
      (more : list recv_outcome) (message : string) :
  sock self = Some k ->
  probe_error env = None ->
  command_net env = {| connect_error := None; send_error := None;
                       replies := Data reply :: more |} ->
  reply <> [] ->
  parse reply = Ok (error_reply message) ->
  fst (request command_type params env (Some self))
  = (Some (Raise (Raised Exception
                         ("Communication error with Ableton: " ++ message))),
     Some (set_sock self None)).
Proof.
  intros Hs Hp Hnet Hreply Hparse.
  rewrite (request_on_a_live_link _ _ env self k Hs Hp), Hnet.
  rewrite (send_command_answered
             command_type params
             (set_sock self (Some {| timeout := Some 1.0%float |}))
             {| timeout := Some 1.0%float |} reply
             (Raise (Raised Exception message)) more
             eq_refl Hreply Hparse).
  reflexivity.
Qed.

(** X26. An error of the server as the user of a tool sees it.  On a
    cached connection that passes the test, when the server answers the
    tool's command with an error response, the tool returns its own
    prefix, then ["Communication error with Ableton: "], then the
    server's message; and the global connection is left without its
    socket. *)
Theorem a_server_error_reaches_the_user_as_text
        (env : Env) (self : AbletonConnection) (k : Socket) (reply : bytes)
        (more : list recv_outcome) (message : string) :
  sock self = Some k ->
  probe_error env = None ->
  command_net env = {| connect_error := None; send_error := None;
                       replies := Data reply :: more |} ->
  reply <> [] ->
  parse reply = Ok (error_reply message) ->
  (forall record_length,
      fst (trigger_session_record record_length env (Some self))
      = (Some ("Error triggering session record: "
               ++ "Communication error with Ableton: " ++ message),
         Some (set_sock self None)))
  /\ (forall track_indices,
         fst (clear_arrangement track_indices env (Some self))
         = (Some ("Error clearing arrangement: "
                  ++ "Communication error with Ableton: " ++ message),
            Some (set_sock self None)))
  /\ (forall track_index clip_index start_beats length_beats loop,
         fst (duplicate_track_clip_to_arrangement
                track_index clip_index start_beats length_beats loop
                env (Some self))
         = (Some ("Error duplicating session clip to arrangement: "
                  ++ "Communication error with Ableton: " ++ message),
            Some (set_sock self None)))
  /\ (forall track_index device_index value parameter_index parameter_name,
         (parameter_index <> JNull \/ parameter_name <> JNull) ->
         fst (set_device_parameter track_index device_index value
                                   parameter_index parameter_name
                                   env (Some self))
         = (Some ("Error setting device parameter: "
                  ++ "Communication error with Ableton: " ++ message),
            Some (set_sock self None)))
  /\ (forall track_index clip_index device_index points
             parameter_index parameter_name,
         (parameter_index <> JNull \/ parameter_name <> JNull) ->
         fst (write_automation track_index clip_index device_index points
                               parameter_index parameter_name
                               env (Some self))
         = (Some ("Error writing automation: "
                  ++ "Communication error with Ableton: " ++ message),
            Some (set_sock self None))).
Proof.
  intros Hs Hp Hnet Hreply Hparse.
  assert (Hreq : forall command_type params,
             fst (request command_type params env (Some self))
             = (Some (Raise (Raised Exception
                               ("Communication error with Ableton: "
                                ++ message))),
                Some (set_sock self None)))
    by (intros; eapply request_answered_with_an_error; eassumption).
  repeat split.
  - intros v. unfold trigger_session_record.
    specialize (Hreq "trigger_session_record"
                     (JDict (trigger_session_record_params v))).
    destruct (request _ _ env (Some self)) as [[r g] log].
    cbn [fst] in *. now inversion Hreq.
  - intros v. unfold clear_arrangement.
    specialize (Hreq "clear_arrangement"
                     (JDict (clear_arrangement_params v))).
    destruct (request _ _ env (Some self)) as [[r g] log].
    cbn [fst] in *. now inversion Hreq.
  - intros ti ci sb lb loop. unfold duplicate_track_clip_to_arrangement.
    specialize (Hreq "duplicate_track_clip_to_arrangement"
                     (JDict (duplicate_track_clip_to_arrangement_params
                               ti ci sb lb loop))).
    destruct (request _ _ env (Some self)) as [[r g] log].
    cbn [fst] in *. now inversion Hreq.
  - intros ti di value pi pn H. unfold set_device_parameter.
    specialize (Hreq "set_device_parameter"
                     (JDict (set_device_parameter_params ti di value pi pn))).
    destruct (request _ _ env (Some self)) as [[r g] log].
    cbn [fst] in *. inversion Hreq; subst.
    destruct pi; destruct pn; try reflexivity. destruct H; congruence.
  - intros ti ci di points pi pn H. unfold write_automation.
    specialize (Hreq "write_automation"
                     (JDict (write_automation_params ti ci di points pi pn))).
    destruct (request _ _ env (Some self)) as [[r g] log].
    cbn [fst] in *. inversion Hreq; subst.
    destruct pi; destruct pn; try reflexivity. destruct H; congruence.
Qed.

Lemma get_ableton_connection_raises
      (probe_error : option os_error) (nets : nat -> Net)
      (global global' : option AbletonConnection)
      (e : exn) (log : list action) :
  get_ableton_connection probe_error nets global
  = (Some (Raise e), global', log) ->
  e = could_not_connect /\ global' = None.
Proof.
  unfold get_ableton_connection.
  destruct global as [cached|].
  - destruct (probe probe_error cached) as [[c'|e'] lg]; [discriminate|].
    destruct (attempts _ _ None) as [[s0|[s0|]|s0] lg'];
      intros E; inversion E; split; reflexivity.
  - destruct (attempts _ _ None) as [[s0|[s0|]|s0] lg'];
      intros E; inversion E; split; reflexivity.
Qed.

(** X27. No connection, as the user of a tool sees it.  When
    [get_ableton_connection] fails, the tool returns its own prefix
    followed by ["Could not connect to Ableton. Make sure the Remote
    Script is running."], sends nothing of its own, and leaves no global
    connection. *)
Theorem no_connection_reaches_the_user_as_text
        (env : Env) (global global' : option AbletonConnection)
        (e : exn) (log : list action) :
  get_ableton_connection (probe_error env) (attempt_net env) global
  = (Some (Raise e), global', log) ->
  (forall record_length,
      trigger_session_record record_length env global
      = (Some ("Error triggering session record: " ++ str could_not_connect),
         None, log))
  /\ (forall track_indices,
         clear_arrangement track_indices env global
         = (Some ("Error clearing arrangement: " ++ str could_not_connect),
            None, log))
  /\ (forall track_index clip_index start_beats length_beats loop,
         duplicate_track_clip_to_arrangement
           track_index clip_index start_beats length_beats loop env global
         = (Some ("Error duplicating session clip to arrangement: "
                  ++ str could_not_connect),
            None, log))
  /\ (forall track_index device_index value parameter_index parameter_name,
         (parameter_index <> JNull \/ parameter_name <> JNull) ->
         set_device_parameter track_index device_index value
                              parameter_index parameter_name env global
         = (Some ("Error setting device parameter: "
                  ++ str could_not_connect),
            None, log))
  /\ (forall track_index clip_index device_index points
             parameter_index parameter_name,
         (parameter_index <> JNull \/ parameter_name <> JNull) ->
         write_automation track_index clip_index device_index points
                          parameter_index parameter_name env global
         = (Some ("Error writing automation: " ++ str could_not_connect),
            None, log)).
Proof.
  intros Hg.
  destruct (get_ableton_connection_raises _ _ _ _ _ _ Hg) as [-> ->].
  assert (Hreq : forall command_type params,
             request command_type params env global
             = (Some (Raise could_not_connect), None, log))
    by (intros; unfold request; now rewrite Hg).
  repeat split.
  - intros v. unfold trigger_session_record. now rewrite Hreq.
  - intros v. unfold clear_arrangement. now rewrite Hreq.
  - intros ti ci sb lb loop.
    unfold duplicate_track_clip_to_arrangement. now rewrite Hreq.
  - intros ti di value pi pn H. unfold set_device_parameter. rewrite Hreq.
    destruct pi; destruct pn; try reflexivity. destruct H; congruence.
  - intros ti ci di points pi pn H. unfold write_automation. rewrite Hreq.
    destruct pi; destruct pn; try reflexivity. destruct H; congruence.
Qed.

(** ** The server thread *)

Lemma accepting_accepted (client : nat) (st : Listener) :
  accepting (accepted client st) = accepting st.
Proof. reflexivity. Qed.

Lemma accepting_accept_failed (e : exn) (st : Listener) :
  accepting (accept_failed e st) = accepting st.
Proof.
  unfold accept_failed. destruct (isinstance e (OS socket_timeout));
    reflexivity.
Qed.

(** X28. Nothing [accept] raises stops the server thread.  As long as
    [disconnect()] has not been called the thread is back in [accept]
    after every event: each client accepted got its handler thread, in
    the order of arrival; a timeout costs nothing and any other error a
    pause of half a second. *)
Theorem accept_errors_never_stop_the_server_thread
        (evs : list listener_event) :
  forall st,
    accepting st = true ->
    forallb (fun ev => negb (is_halt ev)) evs = true ->
    fst (_server_thread evs st) = Listening
    /\ accepting (snd (_server_thread evs st)) = true
    /\ handlers (snd (_server_thread evs st))
       = (handlers st ++ clients_of evs)%list
    /\ naps (snd (_server_thread evs st)) = (naps st ++ naps_of evs)%list.
Proof.
  unfold _server_thread.
  induction evs as [|ev evs IH]; intros st Hrun Hev; rewrite Hrun.
  - cbn. rewrite !app_nil_r. auto.
  - cbn [forallb] in Hev. apply andb_true_iff in Hev. destruct Hev as [H1 H2].
    destruct ev as [[client|e]| |client]; try discriminate;
      cbn [listen_loop clients_of naps_of].
    + rewrite accepting_accepted, Hrun.
      specialize (IH (accepted client st) Hrun H2).
      rewrite accepting_accepted, Hrun in IH.
      destruct IH as (A & B & C & D). repeat split; auto.
      rewrite C. cbn [handlers accepted]. now rewrite <- app_assoc.
    + rewrite accepting_accept_failed, Hrun.
      specialize (IH (accept_failed e st)
                     (eq_trans (accepting_accept_failed e st) Hrun) H2).
      rewrite accepting_accept_failed, Hrun in IH.
      destruct IH as (A & B & C & D). repeat split; auto.
      * rewrite C. unfold accept_failed.
        destruct (isinstance e (OS socket_timeout)); reflexivity.
      * rewrite D. unfold accept_failed.
        destruct (isinstance e (OS socket_timeout)); [reflexivity|].
        cbn [naps]. now rewrite <- app_assoc.
    + destruct st as [acc ct al h n]. cbn [accepting] in Hrun. subst acc.
      cbn [accepting client_threads alive handlers naps].
      exact (IH {| accepting := true; client_threads := ct;
                   alive := filter (fun t => negb (Nat.eqb t client)) al;
                   handlers := h; naps := n |} eq_refl H2).
Qed.

Lemma listen_loop_between (evs1 : list listener_event) :
  forall (st : Listener) (rest : list listener_event),
    forallb (fun ev => negb (is_accept ev)) evs1 = true ->
    fst (listen_loop evs1 st) = Listening
    /\ (accepting st = false -> accepting (snd (listen_loop evs1 st)) = false)
    /\ handlers (snd (listen_loop evs1 st)) = handlers st
    /\ listen_loop (evs1 ++ rest) st
       = listen_loop rest (snd (listen_loop evs1 st)).
Proof.
  induction evs1 as [|ev evs1 IH]; intros st rest Hev.
  - repeat split; auto.
  - cbn [forallb] in Hev. apply andb_true_iff in Hev. destruct Hev as [H1 H2].
    destruct ev as [o| |client]; try discriminate; cbn [app listen_loop].
    + match goal with
      | |- context [listen_loop evs1 ?x] =>
          destruct (IH x rest H2) as (A & B & C & D)
      end.
      repeat split; auto.
    + match goal with
      | |- context [listen_loop evs1 ?x] =>
          destruct (IH x rest H2) as (A & B & C & D)
      end.
      repeat split; auto.
Qed.

(** X29. After [disconnect()] the server thread leaves its loop at the
    next return of [accept], and not before: a client accepted at that
    moment still gets a handler thread, and that handler, finding
    [self.running] false, closes the connection without reading from it.
    Nothing is accepted after that. *)
Theorem halt_stops_the_server_thread_at_the_next_accept
        (evs1 evs2 : list listener_event) (client : nat) (st : Listener)
        (handler_events : list event) (s : Server) :
  accepting st = true ->
  forallb (fun ev => negb (is_accept ev)) evs1 = true ->
  running s = false ->
  fst (_server_thread (Halt :: evs1 ++ Accept (Accepted client) :: evs2) st)
  = Stopped
  /\ handlers
       (snd (_server_thread
               (Halt :: evs1 ++ Accept (Accepted client) :: evs2) st))
     = (handlers st ++ [client])%list
  /\ _handle_client handler_events s = (Closed, new_conn, s).
Proof.
  intros Hrun Hev Hs. unfold _server_thread. rewrite Hrun.
  cbn [listen_loop].
  match goal with
  | |- context [listen_loop _ ?x] =>
      destruct (listen_loop_between evs1 x
                  (Accept (Accepted client) :: evs2) Hev)
        as (A & B & C & D);
      rewrite D; specialize (B eq_refl);
      destruct (listen_loop evs1 x) as [status st1]
  end.
  cbn [fst snd handlers] in *. cbn [listen_loop].
  rewrite accepting_accepted, B. cbn [fst snd handlers accepted].
  rewrite C. repeat split.
  unfold _handle_client. now rewrite Hs.
Qed.

End Transport.

(** * Worked examples

    The results above, at the reference codec and the stand-in Live. *)

Abbreviation studio_process :=
  (_process_command Studio.py_int Studio.call Studio.call_kw).
Abbreviation studio_turn :=
  (iteration Codec.loads Codec.dumps Codec.decode Codec.encode
             Studio.py_int Studio.call Studio.call_kw).
Abbreviation studio_loop :=
  (handle_loop Codec.loads Codec.dumps Codec.decode Codec.encode
               Studio.py_int Studio.call Studio.call_kw).
Abbreviation studio_send :=
  (send_command Codec.loads Codec.dumps Codec.decode Codec.encode
                Studio.py_repr).
Abbreviation studio_receive := (receive_full_response Codec.loads Codec.decode).
Abbreviation studio_connection :=
  (get_ableton_connection Codec.loads Codec.dumps Codec.decode Codec.encode
                          Studio.py_repr).
Abbreviation studio_request :=
  (request Codec.loads Codec.dumps Codec.decode Codec.encode Studio.py_repr).
Abbreviation studio_served :=
  (served Studio.py_int Studio.call Studio.call_kw).

(** A network that refuses the connection; one on which the server
    answers [reply]. *)
Definition refusing : Net :=
  {| connect_error := Some (OsError ConnectionError "Connection refused");
     send_error := None; replies := [] |}.

Definition answering (reply : json) : Net :=
  {| connect_error := None; send_error := None;
     replies := [Data (Studio.sent reply)] |}.

(** The server thread before anybody has connected. *)
Definition listener : Listener :=
  {| accepting := true; client_threads := []; alive := []; handlers := [];
     naps := [] |}.

(** An unknown command on a session that has just started. *)
Lemma unknown_command_witness :
  studio_process (JDict (Studio.command "unknown_thing" []))
                 (started Studio.session (Services 0))
  = (Ok (error_reply "Unknown command: unknown_thing"),
     started Studio.session (Services 0)).
Proof.
  apply (proj1 (unknown_command_is_answered_and_survived
                  Codec.loads Codec.dumps Codec.decode Codec.encode
                  Studio.py_int Studio.Live Studio.call Studio.call_kw
                  (Studio.command "unknown_thing" []) "unknown_thing"
                  (started Studio.session (Services 0))
                  eq_refl eq_refl)).
Defined.

(** The buffer holds the head of a command; the chunk that brings the rest,
    followed by two spaces, makes it parse: the buffer is empty after the
    turn, spaces included. *)
Lemma parsed_buffer_witness :
  buffer
    (snd (fst (studio_turn
                 (Data (Codec.encode
                          (substring 9 80
                             (Codec.dumps
                                (JDict (Studio.command "get_session_info" [])))
                           ++ "  ")))
                 {| buffer :=
                      substring 0 9
                        (Codec.dumps
                           (JDict (Studio.command "get_session_info" [])));
                    wire := [];
                    write_error := None |}
                 (started Studio.session (Services 0)))))
  = EmptyString.
Proof.
  refine (proj1 (proj2 (parsed_buffer_is_cleared
                   Codec.loads Codec.dumps Codec.decode Codec.encode
                   Studio.py_int Studio.Live Studio.call Studio.call_kw
                   _ _ _
                   (substring 9 80
                      (Codec.dumps
                         (JDict (Studio.command "get_session_info" [])))
                    ++ "  ")
                   (JDict (Studio.command "get_session_info" []))
                   _ _ _)));
    [discriminate | reflexivity | reflexivity].
Defined.

(** The main thread takes eleven seconds: the client is told of a timeout
    while the tempo is still 120; once the main thread has run, it is 90. *)
Lemma timeout_witness :
  fst (studio_process
         (JDict (Studio.command "set_tempo" [("tempo", JInt 90)]))
         (started Studio.session (Services 11)))
  = Ok (error_reply "Timeout waiting for operation to complete")
  /\ Studio.tempo
       (live (snd (studio_process
                     (JDict (Studio.command "set_tempo" [("tempo", JInt 90)]))
                     (started Studio.session (Services 11)))))
     = JFloat 120
  /\ Studio.tempo
       (live (run_scheduled
                Studio.py_int Studio.call Studio.call_kw
                (snd (studio_process
                        (JDict (Studio.command "set_tempo"
                                               [("tempo", JInt 90)]))
                        (started Studio.session (Services 11))))))
     = JInt 90.
Proof.
  destruct (proj1 (timeout_leaves_the_task_scheduled
                     Studio.py_int Studio.Live Studio.call Studio.call_kw
                     (Studio.command "set_tempo" [("tempo", JInt 90)])
                     (started Studio.session (Services 11)) 11
                     eq_refl eq_refl) eq_refl)
    as (H1 & H2 & H3 & H4 & H5 & H6).
  rewrite H1. cbn [fst snd]. split; [reflexivity|].
  split; [rewrite H2; reflexivity|].
  rewrite H4. reflexivity.
Defined.

(** [schedule_message] raises [AssertionError]: the track is made at once
    and the response tells of it; nothing is scheduled. *)
Lemma in_place_witness :
  studio_process
    (JDict (Studio.command "create_midi_track" []))
    (started Studio.session (Refuses (Raised AssertionError EmptyString)))
  = (Ok (success_reply (JDict [("index", JInt 2); ("name", JStr "MIDI")])),
     {| running := true;
        live := {| Studio.tempo := JFloat 120; Studio.tracks := 3 |};
        main_thread := Refuses (Raised AssertionError EmptyString);
        scheduled := [];
        queues := [[]] |}).
Proof.
  destruct (assertion_error_runs_the_task_in_place
              Studio.py_int Studio.Live Studio.call Studio.call_kw
              (Studio.command "create_midi_track" [])
              (started Studio.session
                       (Refuses (Raised AssertionError EmptyString)))
              (Raised AssertionError EmptyString)
              eq_refl eq_refl eq_refl)
    as (_ & _ & H & _).
  exact H.
Defined.

(** A track index out of range: [_get_track_info] raises [IndexError], the
    response carries its message. *)
Lemma exception_witness :
  studio_process
    (JDict (Studio.command "get_track_info" [("track_index", JInt 7)]))
    (started Studio.session (Services 0))
  = (Ok (error_reply "Track index out of range"),
     started Studio.session (Services 0)).
Proof.
  exact (proj1 (proj2 (exceptions_become_error_responses
                         Codec.loads Codec.dumps Codec.decode Codec.encode
                         Studio.py_int Studio.Live Studio.call Studio.call_kw
                         (Studio.command "get_track_info"
                                         [("track_index", JInt 7)])
                         (started Studio.session (Services 0))))
               (Call "_get_track_info" [Get "track_index" (JInt 0)])
               (Raised IndexError "Track index out of range")
               Studio.session eq_refl eq_refl).
Defined.

(** The response of the example above has the error shape. *)
Lemma response_shape_witness :
  (exists v, error_reply "Track index out of range" = success_reply v)
  \/ (exists m, error_reply "Track index out of range" = error_reply m).
Proof.
  exact (response_keeps_result_key
           Studio.py_int Studio.Live Studio.call Studio.call_kw
           (JDict (Studio.command "get_track_info" [("track_index", JInt 7)]))
           (started Studio.session (Services 0))
           (started Studio.session (Services 0))
           (error_reply "Track index out of range")
           eq_refl).
Defined.

(** Two commands, the first arriving in two chunks: two responses, each
    right after its command. *)
Lemma two_commands_witness :
  studio_loop
    (concat
       (map arrive
            [Studio.sent_in_two
               9 (JDict (Studio.command "get_session_info" []));
             [Studio.sent (JDict (Studio.command "unknown_thing" []))]]))
    new_conn (started Studio.session (Services 0))
  = (Reading,
     {| buffer := EmptyString;
        wire :=
          (map Rx (Studio.sent_in_two
                     9 (JDict (Studio.command "get_session_info" [])))
           ++ [Tx (Studio.sent
                     (success_reply
                        (JDict [("tempo", JFloat 120);
                                ("track_count", JInt 2)])))]
           ++ [Rx (Studio.sent (JDict (Studio.command "unknown_thing" [])))]
           ++ [Tx (Studio.sent
                     (error_reply "Unknown command: unknown_thing"))])%list;
        write_error := None |},
     started Studio.session (Services 0)).
Proof.
  rewrite <- (app_nil_r (concat _)).
  refine (proj1 (one_response_per_command_in_order
                   Codec.loads Codec.dumps Codec.decode Codec.encode
                   Studio.py_int Studio.Live Studio.call Studio.call_kw
                   [Studio.sent_in_two
                      9 (JDict (Studio.command "get_session_info" []));
                    [Studio.sent (JDict (Studio.command "unknown_thing" []))]]
                   [JDict (Studio.command "get_session_info" []);
                    JDict (Studio.command "unknown_thing" [])]
                   new_conn (started Studio.session (Services 0)) []
                   eq_refl eq_refl eq_refl _)).
  repeat constructor; eexists; reflexivity.
Defined.

(** Two commands in one chunk: the buffer never parses, nothing is
    answered and the handler waits for more. *)
Example two_commands_in_one_chunk :
  studio_loop
    [Recv (Data (Studio.sent (JDict (Studio.command "get_session_info" []))
                 ++ Studio.sent (JDict (Studio.command "unknown_thing" [])))
                %list)]
    new_conn (started Studio.session (Services 0))
  = (Reading,
     {| buffer :=
          Codec.dumps (JDict (Studio.command "get_session_info" []))
          ++ Codec.dumps (JDict (Studio.command "unknown_thing" []));
        wire :=
          [Rx (Studio.sent (JDict (Studio.command "get_session_info" []))
               ++ Studio.sent (JDict (Studio.command "unknown_thing" [])))
              %list];
        write_error := None |},
     started Studio.session (Services 0)).
Proof. reflexivity. Qed.

(** One chunk, an opening brace, then the timeout. *)
Lemma receive_timeout_witness :
  fst (fst (studio_receive
              {| timeout := None |}
              [Data (Codec.encode "{");
               RecvError (Raised (OS socket_timeout) "timed out")]))
  = Some (Raise (Raised Exception "Incomplete JSON response received")).
Proof.
  refine (proj2 (proj2 (proj1 (timeout_returns_only_valid_json
                                 Codec.loads Codec.decode
                                 {| timeout := None |} None
                                 [Codec.encode "{"] []
                                 (Raised (OS socket_timeout) "timed out")
                                 eq_refl) _)) eq_refl).
  discriminate.
Defined.

(** C7 (the code against the claim). ["get_session_info"] is not a
    state-changing command for the client and ["set_tempo"] is one, yet the
    [recv] of both runs under the same timeout of fifteen seconds:
    [send_command] sets ten seconds for the first, and
    [receive_full_response] sets fifteen before it receives anything.  The
    read-only command gets no settle delay; the state-changing one sleeps a
    tenth of a second before and after the exchange. *)
Lemma read_only_command_waits_fifteen_seconds :
  is_modifying_command "get_session_info" = false
  /\ is_modifying_command "set_tempo" = true
  /\ snd (studio_send
            "get_session_info" JNull
            {| connect_error := None; send_error := None;
               replies := [Data (Studio.sent (success_reply (JDict [])))] |}
            connected_link)
     = [Sent (Studio.sent (JDict (Studio.command "get_session_info" [])));
        SetTimeout 10; SetTimeout 15;
        Received (Some 15%float)
                 (Data (Studio.sent (success_reply (JDict []))))]
  /\ snd (studio_send
            "set_tempo" (JDict [("tempo", JInt 90)])
            {| connect_error := None; send_error := None;
               replies := [Data (Studio.sent (success_reply (JDict [])))] |}
            connected_link)
     = [Sent (Studio.sent
                (JDict (Studio.command "set_tempo" [("tempo", JInt 90)])));
        Slept 0.1; SetTimeout 15; SetTimeout 15;
        Received (Some 15%float)
                 (Data (Studio.sent (success_reply (JDict []))));
        Slept 0.1].
Proof. repeat split. Qed.

(** C8 (the claim fails). On a connected link, the server answers
    [{"status": "error", "result": {}, "message": "boom"}]: [send_command]
    raises ["Communication error with Ableton: boom"] and the socket the
    link had is gone. *)
Lemma error_response_drops_the_socket :
  fst (studio_send
         "get_session_info" JNull
         {| connect_error := None; send_error := None;
            replies := [Data (Studio.sent (error_reply "boom"))] |}
         connected_link)
  = (Some (Raise (Raised Exception "Communication error with Ableton: boom")),
     new_link)
  /\ sock new_link = None
  /\ sock new_link <> sock connected_link.
Proof. repeat split. discriminate. Qed.

(** ** More worked examples *)

(** The JSON list [[1]] as a command. *)
Lemma non_object_command_witness :
  studio_loop [Recv (Data (Codec.encode "[1]"))] new_conn
              (started Studio.session (Services 0))
  = (Closed,
     {| buffer := EmptyString;
        wire := [Rx (Codec.encode "[1]");
                 Tx (Studio.sent
                       (error_response
                          (Raised AttributeError
                                  "'list' object has no attribute 'get'")))];
        write_error := None |},
     started Studio.session (Services 0)).
Proof.
  refine (non_object_command_closes_the_connection
            Codec.loads Codec.dumps Codec.decode Codec.encode
            Studio.py_int Studio.Live Studio.call Studio.call_kw
            new_conn (started Studio.session (Services 0))
            (Codec.encode "[1]") "[1]" (JList [JInt 1]) []
            _ eq_refl eq_refl _ eq_refl);
    [discriminate | intros d; discriminate].
Defined.

(** A byte that is no UTF-8, while the buffer holds the head of a
    command. *)
Lemma undecodable_chunk_witness :
  studio_loop [Recv (Data [xff])]
              {| buffer := "{"; wire := []; write_error := None |}
              (started Studio.session (Services 0))
  = (Reading,
     {| buffer := "{";
        wire := [Rx [xff]; Tx (Studio.sent (error_response decode_error))];
        write_error := None |},
     started Studio.session (Services 0)).
Proof.
  refine (undecodable_chunk_is_answered_and_dropped
            Codec.loads Codec.dumps Codec.decode Codec.encode
            Studio.py_int Studio.Live Studio.call Studio.call_kw
            {| buffer := "{"; wire := []; write_error := None |}
            (started Studio.session (Services 0)) [xff] []
            eq_refl _ eq_refl eq_refl).
  discriminate.
Defined.

(** The connection is reset while the handler waits. *)
Lemma connection_end_witness :
  studio_loop [Recv (RecvError
                       (Raised (OS ConnectionResetError)
                               "Connection reset by peer"))]
              new_conn (started Studio.session (Services 0))
  = (Closed,
     {| buffer := EmptyString;
        wire := [Tx (Studio.sent
                       (error_response
                          (Raised (OS ConnectionResetError)
                                  "Connection reset by peer")))];
        write_error := None |},
     started Studio.session (Services 0)).
Proof.
  exact (proj2 (connection_end_leaves_the_script_untouched
                  Codec.loads Codec.dumps Codec.decode Codec.encode
                  Studio.py_int Studio.Live Studio.call Studio.call_kw
                  new_conn (started Studio.session (Services 0)) [])
               (Raised (OS ConnectionResetError) "Connection reset by peer")
               eq_refl).
Defined.

(** The peer is gone when [create_midi_track] arrives: the track is made,
    nothing is written. *)
Lemma lost_peer_witness :
  studio_loop
    [Recv (Data (Studio.sent (JDict (Studio.command "create_midi_track" []))))]
    {| buffer := EmptyString; wire := [];
       write_error := Some (OsError BrokenPipeError "Broken pipe") |}
    (started Studio.session (Refuses (Raised AssertionError EmptyString)))
  = (Closed,
     {| buffer := EmptyString;
        wire := [Rx (Studio.sent
                       (JDict (Studio.command "create_midi_track" [])))];
        write_error := Some (OsError BrokenPipeError "Broken pipe") |},
     {| running := true;
        live := {| Studio.tempo := JFloat 120; Studio.tracks := 3 |};
        main_thread := Refuses (Raised AssertionError EmptyString);
        scheduled := [];
        queues := [[]] |}).
Proof.
  refine (lost_peer_still_runs_the_command
            Codec.loads Codec.dumps Codec.decode Codec.encode
            Studio.py_int Studio.Live Studio.call Studio.call_kw
            {| buffer := EmptyString; wire := [];
               write_error := Some (OsError BrokenPipeError "Broken pipe") |}
            (started Studio.session
                     (Refuses (Raised AssertionError EmptyString)))
            _ (OsError BrokenPipeError "Broken pipe")
            (Studio.sent (JDict (Studio.command "create_midi_track" [])))
            (Codec.dumps (JDict (Studio.command "create_midi_track" [])))
            (Studio.command "create_midi_track" [])
            (success_reply (JDict [("index", JInt 2); ("name", JStr "MIDI")]))
            [] eq_refl _ eq_refl eq_refl eq_refl).
  discriminate.
Defined.

(** [disconnect()], then the main thread runs, then a command arrives, then
    another: the first is answered, the second is never read. *)
Lemma stop_witness :
  studio_loop
    [Stop; Tick;
     Recv (Data (Studio.sent (JDict (Studio.command "get_session_info" []))));
     Recv (Data (Studio.sent (JDict (Studio.command "get_session_info" []))))]
    new_conn (started Studio.session (Services 0))
  = (Closed,
     {| buffer := EmptyString;
        wire := [Rx (Studio.sent
                       (JDict (Studio.command "get_session_info" [])));
                 Tx (Studio.sent
                       (success_reply
                          (JDict [("tempo", JFloat 120);
                                  ("track_count", JInt 2)])))];
        write_error := None |},
     {| running := false; live := Studio.session;
        main_thread := Services 0; scheduled := []; queues := [] |}).
Proof.
  exact (stop_closes_after_the_turn_in_progress
           Codec.loads Codec.dumps Codec.decode Codec.encode
           Studio.py_int Studio.Live Studio.call Studio.call_kw
           [Tick]
           [Recv (Data (Studio.sent
                          (JDict (Studio.command "get_session_info" []))))]
           (Data (Studio.sent (JDict (Studio.command "get_session_info" []))))
           new_conn (started Studio.session (Services 0)) eq_refl).
Defined.

(** The head of a command in two chunks. *)
Lemma incomplete_buffer_witness :
  studio_loop (arrive [Codec.encode "{"; Codec.encode "  "])
              new_conn (started Studio.session (Services 0))
  = (Reading,
     {| buffer := "{  ";
        wire := [Rx (Codec.encode "{"); Rx (Codec.encode "  ")];
        write_error := None |},
     started Studio.session (Services 0)).
Proof.
  rewrite <- (app_nil_r (arrive _)).
  refine (nothing_is_written_while_the_buffer_is_incomplete
            Codec.loads Codec.dumps Codec.decode Codec.encode
            Studio.py_int Studio.Live Studio.call Studio.call_kw
            [Codec.encode "{"; Codec.encode "  "] ["{"; "  "]
            new_conn (started Studio.session (Services 0)) []
            eq_refl _ eq_refl).
  repeat constructor; discriminate.
Defined.

(** [get_track_info] without params reads track 0. *)
Lemma defaults_witness :
  run_body Studio.py_int Studio.call Studio.call_kw
           (Call "_get_track_info" [Get "track_index" (JInt 0)])
           (JDict []) Studio.session
  = (Ok (JDict [("index", JInt 0)]), Studio.session).
Proof.
  exact (proj2 (missing_parameters_take_their_defaults
                  Studio.py_int Studio.Live Studio.call Studio.call_kw
                  "_get_track_info" [Get "track_index" (JInt 0)] []
                  Studio.session eq_refl)).
Defined.

(** [get_track_info] with a list for params. *)
Lemma non_object_params_witness :
  studio_process
    (JDict [("type", JStr "get_track_info"); ("params", JList [JInt 1])])
    (started Studio.session (Services 0))
  = (Ok (error_reply "'list' object has no attribute 'get'"),
     started Studio.session (Services 0)).
Proof.
  refine (proj2 (proj2 (non_object_params_never_reach_the_method
                          Studio.py_int Studio.Live Studio.call Studio.call_kw
                          "_get_track_info" (Get "track_index" (JInt 0)) []
                          (JList [JInt 1]) _))
                [("type", JStr "get_track_info"); ("params", JList [JInt 1])]
                (started Studio.session (Services 0)) eq_refl eq_refl).
  intros p; discriminate.
Defined.

(** The type is the number 5. *)
Lemma non_string_type_witness :
  studio_process (JDict [("type", JInt 5)])
                 (started Studio.session (Services 0))
  = (Ok (error_reply
           ("can only concatenate str (not " ++ quoted "int" ++ ") to str")),
     started Studio.session (Services 0)).
Proof.
  refine (non_string_type_is_answered_with_a_type_error
            Studio.py_int Studio.Live Studio.call Studio.call_kw
            [("type", JInt 5)] (started Studio.session (Services 0)) _).
  intros t; discriminate.
Defined.

(** [get_session_info] while the main thread refuses callbacks. *)
Lemma read_only_witness :
  studio_process
    (JDict (Studio.command "get_session_info" []))
    (set_main_thread (started Studio.session (Services 0))
                     (Refuses (Raised RuntimeError "stuck")))
  = (Ok (success_reply
           (JDict [("tempo", JFloat 120); ("track_count", JInt 2)])),
     started Studio.session (Refuses (Raised RuntimeError "stuck"))).
Proof.
  exact (proj1 (read_only_commands_do_not_wait_for_the_main_thread
                  Studio.py_int Studio.Live Studio.call Studio.call_kw
                  (Studio.command "get_session_info" [])
                  (started Studio.session (Services 0))
                  (Call "_get_session_info" [])
                  (Refuses (Raised RuntimeError "stuck")) eq_refl)).
Defined.

(** [set_tempo] has its branch in [main_thread_task]. *)
Lemma main_thread_body_witness :
  exists b, find_body (JStr "set_tempo") MAIN_THREAD_BODIES = Some b.
Proof.
  exact (proj1 (every_main_thread_command_has_a_body (JStr "set_tempo"))
               eq_refl).
Defined.

(** A response in two chunks, followed by something else. *)
Lemma first_complete_json_witness :
  studio_receive {| timeout := None |}
                 [Data (Codec.encode "{"); Data (Codec.encode "}");
                  Data (Codec.encode "{}")]
  = (Some (Ok (Codec.encode "{}")),
     {| timeout := Some 15%float |},
     [SetTimeout 15;
      Received (Some 15%float) (Data (Codec.encode "{"));
      Received (Some 15%float) (Data (Codec.encode "}"))]).
Proof.
  refine (response_ends_at_the_first_complete_json
            Codec.loads Codec.decode {| timeout := None |}
            [Codec.encode "{"] (Codec.encode "}") (JDict [])
            [Data (Codec.encode "{}")] eq_refl _ eq_refl).
  discriminate.
Defined.

(** The server answers [{}]. *)
Lemma missing_status_witness :
  fst (studio_send "get_session_info" JNull (answering (JDict []))
                   connected_link)
  = (Some (Ok (JDict [])),
     set_sock connected_link (Some {| timeout := Some 15%float |})).
Proof.
  refine (any_status_but_error_is_a_success
            Codec.loads Codec.dumps Codec.decode Codec.encode Studio.py_repr
            "get_session_info" JNull (answering (JDict [])) connected_link
            {| timeout := None |} (Studio.sent (JDict [])) []
            eq_refl eq_refl eq_refl eq_refl _).
  discriminate.
Defined.

(** A new link, the connection refused. *)
Lemma connect_on_demand_witness :
  studio_send "get_session_info" JNull refusing new_link
  = (Some (Raise (Raised (OS ConnectionError) "Not connected to Ableton")),
     new_link, []).
Proof.
  exact (proj1 (send_command_connects_on_demand
                  Codec.loads Codec.dumps Codec.decode Codec.encode
                  Studio.py_repr "get_session_info" JNull refusing new_link
                  eq_refl)
               (OsError ConnectionError "Connection refused") eq_refl).
Defined.

(** [set_tempo], answered with a success. *)
Lemma settle_delays_witness :
  sleeps (snd (studio_send "set_tempo" (JDict [("tempo", JInt 90)])
                           (answering (success_reply (JDict [])))
                           connected_link))
  = [0.1; 0.1]%float.
Proof.
  exact (proj1 (proj2 (settle_delays_follow_the_outcome
                         Codec.loads Codec.dumps Codec.decode Codec.encode
                         Studio.py_repr "set_tempo"
                         (JDict [("tempo", JInt 90)])
                         (answering (success_reply (JDict [])))
                         connected_link))
               eq_refl (JDict [])
               (set_sock connected_link (Some {| timeout := Some 15%float |}))
               _ eq_refl).
Defined.

(** [get_session_info], from the call of [send_command] to its return. *)
Lemma round_trip_witness :
  studio_loop
    [Recv (Data (Studio.sent (JDict (Studio.command "get_session_info" []))))]
    new_conn (started Studio.session (Services 0))
  = (Reading,
     answered Codec.dumps Codec.encode new_conn
              [Studio.sent (JDict (Studio.command "get_session_info" []))]
              (success_reply
                 (JDict [("tempo", JFloat 120); ("track_count", JInt 2)])),
     started Studio.session (Services 0))
  /\ fst (studio_send
            "get_session_info" JNull
            (answering
               (success_reply
                  (JDict [("tempo", JFloat 120); ("track_count", JInt 2)])))
            connected_link)
     = (Some (Ok (JDict [("tempo", JFloat 120); ("track_count", JInt 2)])),
        set_sock connected_link (Some {| timeout := Some 15%float |})).
Proof.
  destruct (command_round_trip
              Codec.loads Codec.dumps Codec.decode Codec.encode
              Studio.py_int Studio.Live Studio.call Studio.call_kw
              Studio.py_repr "get_session_info" JNull connected_link
              {| timeout := None |} new_conn
              (started Studio.session (Services 0))
              (started Studio.session (Services 0))
              (success_reply
                 (JDict [("tempo", JFloat 120); ("track_count", JInt 2)]))
              [] []
              eq_refl eq_refl eq_refl eq_refl
              ltac:(discriminate) eq_refl eq_refl
              ltac:(discriminate) eq_refl eq_refl eq_refl)
    as (_ & Hserver & o & Ho & Hclient).
  split; [exact Hserver|].
  unfold answering, Studio.sent. rewrite Hclient.
  destruct o as [v|e]; [|discriminate Ho].
  inversion Ho. reflexivity.
Defined.

(** No cached connection; the first attempt is answered. *)
Lemma returned_connection_witness :
  studio_connection None (fun _ => answering (success_reply (JDict []))) None
  = (Some (Ok (set_sock connected_link
                        (Some {| timeout := Some 15%float |}))),
     Some (set_sock connected_link (Some {| timeout := Some 15%float |})),
     [Sent (Studio.sent (JDict (Studio.command "get_session_info" [])));
      SetTimeout 10; SetTimeout 15;
      Received (Some 15%float)
               (Data (Studio.sent (success_reply (JDict []))))])
  /\ exists k,
      sock (set_sock connected_link (Some {| timeout := Some 15%float |}))
      = Some k.
Proof.
  split; [reflexivity|].
  exact (proj1 (a_returned_connection_has_a_socket
                  Codec.loads Codec.dumps Codec.decode Codec.encode
                  Studio.py_repr
                  None (fun _ => answering (success_reply (JDict []))) None
                  (Some (set_sock connected_link
                                  (Some {| timeout := Some 15%float |})))
                  (set_sock connected_link
                            (Some {| timeout := Some 15%float |}))
                  _ eq_refl)).
Defined.

(** Nobody listens on the port. *)
Lemma could_not_connect_witness :
  studio_connection None (fun _ => refusing) None
  = (Some (Raise could_not_connect), None, [Slept 1; Slept 1])
  /\ sleeps [Slept 1; Slept 1] = [1; 1]%float.
Proof.
  split; [reflexivity|].
  exact (proj1 (proj2 (proj2 (could_not_connect_is_the_only_failure
                                Codec.loads Codec.dumps Codec.decode
                                Codec.encode Studio.py_repr
                                None (fun _ => refusing) None None
                                could_not_connect [Slept 1; Slept 1]
                                eq_refl)))).
Defined.

(** The first attempt is refused, the second is answered. *)
Lemma second_attempt_witness :
  exists self log,
    studio_connection
      None
      (fun attempt =>
         if (attempt =? 1)%nat then refusing
         else answering (success_reply (JDict [])))
      None
    = (Some (Ok self), Some self, log)
    /\ sock self = Some {| timeout := Some 15%float |}
    /\ sleeps log = [1%float].
Proof.
  refine (the_first_good_attempt_wins
            Codec.loads Codec.dumps Codec.decode Codec.encode Studio.py_repr
            None
            (fun attempt =>
               if (attempt =? 1)%nat then refusing
               else answering (success_reply (JDict [])))
            1 _ _ eq_refl).
  - unfold max_attempts. lia.
  - intros attempt H. assert (attempt = 1)%nat by lia. subst. reflexivity.
Defined.

(** A tool's command answered with an error, then the next call. *)
Lemma reconnection_witness :
  studio_connection
    None (fun _ => refusing)
    (Some (set_sock connected_link None))
  = studio_connection None (fun _ => refusing) None.
Proof.
  exact (proj1 (a_failed_request_forces_a_reconnection
                  Codec.loads Codec.dumps Codec.decode Codec.encode
                  Studio.py_repr "set_tempo" (JDict [("tempo", JInt 90)])
                  {| probe_error := None;
                     attempt_net := fun _ => refusing;
                     command_net := answering (error_reply "boom") |}
                  (Some connected_link)
                  (Some (set_sock connected_link None))
                  _)
               (Raised Exception "Communication error with Ableton: boom")
               eq_refl None (fun _ => refusing)).
Defined.

(** The tool [load_instrument_or_effect]. *)
Lemma tool_command_witness :
  known_command "load_browser_item" = true
  /\ exists b, branch_of (JStr "load_browser_item") = Some b.
Proof.
  refine (every_tool_command_has_a_branch
            "load_instrument_or_effect" "load_browser_item"
            ["track_index"; "item_uri"] _).
  unfold TOOL_COMMANDS.
  repeat (first [left; reflexivity | right]).
Defined.

(** The tool [set_tempo], called with 90. *)
Lemma tool_arguments_witness :
  studio_served "set_tempo" (JDict [("tempo", JInt 90)]) Studio.session
  = Some (Ok (JDict [("tempo", JInt 90)]),
          {| Studio.tempo := JInt 90; Studio.tracks := 2 |}).
Proof.
  refine (proj2 (tool_arguments_arrive_in_order
                   Studio.py_int Studio.Live Studio.call Studio.call_kw
                   "set_tempo" "set_tempo" ["tempo"] [JInt 90]
                   Studio.session _ eq_refl)
                eq_refl).
  unfold TOOL_COMMANDS.
  repeat (first [left; reflexivity | right]).
Defined.

(** [set_tempo] is in both lists. *)
Lemma modifying_command_witness :
  "set_tempo" = "load_instrument_or_effect"
  \/ py_in (JStr "set_tempo") MAIN_THREAD = true.
Proof.
  exact (proj1 modifying_commands_run_on_the_main_thread "set_tempo" eq_refl).
Defined.

(** [set_device_parameter] with a parameter name. *)
Lemma tool_with_parameter_witness :
  snd (set_device_parameter
         Codec.loads Codec.dumps Codec.decode Codec.encode Studio.py_repr
         (JInt 0) (JInt 0) (JFloat 1) JNull (JStr "Decay")
         {| probe_error := None;
            attempt_net := fun _ => refusing;
            command_net := answering (error_reply "boom") |}
         (Some connected_link))
  = snd (studio_request
           "set_device_parameter"
           (JDict [("track_index", JInt 0); ("device_index", JInt 0);
                   ("value", JFloat 1); ("parameter_name", JStr "Decay")])
           {| probe_error := None;
              attempt_net := fun _ => refusing;
              command_net := answering (error_reply "boom") |}
           (Some connected_link)).
Proof.
  refine (proj2 (proj2 (proj2 (a_tool_without_its_parameter_does_nothing
                                 Codec.loads Codec.dumps Codec.decode
                                 Codec.encode Studio.py_repr
                                 {| probe_error := None;
                                    attempt_net := fun _ => refusing;
                                    command_net :=
                                      answering (error_reply "boom") |}
                                 (Some connected_link)
                                 (JInt 0) (JInt 0) (JInt 0) (JList [])
                                 (JFloat 1)))
                       JNull (JStr "Decay") _)).
  right. discriminate.
Defined.

(** [trigger_session_record] when the server answers ["boom"]. *)
Lemma server_error_witness :
  fst (trigger_session_record
         Codec.loads Codec.dumps Codec.decode Codec.encode Studio.py_repr
         JNull
         {| probe_error := None;
            attempt_net := fun _ => refusing;
            command_net := answering (error_reply "boom") |}
         (Some connected_link))
  = (Some ("Error triggering session record: "
           ++ "Communication error with Ableton: boom"),
     Some (set_sock connected_link None)).
Proof.
  refine (proj1 (a_server_error_reaches_the_user_as_text
                   Codec.loads Codec.dumps Codec.decode Codec.encode
                   Studio.py_repr Codec.dumps
                   {| probe_error := None;
                      attempt_net := fun _ => refusing;
                      command_net := answering (error_reply "boom") |}
                   connected_link {| timeout := None |}
                   (Studio.sent (error_reply "boom")) [] "boom"
                   eq_refl eq_refl eq_refl _ eq_refl)
                JNull).
  discriminate.
Defined.

(** [clear_arrangement] when nobody listens. *)
Lemma no_connection_witness :
  clear_arrangement
    Codec.loads Codec.dumps Codec.decode Codec.encode Studio.py_repr
    Codec.dumps JNull
    {| probe_error := None;
       attempt_net := fun _ => refusing;
       command_net := refusing |}
    None
  = (Some ("Error clearing arrangement: "
           ++ "Could not connect to Ableton. "
           ++ "Make sure the Remote Script is running."),
     None, [Slept 1; Slept 1]).
Proof.
  exact (proj1 (proj2 (no_connection_reaches_the_user_as_text
                         Codec.loads Codec.dumps Codec.decode Codec.encode
                         Studio.py_repr Codec.dumps
                         {| probe_error := None;
                            attempt_net := fun _ => refusing;
                            command_net := refusing |}
                         None None could_not_connect [Slept 1; Slept 1]
                         eq_refl))
               JNull).
Defined.

(** A timeout, a client, an error of [accept], the end of the client's
    handler. *)
Lemma server_thread_witness :
  fst (_server_thread
         [Accept (AcceptError (Raised (OS socket_timeout) "timed out"));
          Accept (Accepted 0);
          Accept (AcceptError (Raised (OS OSError) "Too many open files"));
          Ended 0]
         listener)
  = Listening
  /\ handlers
       (snd (_server_thread
               [Accept (AcceptError (Raised (OS socket_timeout) "timed out"));
                Accept (Accepted 0);
                Accept (AcceptError
                          (Raised (OS OSError) "Too many open files"));
                Ended 0]
               listener))
     = [0%nat]
  /\ naps
       (snd (_server_thread
               [Accept (AcceptError (Raised (OS socket_timeout) "timed out"));
                Accept (Accepted 0);
                Accept (AcceptError
                          (Raised (OS OSError) "Too many open files"));
                Ended 0]
               listener))
     = [0.5%float].
Proof.
  destruct (accept_errors_never_stop_the_server_thread
              [Accept (AcceptError (Raised (OS socket_timeout) "timed out"));
               Accept (Accepted 0);
               Accept (AcceptError
                         (Raised (OS OSError) "Too many open files"));
               Ended 0]
              listener eq_refl eq_refl)
    as (A & B & C & D).
  repeat split; assumption.
Defined.

(** [disconnect()] while the server thread waits in [accept], then a
    client. *)
Lemma halt_witness :
  fst (_server_thread [Halt; Ended 7; Accept (Accepted 1); Accept (Accepted 2)]
                      listener)
  = Stopped
  /\ handlers
       (snd (_server_thread
               [Halt; Ended 7; Accept (Accepted 1); Accept (Accepted 2)]
               listener))
     = [1%nat]
  /\ _handle_client
       Codec.loads Codec.dumps Codec.decode Codec.encode
       Studio.py_int Studio.call Studio.call_kw
       [Recv (Data (Studio.sent
                      (JDict (Studio.command "get_session_info" []))))]
       (set_running (started Studio.session (Services 0)) false)
     = (Closed, new_conn,
        set_running (started Studio.session (Services 0)) false).
Proof.
  exact (halt_stops_the_server_thread_at_the_next_accept
           Codec.loads Codec.dumps Codec.decode Codec.encode
           Studio.py_int Studio.Live Studio.call Studio.call_kw
           [Ended 7] [Accept (Accepted 2)] 1 listener
           [Recv (Data (Studio.sent
                          (JDict (Studio.command "get_session_info" []))))]
           (set_running (started Studio.session (Services 0)) false)
           eq_refl eq_refl eq_refl).
Defined.
